(** * abrt-cli report: the editable report document, settings and dispatch

    A shallow embedding of [src/cli/report.cpp] and [src/lib/user_settings.c].

    Conventions of the embedding.
    - A [char *] is a [string]; the end of the Rocq string is the terminating
      NUL of the buffer.  The two character scanners ([escape] and
      [remove_comments_and_unescape]) test [*src] as the source does, so a
      NUL inside the string stops them like the terminator would.
    - [crash_data_t], [map_string_t] and [map_string_h] are hash tables or
      ordered maps keyed by strings: [gmap string _].
    - [FILE *] opened for writing is the text written so far; [error_msg]
      appends to a log of messages; [puts]/[printf] append lines to stdout.
    - [_("...")] (gettext) is the identity: the messages are the untranslated
      ones.
    - Code that runs a sequence of calls on the same report or stream is
      written in a state monad. *)

From stdpp Require Import gmap strings list fin_maps pretty.
From Stdlib Require Import ZArith Ascii String.

Open Scope string_scope.
Open Scope Z_scope.

(** ** A small state monad *)

Definition stateT (S A : Type) : Type := S → A * S.

Global Instance state_ret {S} : MRet (stateT S) := λ A a s, (a, s).
Global Instance state_bind {S} : MBind (stateT S) :=
  λ A B f m s, let '(a, s') := m s in f a s'.

Definition modify {S} (f : S → S) : stateT S () := λ s, ((), f s).

(** ** Characters and C library helpers *)

Definition NUL : ascii := "000"%char.
Definition LF : ascii := "010"%char.
Definition nl : string := String LF "".

(** [isspace] of the C locale: space, \t, \n, \v, \f, \r. *)
Definition isspace (c : ascii) : bool :=
  let n := nat_of_ascii c in
  (n =? 32)%nat || ((9 <=? n)%nat && (n <=? 13)%nat).

(** [strlen]: the characters before the first NUL. *)
Fixpoint strlen (s : string) : nat :=
  match s with
  | "" => O
  | String c rest => if Ascii.eqb c NUL then O else S (strlen rest)
  end.

(** [strstr]: the suffix of [hay] that starts at the first occurrence of
    [needle], [None] for a NULL result. *)
Fixpoint strstr (hay needle : string) : option string :=
  if String.prefix needle hay then Some hay
  else match hay with
       | "" => None
       | String _ rest => strstr rest needle
       end.

(** [strncpy(dst, src, n); dst[n] = 0] for [n <= strlen(src)]. *)
Definition strndup (src : string) (n : nat) : string := String.substring 0 n src.

(** [s[n]], the terminating NUL included. *)
Definition char_at (n : nat) (s : string) : ascii :=
  default NUL (String.get n s).

(** Pointer advance [p + n] inside a string. *)
Fixpoint advance (n : nat) (p : string) : string :=
  match n, p with
  | S m, String _ q => advance m q
  | _, _ => p
  end.

(** ** FieldCodec: trim, escape, remove_comments_and_unescape *)

(** Modelled from the spec: [skip_whitespace] is declared in abrtlib.h and
    defined outside the two source files; [trim] "removes leading and
    trailing whitespace", so it skips the leading [isspace] characters. *)
Fixpoint skip_whitespace (s : string) : string :=
  match s with
  | String c rest => if isspace c then skip_whitespace rest else s
  | "" => ""
  end.

(** The loop [while (--i >= 0) if (!isspace(str[i])) break;] followed by
    [++i]: from a length [i], the length that is left. *)
Fixpoint trim_end (str : string) (i : nat) : nat :=
  match i with
  | O => O
  | S j =>
      match String.get j str with
      | Some c => if isspace c then trim_end str j else i
      | None => i
      end
  end.

(** The buffer after [trim(str)] for a non-NULL [str]. *)
Definition trim_buf (str : string) : string :=
  let ibuf := skip_whitespace str in
  let i := String.length ibuf in
  strndup ibuf (trim_end ibuf i).

(** [trim]: NULL in, NULL out. *)
Definition trim (str : option string) : option string :=
  match str with
  | None => None
  | Some s => Some (trim_buf s)
  end.

(** First loop of [escape]: the number of escape characters to insert. *)
Fixpoint escape_count (newline : bool) (ptr : string) : nat :=
  match ptr with
  | "" => O
  | String c rest =>
      if Ascii.eqb c NUL then O else
      let c1 := if newline && Ascii.eqb c "#" then 1%nat else O in
      let c2 := if newline && Ascii.eqb c "\" && Ascii.eqb (char_at 0 rest) "#"
                then 1%nat else O in
      (c1 + c2 + escape_count (Ascii.eqb c LF) rest)%nat
  end.

(** Second loop of [escape]: the copy, with [newline] the loop's flag. *)
Fixpoint escape_from (newline : bool) (src : string) : string :=
  match src with
  | "" => ""
  | String c rest =>
      if Ascii.eqb c NUL then "" else
      let copy := String c (escape_from (Ascii.eqb c LF) rest) in
      if newline
         && (Ascii.eqb c "#"
             || Ascii.eqb c "\" && Ascii.eqb (char_at 0 rest) "#")
      then String "\" copy
      else copy
  end.

Definition escape (str : string) : string := escape_from true str.

(** [remove_comments_and_unescape] works in place with [dest <= src]: every
    character is read before its cell can be overwritten, so the result is a
    function of the original text.  The inner [fix] is the loop that skips a
    comment line; it starts on the '#' itself.  With [src] at [c], [src[1]]
    and [src[2]] are [char_at 0 rest] and [char_at 1 rest]. *)
Fixpoint unescape_from (newline : bool) (src : string) : string :=
  match src with
  | "" => ""
  | String c rest =>
      if Ascii.eqb c NUL then "" else
      if newline && Ascii.eqb c "#" then
        (fix skip (p : string) : string :=
           match p with
           | "" => ""
           | String d q =>
               if Ascii.eqb d NUL then ""
               else if Ascii.eqb d LF then unescape_from true q
               else skip q
           end) src
      else if newline && Ascii.eqb c "\"
              && (Ascii.eqb (char_at 0 rest) "#"
                  || Ascii.eqb (char_at 0 rest) "\"
                     && Ascii.eqb (char_at 1 rest) "#")
      then (* ++src, then the copy below at the next character *)
        match rest with
        | String d q => String d (unescape_from (Ascii.eqb d LF) q)
        | "" => ""
        end
      else String c (unescape_from (Ascii.eqb c LF) rest)
  end.

Definition remove_comments_and_unescape (str : string) : string :=
  unescape_from true str.

(** ** Constants of crash_types.h

    The field names and flag bits are macros of a header that is not part of
    the two source files: they are parameters of the development. *)

Class crash_types := {
  FILENAME_COMMENT : string;
  FILENAME_REPRODUCE : string;
  FILENAME_BACKTRACE : string;
  FILENAME_DUPHASH : string;
  FILENAME_ARCHITECTURE : string;
  FILENAME_CMDLINE : string;
  FILENAME_COMPONENT : string;
  FILENAME_COREDUMP : string;
  FILENAME_EXECUTABLE : string;
  FILENAME_KERNEL : string;
  FILENAME_PACKAGE : string;
  FILENAME_REASON : string;
  FILENAME_RELEASE : string;
  FILENAME_RATING : string;
  CD_EVENTS : string;
  CD_FLAG_SYS : Z;
  CD_FLAG_TXT : Z;
  CD_FLAG_ISEDITABLE : Z
}.

(** [struct crash_item] *)
Record crash_item := CrashItem { content : string; flags : Z }.

Global Instance crash_item_eq_dec : EqDecision crash_item.
Proof. solve_decision. Defined.

(** What the editing functions act on: the report, the file being written
    and the messages of [error_msg]. *)
Record world := World {
  w_report : gmap string crash_item;
  w_file : string;
  w_log : list string
}.

Definition fputs (s : string) : stateT world () :=
  modify (λ w, World (w_report w) (w_file w +:+ s) (w_log w)).

Definition error_msg (s : string) : stateT world () :=
  modify (λ w, World (w_report w) (w_file w) (w_log w ++ [s])).

Definition get_crash_data_item_or_NULL (field : string)
  : stateT world (option crash_item) :=
  λ w, (w_report w !! field, w).

(** [free(value->content); value->content = xstrdup(newvalue)] on the item
    stored under [field]. *)
Definition set_content (field : string) (value : crash_item) (newvalue : string)
  : stateT world () :=
  modify (λ w, World (<[field := CrashItem newvalue (flags value)]> (w_report w))
                     (w_file w) (w_log w)).

Definition FIELD_SEP : string := "%----".

Definition msg_system_value (field : string) : string :=
  "Cannot update field " +:+ field +:+ " because it is a system value".

Definition msg_not_found (field : string) : string :=
  "Field " +:+ field +:+ " not found".

Section ReportDocument.
Context {ct : crash_types}.

(** ** ReportDocument: rendering *)

Definition write_crash_report_field (field description : string)
  : stateT world () :=
  value ← get_crash_data_item_or_NULL field;
  match value with
  | None => mret ()
  | Some value =>
      if bool_decide (Z.land (flags value) CD_FLAG_SYS ≠ 0) then
        error_msg (msg_system_value field)
      else
        fputs (FIELD_SEP +:+ field +:+ nl);;
        fputs (description +:+ nl);;
        (if bool_decide (Z.land (flags value) CD_FLAG_ISEDITABLE = 0)
         then fputs ("# This field is read only" +:+ nl)
         else mret ());;
        fputs (escape (content value) +:+ nl)
  end.

Definition preamble : string :=
  "# Please check this report. Lines starting with '#' will be ignored."
  +:+ nl +:+
  "# Lines starting with '%----' separate fields, please do not delete them."
  +:+ nl +:+ nl.

Definition write_crash_report : stateT world () :=
  fputs preamble;;
  write_crash_report_field FILENAME_COMMENT
    "# Describe the circumstances of this crash below";;
  write_crash_report_field FILENAME_REPRODUCE
    "# How to reproduce the crash?";;
  write_crash_report_field FILENAME_BACKTRACE
    ("# Backtrace" +:+ nl +:+
     "# Check that it does not contain any sensitive data (passwords, etc.)");;
  write_crash_report_field FILENAME_DUPHASH "# DUPHASH";;
  write_crash_report_field FILENAME_ARCHITECTURE "# Architecture";;
  write_crash_report_field FILENAME_CMDLINE "# Command line";;
  write_crash_report_field FILENAME_COMPONENT "# Component";;
  write_crash_report_field FILENAME_COREDUMP "# Core dump";;
  write_crash_report_field FILENAME_EXECUTABLE "# Executable";;
  write_crash_report_field FILENAME_KERNEL "# Kernel version";;
  write_crash_report_field FILENAME_PACKAGE "# Package";;
  write_crash_report_field FILENAME_REASON "# Reason of crash";;
  write_crash_report_field FILENAME_RELEASE
    "# Release string of the operating system".

(** ** ReportDocument: reading the edited text back *)

Definition read_crash_report_field (text field : string) : stateT world Z :=
  let separator := nl +:+ FIELD_SEP +:+ field +:+ nl in
  match strstr text separator with
  | None => mret 0
  | Some textfield =>
      let textfield := advance (String.length separator) textfield in
      let length :=
        match strstr textfield (nl +:+ FIELD_SEP) with
        | None => String.length textfield
        | Some e => (String.length textfield - String.length e)%nat
        end in
      value ← get_crash_data_item_or_NULL field;
      match value with
      | None => error_msg (msg_not_found field);; mret 0
      | Some value =>
          if bool_decide (Z.land (flags value) CD_FLAG_SYS ≠ 0) then
            error_msg (msg_system_value field);; mret 0
          else if bool_decide (Z.land (flags value) CD_FLAG_ISEDITABLE = 0)
          then mret 0
          else
            let newvalue := trim_buf (strndup textfield length) in
            let oldvalue := trim_buf (content value) in
            if bool_decide (newvalue = oldvalue) then mret 0
            else set_content field value newvalue;; mret 1
      end
  end.

Definition read_crash_report (text : string) : stateT world Z :=
  let result := 0 in
  r ← read_crash_report_field text FILENAME_COMMENT; let result := Z.lor result r in
  r ← read_crash_report_field text FILENAME_REPRODUCE; let result := Z.lor result r in
  r ← read_crash_report_field text FILENAME_BACKTRACE; let result := Z.lor result r in
  r ← read_crash_report_field text FILENAME_DUPHASH; let result := Z.lor result r in
  r ← read_crash_report_field text FILENAME_ARCHITECTURE; let result := Z.lor result r in
  r ← read_crash_report_field text FILENAME_CMDLINE; let result := Z.lor result r in
  r ← read_crash_report_field text FILENAME_COMPONENT; let result := Z.lor result r in
  r ← read_crash_report_field text FILENAME_COREDUMP; let result := Z.lor result r in
  r ← read_crash_report_field text FILENAME_EXECUTABLE; let result := Z.lor result r in
  r ← read_crash_report_field text FILENAME_KERNEL; let result := Z.lor result r in
  r ← read_crash_report_field text FILENAME_PACKAGE; let result := Z.lor result r in
  r ← read_crash_report_field text FILENAME_REASON; let result := Z.lor result r in
  r ← read_crash_report_field text FILENAME_RELEASE; let result := Z.lor result r in
  mret result.

End ReportDocument.

(** ** Services outside the two source files

    The report daemon ([call_GetPluginSettings], [call_Report]), libreport's
    [load_conf_file], [string_to_bool], [xatou], [concat_path_file] and the
    operating system are black boxes: their results are parameters.
    - [load_conf_file path map] returns the flag and the map it filled.
    - [xatou] is [None] when it ends the process on a malformed number.
    - [make_dir_recursive], [fopen_w] and [rename] give the result of the
      call ([rename]: 0 on success, -1 on error, as rename(2)).
    - [call_Report] returns the status map in the iteration order of
      [report_status_t], each status being the vector of strings. *)

Class services := {
  call_GetPluginSettings : string → gmap string string;
  call_Report : gmap string crash_item → list string
                → gmap string (gmap string string)
                → list (string * list string);
  load_conf_file : string → gmap string string → bool * gmap string string;
  string_to_bool : string → bool;
  xatou : string → option Z;
  concat_path_file : option string → string → string;
  getenv_HOME : option string;
  pw_dir : option string;
  make_dir_recursive : string → bool;
  fopen_w : string → bool;
  rename : string → string → Z;
  REPORT_STATUS_IDX_FLAG : nat;
  REPORT_STATUS_IDX_MSG : nat
}.

Definition dquote : string := String "034"%char "".

Section SettingsStore.
Context {sv : services}.

(** ** SettingsStore: system defaults overlaid with the user's file *)

(** The inner loop: the assignment [value[key2] = xstrdup(value2)] for
    every entry of the loaded table. *)
Definition merge_settings (value single_plugin_settings : gmap string string)
  : gmap string string :=
  map_fold (λ key2 value2 value, <[key2 := value2]> value)
           value single_plugin_settings.

Definition get_reporter_plugin_settings (reporters : list string)
  : gmap string (gmap string string) :=
  let settings :=
    foldl (λ settings it, <[it := call_GetPluginSettings it]> settings)
          ∅ reporters in
  match pw_dir with
  | None => settings
  | Some homedir =>
      map_imap (λ key value,
        let path := homedir +:+ "/.abrt/" +:+ key +:+ ".conf" in
        let '(success, single_plugin_settings) := load_conf_file path ∅ in
        if negb success then Some value
        else Some (merge_settings value single_plugin_settings)) settings
  end.

End SettingsStore.

(** ** user_settings.c *)

(** The calls that reach the file system, in the order they are made. *)
Inductive syscall :=
| sys_make_dir_recursive (path : string) (mode : Z)
| sys_fopen (path mode : string)
| sys_fprintf (path text : string)
| sys_fclose (path : string)
| sys_rename (oldpath newpath : string).

(** The process: the two static variables and the calls made so far. *)
Record process := Process {
  user_settings : option (gmap string string);
  conf_path : option string;
  calls : list syscall
}.

Definition syscall_do (c : syscall) : stateT process () :=
  modify (λ p, Process (user_settings p) (conf_path p) (calls p ++ [c])).

Section UserSettings.
Context {sv : services}.

(** The loop of [create_parentdir]: from the index of the terminator, step
    back while [c > path && *c != '/']. *)
Fixpoint parentdir_end (path : string) (c : nat) : nat :=
  match c with
  | O => O
  | S j => if Ascii.eqb (char_at c path) "/" then c else parentdir_end path j
  end.

Definition create_parentdir (path : string) : stateT process bool :=
  let c := parentdir_end path (String.length path) in
  if negb (Ascii.eqb (char_at c path) "/") then mret false
  else
    let dir := String.substring 0 c path in
    syscall_do (sys_make_dir_recursive dir 493);; (* mode 0755 *)
    mret (make_dir_recursive dir).

Definition conf_line (name value : string) : string :=
  name +:+ " = " +:+ dquote +:+ value +:+ dquote +:+ nl.

Fixpoint fprintf_all (out : string) (entries : list (string * string))
  : stateT process () :=
  match entries with
  | [] => mret ()
  | (name, value) :: rest =>
      syscall_do (sys_fprintf out (conf_line name value));;
      fprintf_all out rest
  end.

Definition save_conf_file (path : string) (settings : gmap string string)
  : stateT process bool :=
  let temp_path := path +:+ ".tmp" in
  created ← create_parentdir temp_path;
  if negb created then mret false
  else
    syscall_do (sys_fopen temp_path "w");;
    if negb (fopen_w temp_path) then mret false
    else
      fprintf_all temp_path (map_to_list settings);;
      syscall_do (sys_fclose temp_path);;
      syscall_do (sys_rename temp_path path);;
      if bool_decide (rename temp_path path = 0) then mret false
      else mret true.

Definition get_conf_path (name : string) : string :=
  let s := ".abrt/settings" +:+ "/" +:+ name +:+ ".conf" in
  concat_path_file getenv_HOME s.

Definition save_user_settings : stateT process bool :=
  λ p,
    match conf_path p, user_settings p with
    | Some path, Some settings => save_conf_file path settings p
    | _, _ => (true, p)
    end.

Definition load_user_settings (application_name : string)
  : stateT process bool :=
  λ p,
    let path := get_conf_path application_name in
    let '(ret, table) := load_conf_file path ∅ in
    (ret, Process (Some table) (Some path) (calls p)).

(** [g_hash_table_replace] and [g_hash_table_remove] return at once on a
    NULL table. *)
Definition set_user_setting (name : string) (value : option string)
  : stateT process () :=
  modify (λ p,
    match user_settings p with
    | None => p
    | Some table =>
        let table' := match value with
                      | Some v => <[name := v]> table
                      | None => delete name table
                      end in
        Process (Some table') (conf_path p) (calls p)
    end).

Definition get_user_setting (name : string) : stateT process (option string) :=
  λ p, (user_settings p ≫= (λ table, table !! name), p).

End UserSettings.

(** ** ReportOrchestrator: the parts of [report] *)

(** Code that can end the process ([assert], [xatou], [perror_msg_and_die])
    runs in a state monad with failure: [None] is the process dying. *)
Definition procT (S A : Type) : Type := S → option (A * S).

Global Instance proc_ret {S} : MRet (procT S) := λ A a s, Some (a, s).
Global Instance proc_bind {S} : MBind (procT S) :=
  λ A B f m s, match m s with
               | Some (a, s') => f a s'
               | None => None
               end.

Definition die {S A} : procT S A := λ _, None.

(** The terminal session and the locals of [report] that the dispatch loop
    updates.  [term_echo] is the ECHO flag of the terminal, [None] when stdin
    is not a terminal (or [tcgetattr] fails); [reported] lists the reporter
    vectors handed to [call_Report]. *)
Record session := Session {
  stdin : string;
  stdout : list string;
  term_echo : option bool;
  reporters_settings : gmap string (gmap string string);
  reported : list (list string);
  plugins : Z;
  errors : Z
}.

Definition printf (s : string) : procT session () :=
  λ t, Some ((), Session (stdin t) (stdout t ++ [s]) (term_echo t)
                         (reporters_settings t) (reported t) (plugins t) (errors t)).

Definition puts (s : string) : procT session () := printf (s +:+ nl).

(** [fgets] reads at most [n] characters and stops after a newline. *)
Fixpoint fgets_from (n : nat) (input : string) : string * string :=
  match n, input with
  | S m, String c rest =>
      if Ascii.eqb c LF then (String c "", rest)
      else let '(line, rest') := fgets_from m rest in (String c line, rest')
  | _, _ => ("", input)
  end.

(** [fgets(buf, size, stdin)]: [None] for a NULL result at end of input. *)
Definition fgets (size : nat) : procT session (option string) :=
  λ t, match stdin t with
       | "" => Some (None, t)
       | input =>
           let '(line, rest) := fgets_from (size - 1) input in
           Some (Some line, Session rest (stdout t) (term_echo t)
                                    (reporters_settings t) (reported t)
                                    (plugins t) (errors t))
       end.

(** [strchrnul(s, '\n')[0] = 0]: cut at the first newline. *)
Fixpoint cut_at_newline (s : string) : string :=
  match s with
  | "" => ""
  | String c rest => if Ascii.eqb c LF then "" else String c (cut_at_newline rest)
  end.

Definition read_from_stdin (question : string) (result_size : nat)
  : procT session string :=
  if negb (1 <? result_size)%nat then die   (* assert(result_size > 1) *)
  else
    printf question;;
    line ← fgets result_size;
    mret (cut_at_newline (default "" line)).

Definition set_term_echo (e : option bool) : procT session () :=
  λ t, Some ((), Session (stdin t) (stdout t) e (reporters_settings t)
                         (reported t) (plugins t) (errors t)).

Definition set_settings (name : string) (m : gmap string string)
  : procT session () :=
  λ t, Some ((), Session (stdin t) (stdout t) (term_echo t)
                         (<[name := m]> (reporters_settings t))
                         (reported t) (plugins t) (errors t)).

Definition count_plugin (failed : bool) : procT session () :=
  λ t, Some ((), Session (stdin t) (stdout t) (term_echo t)
                         (reporters_settings t) (reported t)
                         (plugins t + 1)
                         (if failed then errors t + 1 else errors t)).

Definition log_report (names : list string) : procT session () :=
  λ t, Some ((), Session (stdin t) (stdout t) (term_echo t)
                         (reporters_settings t) (reported t ++ [names])
                         (plugins t) (errors t)).

Definition get_session : procT session session := λ t, Some (t, t).

Section Orchestrator.
Context {ct : crash_types} {sv : services}.

(** The contents of [char answer[16]] before [fgets] fills it. *)
Variable answer_uninitialized : string.
(** Whether [tcsetattr] succeeds. *)
Variable tcsetattr_ok : bool.

Definition get_crash_item_content_or_NULL
  (crash_data : gmap string crash_item) (key : string) : option string :=
  content <$> crash_data !! key.

(** Lines 607-608: the rating, 4 when the report has none. *)
Definition report_rating (crash_data : gmap string crash_item) : option Z :=
  match get_crash_item_content_or_NULL crash_data FILENAME_RATING with
  | Some rating_str => xatou rating_str
  | None => Some 4
  end.

(** [strchrnul(events, '\n') - events] *)
Fixpoint strchrnul_LF (events : string) : nat :=
  match events with
  | "" => O
  | String c rest =>
      if Ascii.eqb c NUL || Ascii.eqb c LF then O else S (strchrnul_LF rest)
  end.

(** The test of line 628-629 at the pointer [events]. *)
Definition is_report_event (events : string) : bool :=
  String.prefix "report" events
  && (Ascii.eqb (char_at 6 events) NUL || Ascii.eqb (char_at 6 events) "_").

(** Lines 625-639: the loop over the event list.  The inner [fix] moves
    [events] to [end] and past the newline. *)
Fixpoint report_events (events : string) : list string :=
  match events with
  | "" => []
  | String c _ =>
      if Ascii.eqb c NUL then [] else
      let tmp := strndup events (strchrnul_LF events) in
      (if is_report_event events then [tmp] else [])
      ++ (fix next (p : string) : list string :=
            match p with
            | "" => []
            | String d q =>
                if Ascii.eqb d NUL then []
                else if Ascii.eqb d LF then report_events q
                else next q
            end) events
  end.

Definition report_reporters (crash_data : gmap string crash_item)
  : list string :=
  match get_crash_item_content_or_NULL crash_data CD_EVENTS with
  | Some events => report_events events
  | None => []
  end.

Definition ask_yesno (question : string) : procT session bool :=
  let yes := "y" in
  let no := "N" in
  printf (question +:+ " [" +:+ yes +:+ "/" +:+ no +:+ "]: ");;
  answer ← fgets 16;
  let answer := default answer_uninitialized answer in
  mret (String.prefix yes answer).

(** Returns true if echo has been changed from another state. *)
Definition set_echo (enabled : bool) : procT session bool :=
  t ← get_session;
  match term_echo t with
  | None => mret false
  | Some e =>
      if bool_decide (e = enabled) then mret false
      else if tcsetattr_ok then set_term_echo (Some enabled);; mret true
      else die
  end.

Definition setting_missing (single_plugin_settings : gmap string string)
  (key : string) : bool :=
  match single_plugin_settings !! key with
  | Some v => bool_decide (v = "")
  | None => false
  end.

Definition ask_for_missing_settings (plugin_name : string)
  (single_plugin_settings : gmap string string)
  : procT session (gmap string string) :=
  let loginMissing := setting_missing single_plugin_settings "Login" in
  let passwordMissing := setting_missing single_plugin_settings "Password" in
  if negb loginMissing && negb passwordMissing then mret single_plugin_settings
  else
    printf ("Wrong settings were detected for plugin " +:+ plugin_name +:+ nl);;
    s1 ← (if loginMissing then
            result ← read_from_stdin "Enter your login: " 64;
            mret (<["Login" := result]> single_plugin_settings)
          else mret single_plugin_settings);
    if passwordMissing then
      changed ← set_echo false;
      result ← read_from_stdin "Enter your password: " 64;
      (if (changed : bool) then set_echo true else mret false);;
      puts "";;
      mret (<["Password" := result]> s1)
    else mret s1.

Definition status_field (v : list string) (i : nat) : string :=
  default "" (v !! i).

(** Printing and counting one entry of a [report_status_t]. *)
Definition tally_status (st : string * list string) : procT session () :=
  let '(name, v) := st in
  printf (name +:+ ": " +:+ status_field v REPORT_STATUS_IDX_MSG +:+ nl);;
  count_plugin (bool_decide (status_field v REPORT_STATUS_IDX_FLAG = "0")).

Fixpoint tally_all (r : list (string * list string)) : procT session () :=
  match r with
  | [] => mret ()
  | st :: rest => tally_status st;; tally_all rest
  end.

(** Lines 646-660: batch mode. *)
Definition report_batch (crash_data : gmap string crash_item)
  (reporters : list string) : procT session () :=
  puts "Reporting...";;
  t ← get_session;
  log_report reporters;;
  tally_all (call_Report crash_data reporters (reporters_settings t)).

Definition msg_debuginfo (package : string) : string :=
  "Please try to install debuginfo manually using the command: " +:+ dquote
  +:+ "debuginfo-install " +:+ package +:+ dquote +:+ " and try again" +:+ nl.

(** Lines 666-710: the body of the loop over the reporters. *)
Definition report_one (crash_data : gmap string crash_item) (rating : Z)
  (it : string) : procT session () :=
  let question := strndup ("Report using " +:+ it +:+ "?") 254 in
  yes ← ask_yesno question;
  if negb yes then puts "Skipping..."
  else
    t ← get_session;
    match reporters_settings t !! it with
    | Some settings =>
        if match settings !! "RatingRequired" with
           | Some rating_setting => string_to_bool rating_setting && (rating <? 3)
           | None => false
           end
        then
          puts "Reporting disabled because the backtrace is unusable";;
          (match get_crash_item_content_or_NULL crash_data FILENAME_PACKAGE with
           | Some (String _ _ as package) => printf (msg_debuginfo package)
           | _ => mret ()
           end);;
          count_plugin true
        else
          settings' ← ask_for_missing_settings it settings;
          set_settings it settings';;
          t ← get_session;
          log_report [it];;
          match call_Report crash_data [it] (reporters_settings t) with
          | [st] => tally_status st
          | _ => die   (* assert(r.size() == 1) *)
          end
    | None =>
        puts "Error loading reporter settings";;
        count_plugin true
    end.

(** Lines 664-711: interactive mode. *)
Fixpoint report_interactive (crash_data : gmap string crash_item) (rating : Z)
  (reporters : list string) : procT session () :=
  match reporters with
  | [] => mret ()
  | it :: rest =>
      report_one crash_data rating it;;
      report_interactive crash_data rating rest
  end.

(** Lines 714-717: the summary line and the return value. *)
Definition report_finish : procT session Z :=
  t ← get_session;
  printf ("Crash reported via " +:+ pretty (plugins t) +:+ " report events ("
          +:+ pretty (errors t) +:+ " errors)" +:+ nl);;
  mret (if bool_decide (errors t ≠ 0) then 1 else 0).

(** Lines 622-717: what [report] does once the report has been reviewed. *)
Definition report_dispatch (batch : bool)
  (crash_data : gmap string crash_item) (rating : Z) : procT session Z :=
  let reporters := report_reporters crash_data in
  (λ t, Some ((), Session (stdin t) (stdout t) (term_echo t)
                          (get_reporter_plugin_settings reporters)
                          (reported t) 0 0));;
  (if batch then report_batch crash_data reporters
   else report_interactive crash_data rating reporters);;
  report_finish.

End Orchestrator.

(** ** Notions used in the statements about the codec *)

(** No NUL inside the string: the content is a C string. *)
Fixpoint no_nul (s : string) : bool :=
  match s with
  | "" => true
  | String c rest => negb (Ascii.eqb c NUL) && no_nul rest
  end.

(** Some line starts with two backslashes followed by '#'. *)
Fixpoint backslash2_hash_line (newline : bool) (s : string) : bool :=
  match s with
  | "" => false
  | String c rest =>
      newline && Ascii.eqb c "\" && Ascii.eqb (char_at 0 rest) "\"
        && Ascii.eqb (char_at 1 rest) "#"
      || backslash2_hash_line (Ascii.eqb c LF) rest
  end.

(** The text of a comment line, without its newline: a '#' followed by
    characters other than newline and NUL. *)
Fixpoint one_line (s : string) : bool :=
  match s with
  | "" => true
  | String c rest => negb (Ascii.eqb c NUL) && negb (Ascii.eqb c LF) && one_line rest
  end.

Definition comment_line (l : string) : bool :=
  match l with
  | String c body => Ascii.eqb c "#" && one_line body
  | "" => false
  end.

(** Comment lines put in front of a field body, as the renderer does with
    the description and the read-only note. *)
Fixpoint inject_comments (comments : list string) (body : string) : string :=
  match comments with
  | [] => body
  | l :: rest => l +:+ nl +:+ inject_comments rest body
  end.

(** ** Notions used in the statements about the report document *)

Section ReportDocumentNotions.
Context {ct : crash_types}.

(** The table behind [write_crash_report]: the well-known fields in
    rendering order, each with its description. *)
Definition well_known_fields : list (string * string) :=
  [ (FILENAME_COMMENT, "# Describe the circumstances of this crash below");
    (FILENAME_REPRODUCE, "# How to reproduce the crash?");
    (FILENAME_BACKTRACE,
      "# Backtrace" +:+ nl +:+
      "# Check that it does not contain any sensitive data (passwords, etc.)");
    (FILENAME_DUPHASH, "# DUPHASH");
    (FILENAME_ARCHITECTURE, "# Architecture");
    (FILENAME_CMDLINE, "# Command line");
    (FILENAME_COMPONENT, "# Component");
    (FILENAME_COREDUMP, "# Core dump");
    (FILENAME_EXECUTABLE, "# Executable");
    (FILENAME_KERNEL, "# Kernel version");
    (FILENAME_PACKAGE, "# Package");
    (FILENAME_REASON, "# Reason of crash");
    (FILENAME_RELEASE, "# Release string of the operating system") ].

(** The calls of [write_crash_report] and [read_crash_report] as loops over
    a table. *)
Fixpoint write_fields (table : list (string * string)) : stateT world () :=
  match table with
  | [] => mret ()
  | (field, description) :: rest =>
      write_crash_report_field field description;; write_fields rest
  end.

Fixpoint read_fields (text : string) (fields : list string) (result : Z)
  : stateT world Z :=
  match fields with
  | [] => mret result
  | field :: rest =>
      r ← read_crash_report_field text field;
      read_fields text rest (Z.lor result r)
  end.

(** The block of one field in the document. *)
Definition field_block (field description : string) (value : crash_item)
  : string :=
  FIELD_SEP +:+ field +:+ nl +:+ description +:+ nl
  +:+ (if bool_decide (Z.land (flags value) CD_FLAG_ISEDITABLE = 0)
       then "# This field is read only" +:+ nl else "")
  +:+ escape (content value) +:+ nl.

(** The blocks of the well-known fields that are in the report and are not
    flagged SYS, in table order. *)
Definition rendered_blocks (report : gmap string crash_item) : list string :=
  omap (λ '(field, description),
          value ← report !! field;
          if bool_decide (Z.land (flags value) CD_FLAG_SYS ≠ 0) then None
          else Some (field_block field description value))
       well_known_fields.

(** The messages for the well-known fields that are flagged SYS. *)
Definition refused_fields (report : gmap string crash_item) : list string :=
  omap (λ '(field, _),
          value ← report !! field;
          if bool_decide (Z.land (flags value) CD_FLAG_SYS ≠ 0)
          then Some (msg_system_value field) else None)
       well_known_fields.

(** The raw body of [field] in [text]: what [read_crash_report_field]
    copies into [newvalue] before trimming; [None] without the marker. *)
Definition field_text (text field : string) : option string :=
  let separator := nl +:+ FIELD_SEP +:+ field +:+ nl in
  match strstr text separator with
  | None => None
  | Some textfield =>
      let textfield := advance (String.length separator) textfield in
      let length :=
        match strstr textfield (nl +:+ FIELD_SEP) with
        | None => String.length textfield
        | Some e => (String.length textfield - String.length e)%nat
        end in
      Some (strndup textfield length)
  end.

(** A field that no call of [read_crash_report_field] on [text] replaces:
    it is flagged SYS, or not editable, or already holds the trimmed body
    the text has for it. *)
Definition frozen (text field : string) (value : crash_item) : Prop :=
  Z.land (flags value) CD_FLAG_SYS ≠ 0
  ∨ Z.land (flags value) CD_FLAG_ISEDITABLE = 0
  ∨ ∃ raw, field_text text field = Some raw ∧ content value = trim_buf raw.

End ReportDocumentNotions.

Definition concat_blocks (blocks : list string) : string :=
  foldr String.append "" blocks.

(** The number of fields of [old] whose content is different in [new]. *)
Definition changed_count (old new : gmap string crash_item) : nat :=
  size (filter (λ kv, content <$> new !! kv.1 ≠ Some (content kv.2)) old).

(** ** Settings and user settings: notions used in the statements *)

Section SettingsNotions.
Context {sv : services}.

(** The user's configuration file of a reporter, when there is a home
    directory and [load_conf_file] succeeds on it. *)
Definition user_file (reporter : string) : option (gmap string string) :=
  homedir ← pw_dir;
  let '(success, loaded) :=
    load_conf_file (homedir +:+ "/.abrt/" +:+ reporter +:+ ".conf") ∅ in
  if success then Some loaded else None.

(** The operations of user_settings.c other than [load_user_settings]. *)
Inductive settings_op :=
| op_save
| op_set (name : string) (value : option string)
| op_get (name : string).

Definition run_op (p : process) (op : settings_op) : process :=
  match op with
  | op_save => (save_user_settings p).2
  | op_set name value => (set_user_setting name value p).2
  | op_get name => (get_user_setting name p).2
  end.

End SettingsNotions.

(** The process at start: the static variables are NULL. *)
Definition process_start : process := Process None None [].

(** ** Sample instances, for the examples *)

Definition sample_crash_types : crash_types := {|
  FILENAME_COMMENT := "comment";
  FILENAME_REPRODUCE := "reproduce";
  FILENAME_BACKTRACE := "backtrace";
  FILENAME_DUPHASH := "duphash";
  FILENAME_ARCHITECTURE := "architecture";
  FILENAME_CMDLINE := "cmdline";
  FILENAME_COMPONENT := "component";
  FILENAME_COREDUMP := "coredump";
  FILENAME_EXECUTABLE := "executable";
  FILENAME_KERNEL := "kernel";
  FILENAME_PACKAGE := "package";
  FILENAME_REASON := "reason";
  FILENAME_RELEASE := "release";
  FILENAME_RATING := "rating";
  CD_EVENTS := "events";
  CD_FLAG_SYS := 1;
  CD_FLAG_TXT := 4;
  CD_FLAG_ISEDITABLE := 8
|}.

(** A daemon whose plugins have an empty Login, an empty Password and
    Extra = x, except report_rhtsupport which requires a rating; a user whose
    home holds a configuration file for report_bugzilla only; an operating
    system on which every call succeeds. *)
Definition sample_services : services := {|
  call_GetPluginSettings := λ name,
    if bool_decide (name = "report_rhtsupport")
    then <["RatingRequired" := "yes"]> ∅
    else <["Login" := ""]> (<["Password" := ""]> (<["Extra" := "x"]> ∅));
  call_Report := λ _ reporters _, (λ name, (name, ["1"; "ok"])) <$> reporters;
  load_conf_file := λ path table,
    if bool_decide (path = "/home/user/.abrt/report_bugzilla.conf")
    then (true, <["Login" := "alice"]> table) else (false, table);
  string_to_bool := λ s, bool_decide (s = "yes") || bool_decide (s = "1");
  xatou := λ s, if bool_decide (s = "2") then Some 2
                else if bool_decide (s = "4") then Some 4 else None;
  concat_path_file := λ dir file, default "" dir +:+ "/" +:+ file;
  getenv_HOME := Some "/home/user";
  pw_dir := Some "/home/user";
  make_dir_recursive := λ _, true;
  fopen_w := λ _, true;
  rename := λ _ _, 0;
  REPORT_STATUS_IDX_FLAG := 0;
  REPORT_STATUS_IDX_MSG := 1
|}.

(** A report with two editable fields, a read-only one and two fields flagged
    SYS (one of them also flagged editable), and an edited document that
    changes the body of all five. *)
Definition sample_report : gmap string crash_item :=
  <["comment" := CrashItem "it crashed" 12]>
  (<["reproduce" := CrashItem "1. " 12]>
  (<["architecture" := CrashItem "x86_64" 4]>
  (<["kernel" := CrashItem "2.6.35" 5]>
  (<["component" := CrashItem "foo" 13]> ∅)))).

Definition sample_world : world := World sample_report "" [].

Definition sample_text : string :=
  nl +:+ "%----comment" +:+ nl +:+ "it crashed twice" +:+ nl
  +:+ "%----reproduce" +:+ nl +:+ "run it" +:+ nl
  +:+ "%----architecture" +:+ nl +:+ "arm" +:+ nl
  +:+ "%----kernel" +:+ nl +:+ "3.0" +:+ nl
  +:+ "%----component" +:+ nl +:+ "bar" +:+ nl.

(** A report with an unusable backtrace, and a terminal session in which the
    user types y. *)
Definition low_rating_report : gmap string crash_item :=
  <["rating" := CrashItem "2" 4]>
  (<["package" := CrashItem "foo-1.0" 4]>
  (<["events" := CrashItem "report_rhtsupport" 4]> ∅)).

Definition sample_session : session :=
  Session ("y" +:+ nl) [] None
          (<["report_rhtsupport" := <["RatingRequired" := "yes"]> ∅]> ∅)
          [] 0 0.

(** ** The review step: create_fields_for_editor, launch_editor,
    run_report_editor, and [report] itself *)

(** What the review step needs from outside the two source files: the
    daemon's [call_CreateReport] (given the value of [logmode] it runs
    under), the environment variables read by [launch_editor], the effect of
    the command started by [run_command] on the files, the results of the
    calls on the temporary file, and the flag bits of report.h.
    - [mkstemp template] is the name of the file created, [None] for -1.
    - [fopen_r name] tells whether an existing file can be opened. *)
Class editor_env := {
  call_CreateReport : Z → string → option (gmap string crash_item);
  getenv_ABRT_EDITOR : option string;
  getenv_VISUAL : option string;
  getenv_EDITOR : option string;
  getenv_TERM : option string;
  run_command : list string → gmap string string → gmap string string;
  mkstemp : string → option string;
  fdopen_w : bool;
  fclose_w : bool;
  fopen_r : string → bool;
  fread_ok : bool;
  fclose_r : bool;
  unlink_ok : string → bool;
  CLI_REPORT_BATCH : Z;
  CLI_REPORT_SILENT_IF_NOT_FOUND : Z
}.

(** [add_to_crash_data_ext] stores a new item under [name]
    (g_hash_table_replace). *)
Definition add_to_crash_data_ext (name content : string) (flags : Z)
  : stateT world () :=
  modify (λ w, World (<[name := CrashItem content flags]> (w_report w))
                     (w_file w) (w_log w)).

(** The state of the review step: the report, the messages of [error_msg]
    and [perror_msg] (without the text of errno), stdout, and the files the
    step creates, by name. *)
Record editor_state := EditorState {
  ed_report : gmap string crash_item;
  ed_log : list string;
  ed_stdout : list string;
  ed_disk : gmap string string
}.

Definition ed_error (s : string) : stateT editor_state () :=
  modify (λ e, EditorState (ed_report e) (ed_log e ++ [s]) (ed_stdout e) (ed_disk e)).

Definition ed_puts (s : string) : stateT editor_state () :=
  modify (λ e, EditorState (ed_report e) (ed_log e) (ed_stdout e ++ [s +:+ nl])
                           (ed_disk e)).

Definition ed_set_disk (f : gmap string string → gmap string string)
  : stateT editor_state () :=
  modify (λ e, EditorState (ed_report e) (ed_log e) (ed_stdout e) (f (ed_disk e))).

(** Running one of the document functions on the report and the log of the
    review step, with [fp] a fresh stream; the result comes with the text
    written to [fp]. *)
Definition ed_document {A} (m : stateT world A) : stateT editor_state (A * string) :=
  λ e, let '(a, w) := m (World (ed_report e) "" (ed_log e)) in
       ((a, w_file w),
        EditorState (w_report w) (w_log w) (ed_stdout e) (ed_disk e)).

Section Review.
Context {ct : crash_types} {ee : editor_env}.

Definition create_fields_for_editor : stateT world () :=
  comment ← get_crash_data_item_or_NULL FILENAME_COMMENT;
  (if comment is None
   then add_to_crash_data_ext FILENAME_COMMENT ""
          (CD_FLAG_TXT + CD_FLAG_ISEDITABLE)
   else mret ());;
  reproduce ← get_crash_data_item_or_NULL FILENAME_REPRODUCE;
  if reproduce is None
  then add_to_crash_data_ext FILENAME_REPRODUCE
         ("1. " +:+ nl +:+ "2. " +:+ nl +:+ "3. " +:+ nl)
         (CD_FLAG_TXT + CD_FLAG_ISEDITABLE)
  else mret ().

(** The editor named by the environment: the first of ABRT_EDITOR, VISUAL
    and EDITOR that is set. *)
Definition editor_from_env : option string :=
  match getenv_ABRT_EDITOR with
  | Some editor => Some editor
  | None => match getenv_VISUAL with
            | Some editor => Some editor
            | None => getenv_EDITOR
            end
  end.

Definition launch_editor (path : string) : stateT editor_state Z :=
  let editor := editor_from_env in
  let terminal := getenv_TERM in
  if bool_decide (editor = None)
     && match terminal with
        | None => true
        | Some term => bool_decide (term = "dumb")
        end
  then
    ed_error "Cannot run vi: $TERM, $VISUAL and $EDITOR are not set";;
    mret 1
  else
    let editor := default "vi" editor in
    ed_set_disk (run_command [editor; path]);;
    mret 0.

Definition run_report_editor : stateT editor_state Z :=
  match mkstemp "/tmp/abrt-report.XXXXXX" with
  | None => ed_error "can't generate temporary file name";; mret 2
  | Some filename =>
      ed_set_disk (insert filename "");;
      if negb fdopen_w then
        ed_error ("can't open '" +:+ filename
                  +:+ "' to save the crash report");;
        mret 2
      else
        '(_, written) ← ed_document write_crash_report;
        if negb fclose_w then
          ed_error ("can't close '" +:+ filename +:+ "'");; mret 2
        else
          ed_set_disk (insert filename written);;
          launched ← launch_editor filename;
          if bool_decide (launched ≠ 0) then mret 3
          else
            e ← (λ e, (e, e));
            match ed_disk e !! filename with
            | Some text =>
                if negb (fopen_r filename) then
                  ed_error ("can't open '" +:+ filename
                            +:+ "' to read the crash report");;
                  mret 2
                else if negb fread_ok then
                  ed_error ("can't read '" +:+ filename +:+ "'");; mret 2
                else if negb fclose_r then
                  ed_error ("can't close '" +:+ filename +:+ "'");; mret 2
                else
                  (if unlink_ok filename then ed_set_disk (delete filename)
                   else ed_error ("can't unlink " +:+ filename));;
                  let text := remove_comments_and_unescape text in
                  '(report_changed, _) ← ed_document (read_crash_report text);
                  (if bool_decide (report_changed ≠ 0)
                   then ed_puts (nl +:+ "The report has been updated")
                   else ed_puts (nl +:+ "No changes were detected in the report"));;
                  mret 0
            | None =>
                ed_error ("can't open '" +:+ filename
                          +:+ "' to read the crash report");;
                mret 2
            end
  end.

End Review.

(** The whole program state of [report]: the terminal session with the
    counters of the dispatch, the log, the files of the review step and the
    global [logmode]. *)
Record app := App {
  app_session : session;
  app_log : list string;
  app_disk : gmap string string;
  logmode : Z
}.

Section Report.
Context {ct : crash_types} {sv : services} {ee : editor_env}.
Variable answer_uninitialized : string.
Variable tcsetattr_ok : bool.

(** Lines 622-717 on the program state. *)
Definition report_send (batch : bool) (crash_data : gmap string crash_item)
  (rating : Z) (a : app) : option (Z * app) :=
  match report_dispatch answer_uninitialized tcsetattr_ok batch crash_data rating
          (app_session a) with
  | Some (rc, t) => Some (rc, App t (app_log a) (app_disk a) (logmode a))
  | None => None
  end.

(** Lines 611-620 on the program state: the fields for the editor and the
    editor itself; the result comes with the report to go on with. *)
Definition report_review (crash_data : gmap string crash_item) (a : app)
  : Z * gmap string crash_item * app :=
  let t := app_session a in
  let '(_, w) := create_fields_for_editor (World crash_data "" (app_log a)) in
  let '(result, e) :=
    run_report_editor
      (EditorState (w_report w) (w_log w) (stdout t) (app_disk a)) in
  (result, ed_report e,
   App (Session (stdin t) (ed_stdout e) (term_echo t) (reporters_settings t)
                (reported t) (plugins t) (errors t))
       (ed_log e) (ed_disk e) (logmode a)).

Definition report (crash_id : string) (flags : Z) : procT app Z :=
  λ a,
    let old_logmode := logmode a in
    let mode := if bool_decide (Z.land flags CLI_REPORT_SILENT_IF_NOT_FOUND ≠ 0)
                then 0 else old_logmode in
    match call_CreateReport mode crash_id with
    | None => Some (-1, a)
    | Some crash_data =>
        if bool_decide (size crash_data = 0%nat) then Some (-1, a)
        else
          match report_rating crash_data with
          | None => None
          | Some rating =>
              if bool_decide (Z.land flags CLI_REPORT_BATCH = 0) then
                let '(result, crash_data, a) := report_review crash_data a in
                if bool_decide (result ≠ 0) then Some (result, a)
                else report_send false crash_data rating a
              else report_send true crash_data rating a
          end
    end.

End Report.

(** ** Notions used in the further properties of the codec *)

(** Only whitespace. *)
Fixpoint all_isspace (s : string) : bool :=
  match s with
  | "" => true
  | String c rest => isspace c && all_isspace rest
  end.

(** The last character is whitespace. *)
Fixpoint ends_with_space (s : string) : bool :=
  match s with
  | "" => false
  | String c "" => isspace c
  | String _ rest => ends_with_space rest
  end.

(** Neither the first nor the last character is whitespace. *)
Definition no_outer_space (s : string) : bool :=
  negb (isspace (char_at 0 s)) && negb (ends_with_space s).

(** Some line starts with '#', from the scanner state [newline]. *)
Fixpoint hash_line (newline : bool) (s : string) : bool :=
  match s with
  | "" => false
  | String c rest =>
      newline && Ascii.eqb c "#" || hash_line (Ascii.eqb c LF) rest
  end.

(** The number of lines that start with two backslashes and a '#'. *)
Fixpoint backslash2_hash_lines (newline : bool) (s : string) : nat :=
  match s with
  | "" => O
  | String c rest =>
      ((if newline && Ascii.eqb c "\" && Ascii.eqb (char_at 0 rest) "\"
           && Ascii.eqb (char_at 1 rest) "#" then 1 else 0)
       + backslash2_hash_lines (Ascii.eqb c LF) rest)%nat
  end.

(** What follows the first newline; nothing when a NUL or the end comes
    first. *)
Fixpoint after_line (p : string) : string :=
  match p with
  | "" => ""
  | String d q =>
      if Ascii.eqb d NUL then ""
      else if Ascii.eqb d LF then q
      else after_line q
  end.

(** ** Notions used in the further properties of the report document *)

Section MoreReportDocumentNotions.
Context {ct : crash_types}.

(** A field on which [read_crash_report_field] finds nothing to do for
    [text]: it is not in the report, or the text has no block for it, or it
    is flagged SYS or not editable, or it already holds the body of its
    block up to trimming. *)
Definition settled (text field : string)
  (report : gmap string crash_item) : Prop :=
  match report !! field, field_text text field with
  | Some value, Some raw =>
      Z.land (flags value) CD_FLAG_SYS ≠ 0
      ∨ Z.land (flags value) CD_FLAG_ISEDITABLE = 0
      ∨ trim_buf raw = trim_buf (content value)
  | _, _ => True
  end.

End MoreReportDocumentNotions.

(** ** Notions used in the further properties of the prompts and the
    dispatch *)

(** The settings of the reporters, the reporters handed to [call_Report] and
    the two counters are the same in both sessions. *)
Definition same_dispatch (t t' : session) : Prop :=
  reporters_settings t' = reporters_settings t
  ∧ reported t' = reported t
  ∧ plugins t' = plugins t
  ∧ errors t' = errors t.

(** No newline inside. *)
Fixpoint no_newline (s : string) : bool :=
  match s with
  | "" => true
  | String c rest => negb (Ascii.eqb c LF) && no_newline rest
  end.

(** The number of statuses whose flag is "0". *)
Definition failed_statuses {sv : services} (r : list (string * list string))
  : nat :=
  List.length
    (filter (λ st, status_field st.2 REPORT_STATUS_IDX_FLAG = "0") r).

(** A desktop on which the review step succeeds: EDITOR is set, the editor
    saves the file as it found it, and every call on the temporary file
    succeeds; the daemon knows the report ccpp-1. *)
Definition sample_editor_env : editor_env := {|
  call_CreateReport := λ _ id,
    if bool_decide (id = "ccpp-1") then Some low_rating_report else None;
  getenv_ABRT_EDITOR := None;
  getenv_VISUAL := None;
  getenv_EDITOR := Some "nano";
  getenv_TERM := Some "xterm";
  run_command := λ _ disk, disk;
  mkstemp := λ _, Some "/tmp/abrt-report.AbCdEf";
  fdopen_w := true;
  fclose_w := true;
  fopen_r := λ _, true;
  fread_ok := true;
  fclose_r := true;
  unlink_ok := λ _, true;
  CLI_REPORT_BATCH := 1;
  CLI_REPORT_SILENT_IF_NOT_FOUND := 2
|}.

Definition sample_app : app :=
  App (Session ("y" +:+ nl) [] None ∅ [] 0 0) [] ∅ 1.

(** ** Notions used in the further properties of user_settings.c *)

(** No '/' inside. *)
Fixpoint no_slash (s : string) : bool :=
  match s with
  | "" => true
  | String c rest => negb (Ascii.eqb c "/") && no_slash rest
  end.




(** ** Notions used in the property of the unedited document *)

(** The document once [remove_comments_and_unescape] has dropped the
    comments: for each rendered field a marker line and the content. *)
Definition seg (name content : string) : string :=
  nl +:+ FIELD_SEP +:+ name +:+ nl +:+ content.

Fixpoint segs (fields : list (string * string)) : string :=
  match fields with
  | [] => ""
  | (name, content) :: rest => seg name content +:+ segs rest
  end.

(** A content that the document format can carry: a C string, no line of
    which starts with two backslashes and '#' or with the field marker. *)
Definition plain_content (c : string) : Prop :=
  no_nul c = true
  ∧ backslash2_hash_line true c = false
  ∧ strstr (nl +:+ c) (nl +:+ FIELD_SEP) = None.

Section UneditedNotions.
Context {ct : crash_types}.

(** The fields of a table that are rendered: in the report and not flagged
    SYS; each with its content. *)
Definition rendered_fields (report : gmap string crash_item)
  (table : list (string * string)) : list (string * string) :=
  omap (λ '(field, _),
          value ← report !! field;
          if bool_decide (Z.land (flags value) CD_FLAG_SYS ≠ 0) then None
          else Some (field, content value)) table.

End UneditedNotions.

(** A description that is made of comment lines: followed by a newline and
    a body, it is the body behind those lines. *)
Definition comment_text (description : string) : Prop :=
  ∃ comments, forallb comment_line comments = true
    ∧ ∀ body, description +:+ nl +:+ body = inject_comments comments body.

(** ** The body of a field, described on the text *)

(** [needle] occurs in [hay] right after [pre], and not earlier. *)
Definition first_at (needle hay pre : string) : Prop :=
  (∃ post, hay = pre +:+ needle +:+ post)
  ∧ ∀ pre' post', hay = pre' +:+ needle +:+ post' →
      (String.length pre ≤ String.length pre')%nat.

(** [needle] does not occur in [hay]. *)
Definition absent (needle hay : string) : Prop :=
  ∀ pre post, hay ≠ pre +:+ needle +:+ post.

(** The body of [field] in [text].  The marker line of the field is a
    newline, %----, the name and a newline; [rest] is what follows its first
    occurrence.  The body is [rest] up to the first newline followed by
    %----, and all of [rest] when there is none.  The newline that ends the
    marker line is not part of [rest]: when another marker line follows at
    once, it is not preceded by a newline in [rest], and belongs to the
    body. *)
Definition body_of (text field raw : string) : Prop :=
  ∃ pre rest,
    first_at (nl +:+ FIELD_SEP +:+ field +:+ nl) text pre
    ∧ text = pre +:+ (nl +:+ FIELD_SEP +:+ field +:+ nl) +:+ rest
    ∧ (first_at (nl +:+ FIELD_SEP) rest raw
       ∨ absent (nl +:+ FIELD_SEP) rest ∧ raw = rest).

(** A text in which the marker line of the comment field is followed at
    once by the marker line of the reproduce field. *)
Definition adjacent_markers_text : string :=
  nl +:+ "%----comment" +:+ nl +:+ "%----reproduce" +:+ nl +:+ "xyz".

(** * Facts *)

(** ** Strings *)

Lemma substring_0_length (s : string) (n : nat) :
  (n ≤ String.length s)%nat → String.length (String.substring 0 n s) = n.
Proof.
  revert n. induction s as [|c s IH]; intros [|n] Hn; simpl in *;
    try reflexivity; try lia.
  rewrite IH; [reflexivity | lia].
Qed.

Lemma substring_0_all (s : string) :
  String.substring 0 (String.length s) s = s.
Proof. induction s as [|c s IH]; simpl; [reflexivity | by rewrite IH]. Qed.

Lemma get_lt_length (s : string) (n : nat) :
  (n < String.length s)%nat → is_Some (String.get n s).
Proof.
  revert n. induction s as [|c s IH]; intros n Hn; simpl in *; [lia|].
  destruct n as [|n]; [by eexists | apply IH; lia].
Qed.

(** ** trim *)

Lemma skip_whitespace_head (s : string) :
  match skip_whitespace s with
  | "" => True
  | String c _ => isspace c = false
  end.
Proof.
  induction s as [|c s IH]; simpl; [done|].
  destruct (isspace c) eqn:E; [exact IH | simpl; exact E].
Qed.

Lemma skip_whitespace_fixed (c : ascii) (s : string) :
  isspace c = false → skip_whitespace (String c s) = String c s.
Proof. intros E. simpl. by rewrite E. Qed.

Lemma trim_end_le (str : string) (i : nat) : (trim_end str i ≤ i)%nat.
Proof.
  induction i as [|j IH]; simpl; [lia|].
  destruct (String.get j str) as [c|]; [|lia].
  destruct (isspace c); lia.
Qed.

Lemma trim_end_last (str : string) (i j : nat) :
  (i ≤ String.length str)%nat → trim_end str i = S j →
  ∃ c, String.get j str = Some c ∧ isspace c = false.
Proof.
  induction i as [|k IH]; simpl; intros Hi E; [discriminate|].
  destruct (get_lt_length str k) as [c Hc]; [lia|].
  rewrite Hc in E. destruct (isspace c) eqn:Ec.
  - apply IH; [lia | exact E].
  - injection E as <-. eauto.
Qed.

Lemma trim_end_stop (str : string) (j : nat) (c : ascii) :
  String.get j str = Some c → isspace c = false → trim_end str (S j) = S j.
Proof. intros Hc Ec. simpl. by rewrite Hc, Ec. Qed.

(** What [trim] leaves neither starts nor ends with whitespace, so a second
    [trim] changes nothing. *)
Lemma trim_buf_idempotent (s : string) : trim_buf (trim_buf s) = trim_buf s.
Proof.
  unfold trim_buf, strndup.
  pose proof (skip_whitespace_head s) as Hhead.
  set (ibuf := skip_whitespace s) in *.
  pose proof (trim_end_le ibuf (String.length ibuf)) as Hle.
  destruct (trim_end ibuf (String.length ibuf)) as [|j] eqn:En.
  { destruct ibuf; reflexivity. }
  destruct (trim_end_last ibuf _ j (Nat.le_refl _) En) as (c & Hc & Ec).
  destruct ibuf as [|c0 r]; [simpl in Hle; lia|].
  set (t := String.substring 0 (S j) (String c0 r)).
  assert (Ht : skip_whitespace t = t).
  { subst t. simpl. by rewrite Hhead. }
  assert (Hlen : String.length t = S j) by (apply substring_0_length; lia).
  rewrite Ht, Hlen.
  rewrite (trim_end_stop t j c); [| |exact Ec].
  - rewrite <- Hlen. apply substring_0_all.
  - subst t. rewrite String.substring_correct1 by lia.
    by rewrite Nat.add_0_r.
Qed.

Lemma trim_idempotent (s : option string) : trim (trim s) = trim s.
Proof. destruct s as [s|]; simpl; [by rewrite trim_buf_idempotent | done]. Qed.

(** ** escape and remove_comments_and_unescape *)

Lemma unescape_from_comment (body t : string) :
  one_line body = true →
  unescape_from true (String "#" (body +:+ String LF t)) = unescape_from true t.
Proof.
  intros Hb. simpl. induction body as [|d body IH]; simpl in *.
  - reflexivity.
  - apply andb_prop in Hb as [Hd Hb]. apply andb_prop in Hd as [Hn Hl].
    apply negb_true_iff in Hn, Hl. rewrite Hn, Hl. by apply IH.
Qed.

Lemma unescape_inject_comments (comments : list string) (body : string) :
  forallb comment_line comments = true →
  unescape_from true (inject_comments comments body) = unescape_from true body.
Proof.
  induction comments as [|l comments IH]; simpl; intros Hc; [reflexivity|].
  apply andb_prop in Hc as [Hl Hc].
  destruct l as [|c l]; [discriminate|].
  unfold comment_line in Hl. apply andb_prop in Hl as [Hc' Hl].
  apply Ascii.eqb_eq in Hc' as ->.
  change (String "#" l +:+ nl +:+ inject_comments comments body)
    with (String "#" (l +:+ String LF (inject_comments comments body))).
  rewrite unescape_from_comment by exact Hl. by apply IH.
Qed.

Lemma char_at_0_escape_from_false (s : string) :
  no_nul s = true → char_at 0 (escape_from false s) = char_at 0 s.
Proof.
  destruct s as [|c s]; [reflexivity|]. cbn [no_nul]. intros Hn.
  apply andb_prop in Hn as [Hc _]. apply negb_true_iff in Hc.
  cbn [escape_from]. by rewrite Hc.
Qed.

Lemma char_at_1_escape_from_false (s : string) :
  no_nul s = true → Ascii.eqb (char_at 0 s) "\" = true →
  char_at 1 (escape_from false s) = char_at 1 s.
Proof.
  destruct s as [|c s]; [reflexivity|]. cbn [no_nul]. intros Hn Hc0.
  apply andb_prop in Hn as [Hc Hn]. apply negb_true_iff in Hc.
  apply Ascii.eqb_eq in Hc0. cbv [char_at] in Hc0. simpl in Hc0. subst c.
  cbn [escape_from]. rewrite Hc. cbn [andb].
  change (char_at 1 (String "\" ?x)) with (char_at 0 x).
  change (Ascii.eqb "\" LF) with false.
  exact (char_at_0_escape_from_false s Hn).
Qed.

(** The round trip holds from either scanner state, for a C string none of
    whose lines starts with two backslashes and a '#'. *)
Lemma unescape_escape_from (newline : bool) (s : string) :
  no_nul s = true → backslash2_hash_line newline s = false →
  unescape_from newline (escape_from newline s) = s.
Proof.
  revert newline. induction s as [|c s IH]; intros newline Hnul Hamb.
  - reflexivity.
  - cbn [no_nul] in Hnul. apply andb_prop in Hnul as [Hc Hnul].
    apply negb_true_iff in Hc.
    cbn [backslash2_hash_line] in Hamb.
    apply orb_false_elim in Hamb as [Hhere Hamb].
    specialize (IH _ Hnul Hamb).
    pose proof (char_at_0_escape_from_false s Hnul) as H0.
    pose proof (char_at_1_escape_from_false s Hnul) as H1.
    cbn [escape_from]. rewrite Hc.
    destruct newline; cbn [andb] in *.
    + destruct (Ascii.eqb_spec c "#") as [->|Hhash]; cbn [orb].
      { cbn [unescape_from]. change (Ascii.eqb "\" NUL) with false.
        change (Ascii.eqb "\" "#") with false.
        change (Ascii.eqb "\" "\") with true. cbn [andb].
        change (char_at 0 (String "#" ?x)) with "#"%char.
        change (Ascii.eqb "#" "#") with true. cbn [orb].
        change (Ascii.eqb "#" LF) with false in *. by rewrite IH. }
      destruct (Ascii.eqb_spec c "\") as [->|Hbs]; cbn [andb] in *.
      * change (Ascii.eqb "\" LF) with false in *.
        destruct (Ascii.eqb (char_at 0 s) "#") eqn:Es.
        -- cbn [unescape_from]. change (Ascii.eqb "\" NUL) with false.
           change (Ascii.eqb "\" "#") with false.
           change (Ascii.eqb "\" "\") with true. cbn [andb].
           change (char_at 0 (String "\" ?x)) with "\"%char.
           change (char_at 1 (String "\" ?x)) with (char_at 0 x).
           change (Ascii.eqb "\" "#") with false.
           change (Ascii.eqb "\" "\") with true. cbn [andb orb].
           rewrite H0, Es. change (Ascii.eqb "\" LF) with false. by rewrite IH.
        -- cbn [unescape_from]. change (Ascii.eqb "\" NUL) with false.
           change (Ascii.eqb "\" "#") with false.
           change (Ascii.eqb "\" "\") with true. cbn [andb].
           rewrite H0, Es. cbn [orb].
           destruct (Ascii.eqb (char_at 0 s) "\") eqn:Es2; cbn [andb] in *.
           ++ rewrite (H1 eq_refl), Hhere.
              change (Ascii.eqb "\" LF) with false. by rewrite IH.
           ++ change (Ascii.eqb "\" LF) with false. by rewrite IH.
      * cbn [unescape_from]. rewrite Hc.
        rewrite (proj2 (Ascii.eqb_neq c "#") Hhash).
        rewrite (proj2 (Ascii.eqb_neq c "\") Hbs). cbn [andb].
        by rewrite IH.
    + cbn [unescape_from]. rewrite Hc. cbn [andb]. by rewrite IH.
Qed.

(** What the code guarantees of the round trip: comment lines in front of
    the escaped content are dropped and the content comes back, unless one
    of its lines starts with two backslashes and a '#'. *)
Lemma unescape_escape_roundtrip (comments : list string) (c : string) :
  forallb comment_line comments = true →
  no_nul c = true → backslash2_hash_line true c = false →
  remove_comments_and_unescape (inject_comments comments (escape c)) = c.
Proof.
  intros Hcom Hnul Hamb. unfold remove_comments_and_unescape, escape.
  rewrite unescape_inject_comments by exact Hcom.
  by apply unescape_escape_from.
Qed.

(** [escape] allocates [strlen(str) + 1 + count] bytes: exactly what its
    copy loop writes, terminator included. *)
Lemma escape_from_length (newline : bool) (s : string) :
  String.length (escape_from newline s) = (strlen s + escape_count newline s)%nat.
Proof.
  revert newline. induction s as [|c s IH]; intros newline; [reflexivity|].
  cbn [escape_from escape_count strlen]. destruct (Ascii.eqb c NUL); [reflexivity|].
  destruct newline; cbn [andb].
  - destruct (Ascii.eqb_spec c "#") as [->|Hh]; cbn [orb].
    + change (Ascii.eqb "#" "\") with false. cbn [andb String.length].
      rewrite IH. lia.
    + destruct (Ascii.eqb c "\" && Ascii.eqb (char_at 0 s) "#");
        cbn [String.length]; rewrite IH; lia.
  - cbn [String.length]. rewrite IH. lia.
Qed.

(** ** The report document *)

Lemma append_assoc (a b c : string) : (a +:+ b) +:+ c = a +:+ b +:+ c.
Proof.
  induction a as [|x a IH]; [reflexivity|].
  change (String x ((a +:+ b) +:+ c) = String x (a +:+ b +:+ c)). by rewrite IH.
Qed.

Lemma append_nil_r (a : string) : a +:+ "" = a.
Proof.
  induction a as [|x a IH]; [reflexivity|].
  change (String x (a +:+ "") = String x a). by rewrite IH.
Qed.

Section ReportDocumentFacts.
Context {ct : crash_types}.

Lemma write_crash_report_unfold (w : world) :
  write_crash_report w = (fputs preamble;; write_fields well_known_fields) w.
Proof.
  unfold write_crash_report, well_known_fields. cbn [write_fields].
  cbv [mbind state_bind mret state_ret].
  repeat match goal with
         | |- context [let '(_, _) := ?m in _] => destruct m as [[] ?]
         end.
  reflexivity.
Qed.

Lemma read_crash_report_unfold (text : string) (w : world) :
  read_crash_report text w
  = read_fields text (well_known_fields.*1) 0 w.
Proof. reflexivity. Qed.

(** One call of [write_crash_report_field], by cases on the item. *)
Lemma write_crash_report_field_spec (field description : string) (w : world) :
  write_crash_report_field field description w
  = ((), match w_report w !! field with
         | None => w
         | Some value =>
             if bool_decide (Z.land (flags value) CD_FLAG_SYS ≠ 0)
             then World (w_report w) (w_file w)
                        (w_log w ++ [msg_system_value field])
             else World (w_report w)
                        (w_file w +:+ field_block field description value)
                        (w_log w)
         end).
Proof.
  unfold write_crash_report_field, get_crash_data_item_or_NULL, field_block.
  cbv [mbind state_bind mret state_ret].
  destruct (w_report w !! field) as [value|]; [|reflexivity].
  case_bool_decide; [reflexivity|].
  cbv [fputs modify].
  case_bool_decide; cbn [w_report w_file w_log]; f_equal; f_equal;
    rewrite ?append_assoc; reflexivity.
Qed.

Lemma write_fields_spec (table : list (string * string)) (w : world) :
  write_fields table w
  = ((), World (w_report w)
           (w_file w +:+ concat_blocks
              (omap (λ '(field, description),
                 value ← w_report w !! field;
                 if bool_decide (Z.land (flags value) CD_FLAG_SYS ≠ 0) then None
                 else Some (field_block field description value)) table))
           (w_log w ++
              omap (λ '(field, _),
                 value ← w_report w !! field;
                 if bool_decide (Z.land (flags value) CD_FLAG_SYS ≠ 0)
                 then Some (msg_system_value field) else None) table)).
Proof.
  revert w. induction table as [|[field description] table IH]; intros w.
  - cbn. rewrite append_nil_r, app_nil_r. by destruct w.
  - cbn [write_fields]. cbv [mbind state_bind].
    rewrite write_crash_report_field_spec. rewrite IH. clear IH.
    cbn [omap list_omap]. f_equal.
    destruct (w_report w !! field) as [value|]; cbn [mbind option_bind];
      [|reflexivity].
    case_bool_decide; cbn [w_report w_file w_log concat_blocks foldr].
    + by rewrite <- app_assoc.
    + by rewrite append_assoc.
Qed.

(** One call of [read_crash_report_field], by cases. *)
Lemma read_crash_report_field_spec (text field : string) (w : world) :
  read_crash_report_field text field w
  = match field_text text field with
    | None => (0, w)
    | Some raw =>
        match w_report w !! field with
        | None => (0, World (w_report w) (w_file w)
                            (w_log w ++ [msg_not_found field]))
        | Some value =>
            if bool_decide (Z.land (flags value) CD_FLAG_SYS ≠ 0)
            then (0, World (w_report w) (w_file w)
                           (w_log w ++ [msg_system_value field]))
            else if bool_decide (Z.land (flags value) CD_FLAG_ISEDITABLE = 0)
            then (0, w)
            else if bool_decide (trim_buf raw = trim_buf (content value))
            then (0, w)
            else (1, World (<[field := CrashItem (trim_buf raw) (flags value)]>
                              (w_report w))
                           (w_file w) (w_log w))
        end
    end.
Proof.
  unfold read_crash_report_field, field_text.
  destruct (strstr text _) as [textfield|]; [|reflexivity].
  cbv [get_crash_data_item_or_NULL mbind state_bind].
  destruct (w_report w !! field) as [value|]; [|reflexivity].
  repeat case_bool_decide; reflexivity.
Qed.

(** A call either leaves the report as it is and returns 0, or replaces the
    content of its own field by a different one and returns 1. *)
Lemma read_crash_report_field_cases (text field : string) (w : world) :
  let '(r, w') := read_crash_report_field text field w in
  w_file w' = w_file w
  ∧ ((r = 0 ∧ w_report w' = w_report w)
     ∨ (r = 1 ∧ ∃ value raw,
          w_report w !! field = Some value
          ∧ field_text text field = Some raw
          ∧ Z.land (flags value) CD_FLAG_SYS = 0
          ∧ Z.land (flags value) CD_FLAG_ISEDITABLE ≠ 0
          ∧ trim_buf raw ≠ content value
          ∧ w_report w'
            = <[field := CrashItem (trim_buf raw) (flags value)]> (w_report w))).
Proof.
  rewrite read_crash_report_field_spec.
  destruct (field_text text field) as [raw|]; [|by auto].
  destruct (w_report w !! field) as [value|] eqn:Hv; [|by auto].
  repeat case_bool_decide; cbn [w_file w_report]; try by auto.
  split; [done|]. right. split; [done|]. exists value, raw.
  repeat split; try done; try lia.
  intros E. rewrite <- E, trim_buf_idempotent in *. congruence.
Qed.

(** A frozen field survives any call. *)
Lemma read_crash_report_field_frozen (text field g : string) (w : world)
    (value : crash_item) :
  w_report w !! field = Some value → frozen text field value →
  w_report (read_crash_report_field text g w).2 !! field = Some value.
Proof.
  intros Hv Hfrozen. rewrite read_crash_report_field_spec.
  destruct (field_text text g) as [raw|] eqn:Hraw; [|done].
  destruct (w_report w !! g) as [vg|] eqn:Hg; [|done].
  repeat case_bool_decide; try done. cbn [snd w_report].
  destruct (decide (g = field)) as [->|Hne]; [|by rewrite lookup_insert_ne].
  exfalso. assert (vg = value) as -> by congruence.
  destruct Hfrozen as [?|[?|(raw' & Hr & Hc)]]; [done|done|].
  assert (raw' = raw) as -> by congruence.
  rewrite Hc, trim_buf_idempotent in *. congruence.
Qed.

Lemma read_fields_frozen (text field : string) (fields : list string)
    (acc : Z) (w : world) (value : crash_item) :
  w_report w !! field = Some value → frozen text field value →
  w_report (read_fields text fields acc w).2 !! field = Some value.
Proof.
  revert acc w. induction fields as [|g fields IH]; intros acc w Hv Hf; [done|].
  cbn [read_fields]. cbv [mbind state_bind].
  pose proof (read_crash_report_field_frozen text field g w value Hv Hf) as Hstep.
  destruct (read_crash_report_field text g w) as [r w1]. by apply IH.
Qed.

Lemma read_fields_file (text : string) (fields : list string) (acc : Z)
    (w : world) :
  w_file (read_fields text fields acc w).2 = w_file w.
Proof.
  revert acc w. induction fields as [|g fields IH]; intros acc w; [done|].
  cbn [read_fields]. cbv [mbind state_bind].
  pose proof (read_crash_report_field_cases text g w) as Hstep.
  destruct (read_crash_report_field text g w) as [r w1].
  destruct Hstep as [Hfile _]. by rewrite IH.
Qed.

(** The result of the calls is the bitwise or of their results: the flag
    "some field was replaced". *)
Lemma read_fields_result (text : string) (fields : list string) (acc : Z)
    (w : world) :
  let '(r, w') := read_fields text fields acc w in
  (r = acc ∧ w_report w' = w_report w)
  ∨ (r = Z.lor acc 1
     ∧ ∃ field value value',
         w_report w !! field = Some value
         ∧ w_report w' !! field = Some value'
         ∧ content value' ≠ content value).
Proof.
  revert acc w. induction fields as [|g fields IH]; intros acc w.
  { cbn. by left. }
  cbn [read_fields]. cbv [mbind state_bind].
  pose proof (read_crash_report_field_cases text g w) as Hstep.
  destruct (read_crash_report_field text g w) as [r1 w1] eqn:E1.
  destruct Hstep as [_ [[-> Hsame]|[-> (value & raw & Hv & Hraw & _ & _ & Hne & Hrep)]]].
  - rewrite Z.lor_0_r. specialize (IH acc w1). rewrite Hsame in IH. exact IH.
  - assert (Hv1 : w_report w1 !! g = Some (CrashItem (trim_buf raw) (flags value)))
      by (rewrite Hrep; apply lookup_insert_eq).
    pose proof (read_fields_frozen text g fields (Z.lor acc 1) w1 _ Hv1) as Hkeep.
    specialize (IH (Z.lor acc 1) w1).
    destruct (read_fields text fields (Z.lor acc 1) w1) as [r w'].
    right. split.
    + destruct IH as [[-> _]|[-> _]]; [done|].
      by rewrite <- Z.lor_assoc, Z.lor_diag.
    + exists g, value, (CrashItem (trim_buf raw) (flags value)).
      split; [done|]. split; [|done].
      apply Hkeep. right. right. by exists raw.
Qed.

Lemma changed_count_same (m : gmap string crash_item) : changed_count m m = 0%nat.
Proof.
  unfold changed_count. apply map_size_empty_iff, map_empty_filter.
  intros i x Hi. cbn. rewrite Hi. by intros [].
Qed.

Lemma changed_count_changed (old new : gmap string crash_item) (field : string)
    (value value' : crash_item) :
  old !! field = Some value → new !! field = Some value' →
  content value' ≠ content value → changed_count old new ≠ 0%nat.
Proof.
  intros Ho Hn Hne. unfold changed_count. apply map_size_non_empty_iff.
  intros Hempty.
  eapply (map_filter_empty_not_lookup _ _ field value Hempty); [|done].
  cbn. rewrite Hn. cbn. congruence.
Qed.

End ReportDocumentFacts.

(** ** The settings store *)

Section SettingsFacts.
Context {sv : services}.

Lemma defaults_lookup (reporters : list string)
    (acc : gmap string (gmap string string)) (reporter : string) :
  foldl (λ settings it, <[it := call_GetPluginSettings it]> settings)
        acc reporters !! reporter
  = if decide (reporter ∈ reporters)
    then Some (call_GetPluginSettings reporter) else acc !! reporter.
Proof.
  revert acc. induction reporters as [|it reporters IH]; intros acc; cbn [foldl].
  - case_decide; [set_solver | done].
  - rewrite IH. destruct (decide (reporter ∈ reporters)) as [Hin|Hout].
    + rewrite decide_True; [done | by right].
    + destruct (decide (it = reporter)) as [->|Hne].
      * rewrite lookup_insert_eq, decide_True; [done | by left].
      * rewrite lookup_insert_ne, decide_False; [done | | done].
        intros [->|?]%elem_of_cons; done.
Qed.

(** The overlay is key by key: the loaded value where the file has the key,
    the value already there otherwise. *)
Lemma merge_settings_lookup (value loaded : gmap string string) (key : string) :
  merge_settings value loaded !! key
  = match loaded !! key with
    | Some v => Some v
    | None => value !! key
    end.
Proof.
  unfold merge_settings. revert key.
  apply (map_fold_weak_ind (λ r m, ∀ key, r !! key =
           match m !! key with Some v => Some v | None => value !! key end)).
  - intros key. by rewrite lookup_empty.
  - intros i x m r Hi IH key. destruct (decide (i = key)) as [->|Hne].
    + by rewrite !lookup_insert_eq.
    + by rewrite !lookup_insert_ne.
Qed.

End SettingsFacts.

(** ** user_settings.c *)

Section UserSettingsFacts.
Context {sv : services}.

Lemma fprintf_all_ret (out : string) (entries : list (string * string))
    (p : process) :
  (fprintf_all out entries p).1 = ().
Proof. by destruct (fprintf_all out entries p) as [[] ?]. Qed.

(** When [save_conf_file] returns true: the directory was made, the
    temporary file was opened, and [rename] returned non-zero. *)
Lemma save_conf_file_result (path : string) (settings : gmap string string)
    (p : process) :
  (save_conf_file path settings p).1 = true
  ↔ (create_parentdir (path +:+ ".tmp") p).1 = true
    ∧ fopen_w (path +:+ ".tmp") = true
    ∧ rename (path +:+ ".tmp") path ≠ 0.
Proof.
  unfold save_conf_file. cbv [mbind state_bind mret state_ret].
  destruct (create_parentdir (path +:+ ".tmp") p) as [[] p1]; cbn [negb fst];
    [|intuition discriminate].
  cbv [syscall_do modify].
  destruct (fopen_w (path +:+ ".tmp")); cbn [negb fst];
    [|intuition discriminate].
  destruct (fprintf_all _ _ _) as [[] p2].
  case_bool_decide; cbn [fst]; intuition (try discriminate; auto).
Qed.

(** Without [load_user_settings] the process stays as it started. *)
Lemma run_op_start (op : settings_op) : run_op process_start op = process_start.
Proof. by destruct op. Qed.

Lemma run_ops_start (ops : list settings_op) :
  foldl run_op process_start ops = process_start.
Proof.
  induction ops as [|op ops IH]; [done|]. cbn [foldl]. by rewrite run_op_start.
Qed.

End UserSettingsFacts.

(** ** The dispatch loop *)

Section OrchestratorFacts.
Context {ct : crash_types} {sv : services}.
Variable answer_uninitialized : string.
Variable tcsetattr_ok : bool.

(** The question only consumes input and prints. *)
Lemma ask_yesno_frame (question : string) (t t1 : session) (yes : bool) :
  ask_yesno answer_uninitialized question t = Some (yes, t1) →
  term_echo t1 = term_echo t
  ∧ reporters_settings t1 = reporters_settings t
  ∧ reported t1 = reported t
  ∧ plugins t1 = plugins t
  ∧ errors t1 = errors t.
Proof.
  unfold ask_yesno, printf, fgets. cbv [mbind proc_bind mret proc_ret].
  cbn [stdin stdout term_echo reporters_settings reported plugins errors].
  destruct (stdin t) as [|c input].
  - intros [= _ <-]. done.
  - destruct (fgets_from _ _) as [line rest]. intros [= _ <-]. done.
Qed.

(** What the question prints. *)
Lemma ask_yesno_stdout (question : string) (t t1 : session) (yes : bool) :
  ask_yesno answer_uninitialized question t = Some (yes, t1) →
  stdout t1 = (stdout t ++ [question +:+ " [y/N]: "])%list.
Proof.
  unfold ask_yesno, printf, fgets. cbv [mbind proc_bind mret proc_ret].
  cbn [stdin stdout term_echo reporters_settings reported plugins errors].
  destruct (stdin t) as [|c input].
  - intros [= _ <-]. done.
  - destruct (fgets_from _ _) as [line rest]. intros [= _ <-]. done.
Qed.


End OrchestratorFacts.

(** * The claims *)

(** C1 (code defect).  The content made of two backslashes and a '#' is a C
    string; [escape] returns it unchanged, and
    [remove_comments_and_unescape] applied to the comment line followed by
    the escaped content gives back a single backslash and '#': the content
    is not recovered. *)
Theorem escape_backslash2_hash_not_recovered :
  let c := "\\#" in
  let rendered :=
    inject_comments ["# Describe the circumstances of this crash below"]
                    (escape c) in
  no_nul c = true
  ∧ escape c = c
  ∧ remove_comments_and_unescape rendered = "\#"
  ∧ remove_comments_and_unescape rendered ≠ c.
Proof. repeat split; vm_compute; congruence. Qed.

(** C2 (code defect).  On the event list of the specification the loop
    keeps report_bugzilla only: the line "report" is followed by a newline,
    and the test accepts only a NUL or an underscore after the token. *)
Theorem report_events_misses_report_line :
  report_events ("report_bugzilla" +:+ nl +:+ "reportXYZ" +:+ nl
                 +:+ "foo" +:+ nl +:+ "report" +:+ nl)
  = ["report_bugzilla"].
Proof. vm_compute. reflexivity. Qed.

(** The same list without the final newline: "report" ends the string and is
    found. *)
Example report_events_last_line :
  report_events ("report_bugzilla" +:+ nl +:+ "reportXYZ" +:+ nl
                 +:+ "foo" +:+ nl +:+ "report")
  = ["report_bugzilla"; "report"].
Proof. vm_compute. reflexivity. Qed.

(** C4 (counterexample).  Two fields of the sample report are replaced by
    the sample document, and [read_crash_report] returns 1. *)
Lemma read_crash_report_two_changes :
  let '(r, w') := read_crash_report (ct:=sample_crash_types)
                    sample_text sample_world in
  changed_count (w_report sample_world) (w_report w') = 2%nat
  ∧ r = 1
  ∧ r ≠ Z.of_nat (changed_count (w_report sample_world) (w_report w')).
Proof. vm_compute. repeat split; congruence. Qed.

(** C4 (amended).  [read_crash_report] returns 0 when no field's content is
    changed and 1 when at least one is, whatever their number. *)
Theorem read_crash_report_returns_flag {ct : crash_types}
    (text : string) (w : world) :
  let '(r, w') := read_crash_report text w in
  r = if decide (changed_count (w_report w) (w_report w') = 0%nat) then 0 else 1.
Proof.
  rewrite read_crash_report_unfold.
  pose proof (read_fields_result text (well_known_fields.*1) 0 w) as Hres.
  destruct (read_fields text (well_known_fields.*1) 0 w) as [r w'].
  destruct Hres as [[-> Hsame]|[-> (field & value & value' & Ho & Hn & Hne)]].
  - rewrite Hsame, changed_count_same. by rewrite decide_True.
  - rewrite decide_False; [done|]. by eapply changed_count_changed.
Qed.

(** C5 (counterexample).  The kernel field of the sample report is a
    well-known field flagged SYS: the rendered document has no block for it,
    and the refusal is logged. *)
Lemma write_crash_report_skips_sys_field :
  let w' := (write_crash_report (ct:=sample_crash_types) sample_world).2 in
  sample_report !! "kernel" = Some (CrashItem "2.6.35" 5)
  ∧ strstr (w_file w') "%----kernel" = None
  ∧ "Cannot update field kernel because it is a system value" ∈ w_log w'.
Proof.
  vm_compute. split; [reflexivity|]. split; [reflexivity|].
  apply list_elem_of_In. vm_compute. tauto.
Qed.

(** C5 (amended).  [write_crash_report] writes the preamble and then, in
    table order, one block for every well-known field that is in the report
    and is not flagged SYS; for a field flagged SYS it writes nothing and
    logs a message.  The report is not modified. *)
Theorem write_crash_report_renders_non_sys {ct : crash_types} (w : world) :
  (write_crash_report w).2
  = World (w_report w)
          (w_file w +:+ preamble +:+ concat_blocks (rendered_blocks (w_report w)))
          (w_log w ++ refused_fields (w_report w))
  ∧ ∀ block, block ∈ rendered_blocks (w_report w) ↔
      ∃ field description value,
        (field, description) ∈ well_known_fields
        ∧ w_report w !! field = Some value
        ∧ Z.land (flags value) CD_FLAG_SYS = 0
        ∧ block = field_block field description value.
Proof.
  split.
  - rewrite write_crash_report_unfold. cbv [mbind state_bind fputs modify].
    rewrite write_fields_spec. cbn [snd w_report w_file w_log].
    by rewrite append_assoc.
  - intros block. unfold rendered_blocks. rewrite list_elem_of_omap. split.
    + intros ([field description] & Hin & Hsome).
      destruct (w_report w !! field) as [value|] eqn:Hv; [|done].
      cbn in Hsome. case_bool_decide as Hsys; [done|].
      exists field, description, value. repeat split; try done.
      congruence.
    + intros (field & description & value & Hin & Hv & Hsys & ->).
      exists (field, description). split; [done|]. rewrite Hv. cbn.
      rewrite bool_decide_eq_false_2; [done|]. intros Hne. by apply Hne.
Qed.

(** C6.  A field flagged SYS is never replaced: the call for it returns 0
    and leaves the report as it is, whatever the text and whether or not the
    field is also flagged editable, and the field is the same after
    [read_crash_report]. *)
Theorem sys_field_never_replaced {ct : crash_types}
    (text field : string) (w : world) (value : crash_item) :
  w_report w !! field = Some value →
  Z.land (flags value) CD_FLAG_SYS ≠ 0 →
  (read_crash_report_field text field w).1 = 0
  ∧ w_report (read_crash_report_field text field w).2 = w_report w
  ∧ w_report (read_crash_report text w).2 !! field = Some value.
Proof.
  intros Hv Hsys. split; [|split].
  - rewrite read_crash_report_field_spec, Hv.
    destruct (field_text text field); [|done].
    by rewrite bool_decide_eq_true_2.
  - rewrite read_crash_report_field_spec, Hv.
    destruct (field_text text field); [|done].
    by rewrite bool_decide_eq_true_2.
  - rewrite read_crash_report_unfold. apply read_fields_frozen; [done|].
    by left.
Qed.

Lemma sys_field_never_replaced_witness :
  (read_crash_report_field (ct:=sample_crash_types)
     sample_text "component" sample_world).1 = 0
  ∧ w_report (read_crash_report_field (ct:=sample_crash_types)
                sample_text "component" sample_world).2 = w_report sample_world
  ∧ w_report (read_crash_report (ct:=sample_crash_types)
                sample_text sample_world).2 !! "component"
    = Some (CrashItem "foo" 13).
Proof.
  apply (sys_field_never_replaced (ct:=sample_crash_types)
           sample_text "component" sample_world (CrashItem "foo" 13)).
  - reflexivity.
  - vm_compute. discriminate.
Defined.

(** C7 (counterexample).  The kernel field of the sample report lacks the
    editable flag and is flagged SYS: the edit of its block is discarded with
    an error message. *)
Lemma readonly_sys_field_is_reported :
  sample_report !! "kernel" = Some (CrashItem "2.6.35" 5)
  ∧ Z.land 5 (CD_FLAG_ISEDITABLE (crash_types:=sample_crash_types)) = 0
  ∧ w_log (read_crash_report_field (ct:=sample_crash_types)
             sample_text "kernel" sample_world).2
    = ["Cannot update field kernel because it is a system value"].
Proof. vm_compute. repeat split; reflexivity. Qed.

(** C7 (amended).  A field that lacks the editable flag is never replaced
    and never counted: the call for it returns 0 and leaves the report as it
    is, and the field is the same after [read_crash_report].  When the field
    is not flagged SYS nothing is logged; when it is flagged SYS and the text
    has its marker, the message of a system value is logged. *)
Theorem readonly_field_never_replaced {ct : crash_types}
    (text field : string) (w : world) (value : crash_item) :
  w_report w !! field = Some value →
  Z.land (flags value) CD_FLAG_ISEDITABLE = 0 →
  let w' := (read_crash_report_field text field w).2 in
  (read_crash_report_field text field w).1 = 0
  ∧ w_report w' = w_report w
  ∧ w_report (read_crash_report text w).2 !! field = Some value
  ∧ (Z.land (flags value) CD_FLAG_SYS = 0 → w_log w' = w_log w)
  ∧ (Z.land (flags value) CD_FLAG_SYS ≠ 0 → is_Some (field_text text field) →
     w_log w' = (w_log w ++ [msg_system_value field])%list).
Proof.
  intros Hv Hro. cbv zeta. rewrite read_crash_report_field_spec, Hv.
  split; [|split; [|split; [|split]]].
  - destruct (field_text text field); [|done]. by repeat case_bool_decide.
  - destruct (field_text text field); [|done]. by repeat case_bool_decide.
  - rewrite read_crash_report_unfold. apply read_fields_frozen; [done|].
    right. by left.
  - intros Hsys. destruct (field_text text field); [|done].
    rewrite bool_decide_eq_false_2 by (intros Hne; by apply Hne).
    by rewrite bool_decide_eq_true_2.
  - intros Hsys [raw Hraw]. rewrite Hraw. by rewrite bool_decide_eq_true_2.
Qed.

Lemma readonly_field_never_replaced_witness :
  let w' := (read_crash_report_field (ct:=sample_crash_types)
               sample_text "architecture" sample_world).2 in
  (read_crash_report_field (ct:=sample_crash_types)
     sample_text "architecture" sample_world).1 = 0
  ∧ w_report w' = w_report sample_world
  ∧ w_report (read_crash_report (ct:=sample_crash_types)
                sample_text sample_world).2 !! "architecture"
    = Some (CrashItem "x86_64" 4)
  ∧ (Z.land 4 1 = 0 → w_log w' = w_log sample_world)
  ∧ (Z.land 4 1 ≠ 0 →
     is_Some (field_text sample_text "architecture") →
     w_log w' = (w_log sample_world ++ [msg_system_value "architecture"])%list).
Proof.
  apply (readonly_field_never_replaced (ct:=sample_crash_types)
           sample_text "architecture" sample_world (CrashItem "x86_64" 4)).
  - reflexivity.
  - reflexivity.
Defined.

(** C8.  For every requested reporter the resolved map is the user's file
    laid over the plugin defaults key by key: a key of the loaded file has
    the file's value, any other key keeps the default; without a loaded file
    (no home directory, or [load_conf_file] fails) the defaults are
    untouched. *)
Theorem settings_layering {sv : services}
    (reporters : list string) (reporter : string) :
  reporter ∈ reporters →
  ∃ resolved,
    get_reporter_plugin_settings reporters !! reporter = Some resolved
    ∧ match user_file reporter with
      | Some loaded =>
          ∀ key, resolved !! key
                 = match loaded !! key with
                   | Some v => Some v
                   | None => call_GetPluginSettings reporter !! key
                   end
      | None => resolved = call_GetPluginSettings reporter
      end.
Proof.
  intros Hin. unfold get_reporter_plugin_settings, user_file.
  pose proof (defaults_lookup reporters ∅ reporter) as Hdef.
  rewrite decide_True in Hdef by done.
  destruct pw_dir as [homedir|]; cbn [mbind option_bind].
  - rewrite map_lookup_imap, Hdef. cbn [mbind option_bind].
    destruct (load_conf_file _ ∅) as [[] loaded]; cbn [negb].
    + eexists. split; [reflexivity|]. apply merge_settings_lookup.
    + by eexists.
  - by eexists.
Qed.

(** The example of the specification: defaults with an empty Login, an empty
    Password and Extra = x, and a user file with Login = alice. *)
Lemma settings_layering_witness :
  ∃ resolved,
    get_reporter_plugin_settings (sv:=sample_services)
      ["report_bugzilla"] !! "report_bugzilla" = Some resolved
    ∧ resolved !! "Login" = Some "alice"
    ∧ resolved !! "Password" = Some ""
    ∧ resolved !! "Extra" = Some "x".
Proof.
  destruct (settings_layering (sv:=sample_services)
              ["report_bugzilla"] "report_bugzilla") as (resolved & Hres & Hkeys).
  - constructor.
  - exists resolved. split; [exact Hres|].
    change (user_file (sv:=sample_services) "report_bugzilla")
      with (Some (<["Login" := "alice"]> (∅ : gmap string string))) in Hkeys.
    rewrite !Hkeys. repeat split; reflexivity.
Defined.

Example settings_layering_example :
  get_reporter_plugin_settings (sv:=sample_services) ["report_bugzilla"; "report"]
  = <["report_bugzilla" :=
        <["Login" := "alice"]> (<["Password" := ""]> (<["Extra" := "x"]> ∅))]>
    (<["report" :=
        <["Login" := ""]> (<["Password" := ""]> (<["Extra" := "x"]> ∅))]> ∅).
Proof. vm_compute. reflexivity. Qed.

(** C3 (code defect).  On a system where the directory is made, the
    temporary file is opened and [rename] succeeds (returns 0),
    [save_conf_file] writes the temporary file and renames it, and returns
    false; so does [save_user_settings] after a load and a change. *)
Theorem save_conf_file_false_on_success :
  let path := "/home/user/.abrt/settings/abrt-cli.conf" in
  let temp_path := path +:+ ".tmp" in
  let written :=
    [ sys_make_dir_recursive "/home/user/.abrt/settings" 493;
      sys_fopen temp_path "w";
      sys_fprintf temp_path (conf_line "Editor" "vi");
      sys_fclose temp_path;
      sys_rename temp_path path ] in
  rename (services:=sample_services) temp_path path = 0
  ∧ save_conf_file (sv:=sample_services) path (<["Editor" := "vi"]> ∅)
      process_start
    = (false, Process None None written)
  ∧ (let p1 := (load_user_settings (sv:=sample_services) "abrt-cli"
                  process_start).2 in
     let p2 := (set_user_setting "Editor" (Some "vi") p1).2 in
     (save_user_settings (sv:=sample_services) p2).1 = false
     ∧ calls (save_user_settings (sv:=sample_services) p2).2 = written).
Proof. vm_compute. repeat split; reflexivity. Qed.

(** C10.  Whatever is called before, as long as [load_user_settings] is not,
    the two static variables are NULL, and [save_user_settings] returns true
    without any call to the file system. *)
Theorem save_without_load_is_noop {sv : services} (ops : list settings_op) :
  let p := foldl run_op process_start ops in
  user_settings p = None
  ∧ conf_path p = None
  ∧ save_user_settings p = (true, p)
  ∧ calls (save_user_settings p).2 = [].
Proof. cbv zeta. rewrite run_ops_start. done. Qed.



(** The end-to-end example of the specification: rating 2 and a reporter that
    requires a rating; the reporter is refused, the hint is printed and the
    result of [report] is 1. *)
Example report_dispatch_low_rating :
  report_dispatch (ct:=sample_crash_types) (sv:=sample_services) "" true
    false low_rating_report 2
    (Session ("y" +:+ nl) [] None ∅ [] 0 0)
  = Some (1, Session "" ["Report using report_rhtsupport? [y/N]: ";
                         "Reporting disabled because the backtrace is unusable" +:+ nl;
                         msg_debuginfo "foo-1.0";
                         "Crash reported via 1 report events (1 errors)" +:+ nl]
                     None (<["report_rhtsupport" := <["RatingRequired" := "yes"]> ∅]> ∅)
                     [] 1 1).
Proof. vm_compute. reflexivity. Qed.

(** * Further properties *)

(** ** FieldCodec *)

Lemma skip_whitespace_all_isspace (pre s : string) :
  all_isspace pre = true → skip_whitespace (pre +:+ s) = skip_whitespace s.
Proof.
  induction pre as [|c pre IH]; [done|]. cbn [all_isspace]. intros Hp.
  apply andb_prop in Hp as [Hc Hp].
  change (String c pre +:+ s) with (String c (pre +:+ s)).
  cbn [skip_whitespace]. rewrite Hc. by apply IH.
Qed.

Lemma skip_whitespace_only_space (s : string) :
  all_isspace s = true → skip_whitespace s = "".
Proof.
  induction s as [|c s IH]; [done|]. cbn [all_isspace skip_whitespace].
  intros Hs. apply andb_prop in Hs as [-> Hs]. by apply IH.
Qed.

Lemma length_append (a b : string) :
  String.length (a +:+ b) = (String.length a + String.length b)%nat.
Proof.
  induction a as [|c a IH]; [done|].
  change (String c a +:+ b) with (String c (a +:+ b)). cbn [String.length].
  by rewrite IH.
Qed.

Lemma substring_0_append (a b : string) :
  String.substring 0 (String.length a) (a +:+ b) = a.
Proof.
  induction a as [|c a IH]; [by destruct b|].
  change (String c a +:+ b) with (String c (a +:+ b)). cbn. by rewrite IH.
Qed.

Lemma all_isspace_get (s : string) (k : nat) (c : ascii) :
  all_isspace s = true → String.get k s = Some c → isspace c = true.
Proof.
  revert k. induction s as [|d s IH]; intros k Hs Hk; [done|].
  cbn [all_isspace] in Hs. apply andb_prop in Hs as [Hd Hs].
  destruct k as [|k]; cbn in Hk; [congruence | by eapply IH].
Qed.

Lemma trim_end_ext (s1 s2 : string) (i : nat) :
  (∀ k, (k < i)%nat → String.get k s1 = String.get k s2) →
  trim_end s1 i = trim_end s2 i.
Proof.
  induction i as [|j IH]; intros Heq; [done|]. cbn [trim_end].
  rewrite <- (Heq j) by lia. rewrite IH; [done|]. intros k Hk. apply Heq. lia.
Qed.

Lemma trim_end_spaces (a post : string) (k : nat) :
  all_isspace post = true → (k ≤ String.length post)%nat →
  trim_end (a +:+ post) (String.length a + k)
  = trim_end (a +:+ post) (String.length a).
Proof.
  intros Hpost. induction k as [|k IH]; intros Hk.
  - by rewrite Nat.add_0_r.
  - rewrite Nat.add_succ_r. cbn [trim_end].
    rewrite (Nat.add_comm (String.length a) k), <- String.append_correct2.
    destruct (get_lt_length post k) as [c Hc]; [lia|]. rewrite Hc.
    rewrite (all_isspace_get post k c Hpost Hc).
    rewrite (Nat.add_comm k). apply IH. lia.
Qed.

Lemma ends_with_space_last (c : ascii) (s : string) :
  ends_with_space (String c s) = false →
  ∃ d, String.get (String.length s) (String c s) = Some d ∧ isspace d = false.
Proof.
  revert c. induction s as [|e s IH]; intros c Hs.
  - exists c. by cbn in *.
  - destruct (IH e) as (d & Hd & Hsp); [exact Hs|]. exists d. split; [|done].
    exact Hd.
Qed.

(** What [trim] computes: the part between the leading and the trailing
    whitespace. *)
Lemma trim_buf_between (pre core post : string) :
  all_isspace pre = true → all_isspace post = true →
  no_outer_space core = true →
  trim_buf (pre +:+ core +:+ post) = core.
Proof.
  intros Hpre Hpost Hcore. unfold trim_buf, strndup.
  rewrite skip_whitespace_all_isspace by exact Hpre.
  destruct core as [|c core].
  { change ("" +:+ post) with post.
    rewrite skip_whitespace_only_space by exact Hpost. done. }
  unfold no_outer_space in Hcore. apply andb_prop in Hcore as [Hc Hend].
  apply negb_true_iff in Hc, Hend. change (char_at 0 (String c core)) with c in Hc.
  change (String c core +:+ post) with (String c (core +:+ post)).
  rewrite skip_whitespace_fixed by exact Hc.
  change (String c (core +:+ post)) with (String c core +:+ post).
  rewrite length_append, trim_end_spaces by (done || lia).
  rewrite (trim_end_ext _ (String c core)).
  - destruct (ends_with_space_last c core Hend) as (d & Hd & Hsp).
    cbn [String.length]. rewrite (trim_end_stop _ _ d Hd Hsp).
    apply (substring_0_append (String c core)).
  - intros k Hk. symmetry. by apply String.append_correct1.
Qed.

Lemma get_substring_0 (s : string) (n k : nat) :
  (k < n)%nat → String.get k (String.substring 0 n s) = String.get k s.
Proof.
  intros Hk. rewrite String.substring_correct1 by lia. by rewrite Nat.add_0_r.
Qed.

Lemma ends_with_space_get (s : string) (j : nat) (c : ascii) :
  String.length s = S j → String.get j s = Some c →
  ends_with_space s = isspace c.
Proof.
  revert j. induction s as [|d s IH]; intros j Hlen Hget; [done|].
  destruct s as [|e s].
  - cbn in Hlen. assert (j = 0%nat) as -> by lia. cbn in Hget. by injection Hget as ->.
  - destruct j as [|j]; [cbn in Hlen; lia|].
    change (ends_with_space (String d (String e s)))
      with (ends_with_space (String e s)).
    apply (IH j); [cbn in *; lia | exact Hget].
Qed.

(** X1.  [trim] returns the text between the leading and the trailing
    whitespace. *)
Theorem trim_between (pre core post : string) :
  all_isspace pre = true → all_isspace post = true →
  no_outer_space core = true →
  trim (Some (pre +:+ core +:+ post)) = Some core.
Proof.
  intros Hpre Hpost Hcore. cbn. f_equal. by apply trim_buf_between.
Qed.

Lemma trim_between_witness :
  trim (Some ((" " +:+ nl) +:+ "1. run it" +:+ (nl +:+ " " +:+ nl)))
  = Some "1. run it".
Proof.
  apply (trim_between (" " +:+ nl) "1. run it" (nl +:+ " " +:+ nl));
    reflexivity.
Defined.

(** X2.  What [trim] returns has whitespace at neither end, so trimming
    twice is trimming once; NULL stays NULL. *)
Theorem trim_result_is_trimmed (s : string) :
  no_outer_space (trim_buf s) = true
  ∧ trim (trim (Some s)) = trim (Some s)
  ∧ trim (trim None) = None.
Proof.
  split; [|split].
  - unfold trim_buf, strndup, no_outer_space.
    pose proof (skip_whitespace_head s) as Hhead.
    set (ibuf := skip_whitespace s) in *.
    pose proof (trim_end_le ibuf (String.length ibuf)) as Hle.
    destruct (trim_end ibuf (String.length ibuf)) as [|j] eqn:En.
    { by destruct ibuf. }
    destruct (trim_end_last ibuf _ j (Nat.le_refl _) En) as (c & Hc & Ec).
    destruct ibuf as [|c0 r]; [cbn in Hle; lia|].
    apply andb_true_intro. split.
    + cbn. by rewrite Hhead.
    + rewrite (ends_with_space_get _ j c).
      * by rewrite Ec.
      * apply substring_0_length. lia.
      * rewrite get_substring_0 by lia. exact Hc.
  - apply trim_idempotent.
  - reflexivity.
Qed.

(** X3.  The buffer [escape] allocates, [strlen(str) + 1 + count] bytes, is
    exactly what its copy loop fills, the terminating NUL included. *)
Theorem escape_fills_its_buffer (str : string) :
  (String.length (escape str) + 1 = strlen str + 1 + escape_count true str)%nat.
Proof. unfold escape. rewrite escape_from_length. lia. Qed.

Lemma hash_line_escape_from (newline : bool) (s : string) :
  hash_line newline (escape_from newline s) = false.
Proof.
  revert newline. induction s as [|c s IH]; intros newline; [done|].
  cbn [escape_from]. destruct (Ascii.eqb c NUL); [done|].
  destruct newline; cbn [andb].
  - destruct (Ascii.eqb_spec c "#") as [->|Hc]; cbn [orb].
    + cbn [hash_line]. change (Ascii.eqb "\" "#") with false.
      change (Ascii.eqb "\" LF) with false. cbn [andb orb]. apply IH.
    + destruct (Ascii.eqb c "\" && Ascii.eqb (char_at 0 s) "#") eqn:E.
      * apply andb_prop in E as [->%Ascii.eqb_eq _].
        cbn [hash_line]. change (Ascii.eqb "\" "#") with false.
        change (Ascii.eqb "\" LF) with false. cbn [andb orb]. apply IH.
      * cbn [hash_line andb]. rewrite (proj2 (Ascii.eqb_neq c "#") Hc).
        cbn [orb]. apply IH.
  - cbn [hash_line andb orb]. apply IH.
Qed.

(** X4.  No line of an escaped content starts with '#': the content of a
    field is never taken for a comment line. *)
Theorem escape_leaves_no_comment_line (str : string) :
  hash_line true (escape str) = false.
Proof. apply hash_line_escape_from. Qed.

Lemma unescape_from_hash (rest : string) :
  unescape_from true (String "#" rest) = unescape_from true (after_line rest).
Proof.
  simpl. induction rest as [|d rest IH]; simpl; [done|].
  destruct (Ascii.eqb d NUL); [done|]. destruct (Ascii.eqb d LF); [done|].
  exact IH.
Qed.

Lemma after_line_strlen (p : string) : (strlen (after_line p) ≤ strlen p)%nat.
Proof.
  induction p as [|d p IH]; [done|]. cbn [after_line strlen].
  destruct (Ascii.eqb d NUL); [done|]. destruct (Ascii.eqb d LF); lia.
Qed.

Lemma after_line_length (p : string) :
  (String.length (after_line p) ≤ String.length p)%nat.
Proof.
  induction p as [|d p IH]; [done|]. cbn [after_line String.length].
  destruct (Ascii.eqb d NUL); [cbn; lia|]. destruct (Ascii.eqb d LF); lia.
Qed.

Lemma unescape_from_strlen (n : nat) :
  ∀ (newline : bool) (s : string),
    (String.length s ≤ n)%nat →
    (String.length (unescape_from newline s) ≤ strlen s)%nat.
Proof.
  induction n as [|n IH]; intros newline s Hn.
  { destruct s; [done | cbn in Hn; lia]. }
  destruct s as [|c rest]; [done|]. cbn [String.length] in Hn.
  destruct (Ascii.eqb c NUL) eqn:Hnul.
  { cbn [unescape_from strlen]. by rewrite Hnul. }
  destruct (newline && Ascii.eqb c "#") eqn:Hhash.
  { apply andb_prop in Hhash as [-> ->%Ascii.eqb_eq].
    rewrite unescape_from_hash.
    change (strlen (String "#" rest)) with (S (strlen rest)).
    pose proof (after_line_strlen rest). pose proof (after_line_length rest).
    specialize (IH true (after_line rest)). lia. }
  cbn [unescape_from strlen]. rewrite Hnul, Hhash.
  destruct (newline && Ascii.eqb c "\"
            && (Ascii.eqb (char_at 0 rest) "#"
                || Ascii.eqb (char_at 0 rest) "\"
                   && Ascii.eqb (char_at 1 rest) "#")) eqn:Hesc.
  - destruct rest as [|d q]; [cbn; lia|].
    assert (Hd : Ascii.eqb d NUL = false).
    { apply andb_prop in Hesc as [_ Hd]. change (char_at 0 (String d q)) with d in Hd.
      destruct (Ascii.eqb_spec d NUL) as [->|]; [|done]. by cbn in Hd. }
    cbn [String.length strlen]. rewrite Hd.
    cbn [String.length] in Hn. specialize (IH (Ascii.eqb d LF) q). lia.
  - cbn [String.length]. specialize (IH (Ascii.eqb c LF) rest). lia.
Qed.

(** X5.  [remove_comments_and_unescape] never produces more characters than
    the C string it reads: the write pointer of the in-place loop stays at or
    behind the read pointer. *)
Theorem remove_comments_and_unescape_shrinks (str : string) :
  (String.length (remove_comments_and_unescape str) ≤ strlen str)%nat.
Proof. by apply (unescape_from_strlen (String.length str)). Qed.

Lemma backslash2_hash_lines_0 (newline : bool) (s : string) :
  backslash2_hash_lines newline s = 0%nat ↔ backslash2_hash_line newline s = false.
Proof.
  revert newline. induction s as [|c s IH]; intros newline; [done|].
  cbn [backslash2_hash_lines backslash2_hash_line].
  specialize (IH (Ascii.eqb c LF)).
  destruct (newline && Ascii.eqb c "\" && Ascii.eqb (char_at 0 s) "\"
            && Ascii.eqb (char_at 1 s) "#"); cbn [orb].
  - split; [lia | done].
  - by rewrite Nat.add_0_l.
Qed.

(** Each line that starts with two backslashes and a '#' comes back one
    character shorter. *)
Lemma unescape_escape_from_length (newline : bool) (s : string) :
  no_nul s = true →
  (String.length (unescape_from newline (escape_from newline s))
   + backslash2_hash_lines newline s = String.length s)%nat.
Proof.
  revert newline. induction s as [|c s IH]; intros newline Hnul; [done|].
  cbn [no_nul] in Hnul. apply andb_prop in Hnul as [Hc Hnul].
  apply negb_true_iff in Hc.
  pose proof (char_at_0_escape_from_false s Hnul) as H0.
  pose proof (char_at_1_escape_from_false s Hnul) as H1.
  pose proof (IH false Hnul) as IHf.
  specialize (IH (Ascii.eqb c LF) Hnul).
  cbn [escape_from backslash2_hash_lines String.length]. rewrite Hc.
  destruct newline; cbn [andb] in *.
  - destruct (Ascii.eqb_spec c "#") as [->|Hhash]; cbn [orb].
    { change (Ascii.eqb "#" "\") with false. cbn [andb].
      cbn [unescape_from]. change (Ascii.eqb "\" NUL) with false.
      change (Ascii.eqb "\" "#") with false.
      change (Ascii.eqb "\" "\") with true. cbn [andb].
      change (char_at 0 (String "#" ?x)) with "#"%char.
      change (Ascii.eqb "#" "#") with true. cbn [orb String.length].
      change (Ascii.eqb "#" LF) with false in *. lia. }
    destruct (Ascii.eqb_spec c "\") as [->|Hbs]; cbn [andb] in *.
    + change (Ascii.eqb "\" LF) with false in *.
      destruct (Ascii.eqb (char_at 0 s) "#") eqn:Es.
      * assert (Ascii.eqb (char_at 0 s) "\" = false) as ->.
        { apply Ascii.eqb_eq in Es. by rewrite Es. }
        cbn [andb]. cbn [unescape_from]. change (Ascii.eqb "\" NUL) with false.
        change (Ascii.eqb "\" "#") with false.
        change (Ascii.eqb "\" "\") with true. cbn [andb].
        change (char_at 0 (String "\" ?x)) with "\"%char.
        change (char_at 1 (String "\" ?x)) with (char_at 0 x).
        change (Ascii.eqb "\" "#") with false.
        change (Ascii.eqb "\" "\") with true. cbn [andb orb].
        rewrite H0, Es. change (Ascii.eqb "\" LF) with false.
        cbn [String.length]. lia.
      * cbn [unescape_from]. change (Ascii.eqb "\" NUL) with false.
        change (Ascii.eqb "\" "#") with false.
        change (Ascii.eqb "\" "\") with true. cbn [andb].
        rewrite H0, Es. cbn [orb].
        destruct (Ascii.eqb (char_at 0 s) "\") eqn:Es2; cbn [andb] in *.
        -- rewrite (H1 eq_refl).
           destruct (Ascii.eqb (char_at 1 s) "#") eqn:Es3.
           ++ (* the line starts with two backslashes and '#' *)
              destruct s as [|d s2]; [done|].
              apply Ascii.eqb_eq in Es2. change (char_at 0 (String d s2)) with d in Es2.
              subst d. cbn [no_nul] in Hnul.
              cbn [escape_from] in IHf |- *. change (Ascii.eqb "\" NUL) with false in *.
              cbn [andb] in IHf |- *. change (Ascii.eqb "\" LF) with false in *.
              cbn [unescape_from] in IHf. change (Ascii.eqb "\" NUL) with false in *.
              change (Ascii.eqb "\" LF) with false in *.
              cbn [andb String.length] in IHf |- *. lia.
           ++ change (Ascii.eqb "\" LF) with false. cbn [String.length]. lia.
        -- change (Ascii.eqb "\" LF) with false. cbn [String.length]. lia.
    + cbn [unescape_from]. rewrite Hc.
      rewrite (proj2 (Ascii.eqb_neq c "#") Hhash).
      rewrite (proj2 (Ascii.eqb_neq c "\") Hbs). cbn [andb String.length]. lia.
  - cbn [unescape_from]. rewrite Hc. cbn [andb String.length]. lia.
Qed.

(** X6.  For a content without NUL, rendered behind comment lines: what
    [remove_comments_and_unescape] gives back is shorter than the content by
    one character for each line that starts with two backslashes and a '#',
    and it is the content exactly when there is no such line. *)
Theorem escape_round_trip_exactly (comments : list string) (c : string) :
  forallb comment_line comments = true →
  no_nul c = true →
  let back := remove_comments_and_unescape (inject_comments comments (escape c)) in
  (String.length back + backslash2_hash_lines true c = String.length c)%nat
  ∧ (back = c ↔ backslash2_hash_line true c = false).
Proof.
  intros Hcom Hnul back.
  assert (Hlen : (String.length back + backslash2_hash_lines true c
                  = String.length c)%nat).
  { subst back. unfold remove_comments_and_unescape, escape.
    rewrite unescape_inject_comments by exact Hcom.
    by apply unescape_escape_from_length. }
  split; [exact Hlen|]. split.
  - intros Hback. apply backslash2_hash_lines_0. rewrite Hback in Hlen. lia.
  - intros Hclean. by apply unescape_escape_roundtrip.
Qed.

Lemma escape_round_trip_exactly_witness :
  let c := "# not a comment" +:+ nl +:+ "\# escaped" +:+ nl +:+ " indented " in
  let back :=
    remove_comments_and_unescape
      (inject_comments ["# Describe the circumstances of this crash below";
                        "# This field is read only"] (escape c)) in
  (String.length back + backslash2_hash_lines true c = String.length c)%nat
  ∧ (back = c ↔ backslash2_hash_line true c = false).
Proof.
  apply (escape_round_trip_exactly
           ["# Describe the circumstances of this crash below";
            "# This field is read only"]); reflexivity.
Defined.

(** ** Occurrences of a string in a text *)

Lemma prefix_cons (a b : ascii) (x y : string) :
  String.prefix (String a x) (String b y)
  = if ascii_dec a b then String.prefix x y else false.
Proof. reflexivity. Qed.

Lemma prefix_append_l (a b h : string) :
  String.prefix (a +:+ b) h = true → String.prefix a h = true.
Proof.
  revert h. induction a as [|c a IH]; intros h; [by destruct h|].
  change (String c a +:+ b) with (String c (a +:+ b)).
  destruct h as [|d h]; [done|]. rewrite !prefix_cons.
  destruct (ascii_dec c d); [apply IH | done].
Qed.

Lemma prefix_append_same (a x y : string) :
  String.prefix (a +:+ x) (a +:+ y) = String.prefix x y.
Proof.
  induction a as [|c a IH]; [done|].
  change (String c a +:+ ?z) with (String c (a +:+ z)). rewrite prefix_cons.
  by destruct (ascii_dec c c).
Qed.

Lemma prefix_append_refl (a y : string) : String.prefix a (a +:+ y) = true.
Proof.
  rewrite <- (append_nil_r a) at 1. rewrite prefix_append_same. by destruct y.
Qed.

Lemma strstr_prefix (hay needle : string) :
  String.prefix needle hay = true → strstr hay needle = Some hay.
Proof. intros Hp. destruct hay; cbn [strstr]; by rewrite Hp. Qed.

Lemma advance_append (a x : string) : advance (String.length a) (a +:+ x) = x.
Proof. induction a as [|c a IH]; [by destruct x | exact IH]. Qed.

Lemma prefix_split (needle s : string) :
  String.prefix needle s = true → ∃ post, s = needle +:+ post.
Proof.
  revert s. induction needle as [|c needle IH]; intros s Hp; [by exists s|].
  destruct s as [|d s]; [done|]. rewrite prefix_cons in Hp.
  destruct (ascii_dec c d) as [->|]; [|done].
  destruct (IH s Hp) as [post ->]. by exists post.
Qed.

Lemma append_inj_length (a b c d : string) :
  a +:+ b = c +:+ d → String.length a = String.length c → a = c ∧ b = d.
Proof.
  revert c. induction a as [|x a IH]; intros [|y c] Heq Hlen; try done.
  change (String x (a +:+ b) = String y (c +:+ d)) in Heq.
  injection Heq as -> Heq. cbn [String.length] in Hlen.
  destruct (IH c Heq) as [-> ->]; [lia | done].
Qed.

(** [strstr] returns the first occurrence. *)
Lemma strstr_first_at (hay needle s : string) :
  strstr hay needle = Some s →
  ∃ pre post, hay = pre +:+ s ∧ s = needle +:+ post
              ∧ first_at needle hay pre.
Proof.
  revert s. induction hay as [|c hay IH]; intros s; cbn [strstr].
  - destruct (String.prefix needle "") eqn:Hp; [|done]. intros [= <-].
    destruct (prefix_split _ _ Hp) as [post Hpost].
    exists "", post. repeat split; [done| |].
    + exists post. done.
    + intros pre' post' _. cbn. lia.
  - destruct (String.prefix needle (String c hay)) eqn:Hp.
    + intros [= <-]. destruct (prefix_split _ _ Hp) as [post Hpost].
      exists "", post. repeat split; [done| |].
      * exists post. done.
      * intros pre' post' _. cbn. lia.
    + intros Hs. destruct (IH s Hs) as (pre & post & -> & -> & [_ Hmin]).
      exists (String c pre), post. repeat split.
      * by exists post.
      * intros [|d pre'] post' Heq.
        { change ("" +:+ needle +:+ post') with (needle +:+ post') in Heq.
          rewrite Heq, prefix_append_refl in Hp. done. }
        change (String c (pre +:+ needle +:+ post)
                = String d (pre' +:+ needle +:+ post')) in Heq.
        injection Heq as _ Heq. specialize (Hmin pre' post' Heq).
        cbn [String.length]. lia.
Qed.

(** [strstr] returns NULL only when there is no occurrence. *)
Lemma strstr_absent (hay needle : string) :
  strstr hay needle = None → absent needle hay.
Proof.
  induction hay as [|c hay IH]; cbn [strstr].
  - destruct (String.prefix needle "") eqn:Hp; [done|]. intros _ pre post Heq.
    destruct pre; [|done].
    change ("" +:+ needle +:+ post) with (needle +:+ post) in Heq.
    rewrite Heq, prefix_append_refl in Hp. done.
  - destruct (String.prefix needle (String c hay)) eqn:Hp; [done|].
    intros Hnone [|d pre] post Heq.
    + change ("" +:+ needle +:+ post) with (needle +:+ post) in Heq.
      rewrite Heq, prefix_append_refl in Hp. done.
    + change (String c hay = String d (pre +:+ needle +:+ post)) in Heq.
      injection Heq as _ Heq. by apply (IH Hnone pre post).
Qed.

Lemma first_at_unique (needle hay p1 p2 : string) :
  first_at needle hay p1 → first_at needle hay p2 → p1 = p2.
Proof.
  intros [[post1 H1] Hmin1] [[post2 H2] Hmin2].
  pose proof (Hmin1 p2 post2 H2). pose proof (Hmin2 p1 post1 H1).
  rewrite H1 in H2. apply append_inj_length in H2 as [? _]; [done | lia].
Qed.

(** What [read_crash_report_field] takes for the body of a field is the body
    as [body_of] describes it, and that description fits one string only. *)
Lemma field_text_body_of (text field raw : string) :
  field_text text field = Some raw → body_of text field raw.
Proof.
  unfold field_text, body_of.
  set (separator := nl +:+ FIELD_SEP +:+ field +:+ nl).
  destruct (strstr text separator) as [textfield|] eqn:Hsep; [|done].
  apply strstr_first_at in Hsep as (pre & rest & Htext & -> & Hfirst).
  rewrite advance_append. intros [= <-]. exists pre, rest.
  split; [exact Hfirst|]. split; [exact Htext|].
  destruct (strstr rest (nl +:+ FIELD_SEP)) as [e|] eqn:Hend.
  - left. apply strstr_first_at in Hend as (raw & post & -> & -> & Hraw).
    rewrite length_append, Nat.add_sub. unfold strndup. by rewrite substring_0_append.
  - right. split; [by apply strstr_absent|].
    unfold strndup. by rewrite substring_0_all.
Qed.

Lemma body_of_unique (text field raw1 raw2 : string) :
  body_of text field raw1 → body_of text field raw2 → raw1 = raw2.
Proof.
  intros (pre1 & rest1 & Hf1 & Ht1 & Hb1) (pre2 & rest2 & Hf2 & Ht2 & Hb2).
  pose proof (first_at_unique _ _ _ _ Hf1 Hf2) as <-.
  rewrite Ht1 in Ht2. apply append_inj_length in Ht2 as [_ Ht2]; [|done].
  apply append_inj_length in Ht2 as [_ <-]; [|done].
  destruct Hb1 as [Hb1|[Hno1 ->]], Hb2 as [Hb2|[Hno2 ->]].
  - by eapply first_at_unique.
  - destruct Hb1 as [[post Hpost] _]. by destruct (Hno2 _ _ Hpost).
  - destruct Hb2 as [[post Hpost] _]. by destruct (Hno1 _ _ Hpost).
  - done.
Qed.

(** ** ReportDocument *)

Section MoreReportDocumentFacts.
Context {ct : crash_types}.

(** What the calls can do to one field: nothing, or replace the content of
    an editable field that is not flagged SYS by the trimmed body of its
    block. *)
Lemma read_fields_lookup (text : string) (fields : list string) (acc : Z)
    (w : world) (field : string) :
  let w' := (read_fields text fields acc w).2 in
  w_report w' !! field = w_report w !! field
  ∨ (field ∈ fields
     ∧ ∃ value raw,
         w_report w !! field = Some value
         ∧ Z.land (flags value) CD_FLAG_SYS = 0
         ∧ Z.land (flags value) CD_FLAG_ISEDITABLE ≠ 0
         ∧ field_text text field = Some raw
         ∧ w_report w' !! field = Some (CrashItem (trim_buf raw) (flags value))).
Proof.
  cbv zeta. revert acc w. induction fields as [|g fields IH]; intros acc w.
  { by left. }
  cbn [read_fields]. cbv [mbind state_bind].
  pose proof (read_crash_report_field_cases text g w) as Hstep.
  destruct (read_crash_report_field text g w) as [r1 w1].
  destruct Hstep as [_ [[_ Hsame]|[_ (vg & rawg & Hvg & Hrawg & Hsys & Hed & _ & Hrep)]]].
  - destruct (IH (Z.lor acc r1) w1) as [Hkeep|(Hin & v & raw & Hv & ?)].
    + left. by rewrite Hkeep, Hsame.
    + right. split; [by right|]. exists v, raw. by rewrite <- Hsame.
  - destruct (decide (g = field)) as [->|Hne].
    + right. split; [by left|]. exists vg, rawg. repeat split; try done.
      destruct (IH (Z.lor acc r1) w1) as [Hkeep|(_ & v & raw & Hv & _ & _ & Hraw & Hnew)].
      * rewrite Hkeep, Hrep. apply lookup_insert_eq.
      * rewrite Hrep, lookup_insert_eq in Hv. injection Hv as <-.
        rewrite Hnew. cbn. congruence.
    + destruct (IH (Z.lor acc r1) w1) as [Hkeep|(Hin & v & raw & Hv & ?)].
      * left. rewrite Hkeep, Hrep. by apply lookup_insert_ne.
      * right. split; [by right|]. exists v, raw.
        rewrite Hrep, lookup_insert_ne in Hv by done. done.
Qed.

Lemma strstr_longer_needle (hay a b : string) :
  strstr hay a = None → strstr hay (a +:+ b) = None.
Proof.
  assert (Hpre : ∀ h, String.prefix (a +:+ b) h = true → String.prefix a h = true).
  { induction a as [|c a IHa]; intros h; [by destruct h|].
    change (String c a +:+ b) with (String c (a +:+ b)).
    destruct h as [|d h]; cbn [String.prefix]; [done|].
    destruct (ascii_dec c d); [apply IHa | done]. }
  induction hay as [|c hay IH]; cbn [strstr]; intros Hnone.
  - destruct (String.prefix (a +:+ b) "") eqn:E; [|done].
    by rewrite (Hpre _ E) in Hnone.
  - destruct (String.prefix (a +:+ b) (String c hay)) eqn:E.
    + by rewrite (Hpre _ E) in Hnone.
    + destruct (String.prefix a (String c hay)); [done | by apply IH].
Qed.

Lemma read_fields_no_block (text : string) (fields : list string) (acc : Z)
    (w : world) :
  (∀ field, field ∈ fields → field_text text field = None) →
  read_fields text fields acc w = (acc, w).
Proof.
  revert acc. induction fields as [|g fields IH]; intros acc Hnone; [done|].
  cbn [read_fields]. cbv [mbind state_bind].
  rewrite read_crash_report_field_spec, (Hnone g) by by left.
  rewrite Z.lor_0_r. apply IH. intros f Hf. apply Hnone. by right.
Qed.

(** A call settles its own field. *)
Lemma read_crash_report_field_settles (text field : string) (w : world) :
  settled text field (w_report (read_crash_report_field text field w).2).
Proof.
  rewrite read_crash_report_field_spec. unfold settled.
  destruct (field_text text field) as [raw|] eqn:Hraw.
  - destruct (w_report w !! field) as [value|] eqn:Hv.
    + repeat case_bool_decide; cbn [snd w_report];
        rewrite ?lookup_insert_eq, ?Hv, ?Hraw; cbn [content flags]; auto.
      right. right. by rewrite trim_buf_idempotent.
    + cbn [snd w_report]. by rewrite Hv.
  - cbn [snd]. by destruct (w_report w !! field).
Qed.

(** On a settled field a call changes nothing in the report. *)
Lemma read_crash_report_field_settled (text field : string) (w : world) :
  settled text field (w_report w) →
  (read_crash_report_field text field w).1 = 0
  ∧ w_report (read_crash_report_field text field w).2 = w_report w.
Proof.
  unfold settled. rewrite read_crash_report_field_spec.
  destruct (field_text text field) as [raw|]; [|by destruct (w_report w !! field)].
  destruct (w_report w !! field) as [value|]; [|done].
  intros [Hsys|[Hro|Heq]]; repeat case_bool_decide; done.
Qed.

Lemma read_fields_settled (text : string) (fields : list string) (acc : Z)
    (w : world) :
  (∀ field, field ∈ fields → settled text field (w_report w)) →
  (read_fields text fields acc w).1 = acc
  ∧ w_report (read_fields text fields acc w).2 = w_report w.
Proof.
  revert acc w. induction fields as [|g fields IH]; intros acc w Hall; [done|].
  cbn [read_fields]. cbv [mbind state_bind].
  destruct (read_crash_report_field_settled text g w) as [Hr Hw].
  { apply Hall. by left. }
  destruct (read_crash_report_field text g w) as [r1 w1]. cbn [fst snd] in Hr, Hw.
  subst r1. rewrite Z.lor_0_r. rewrite <- Hw. apply IH.
  intros f Hf. rewrite Hw. apply Hall. by right.
Qed.

(** Settled fields stay settled. *)
Lemma read_crash_report_field_keeps_settled (text field g : string) (w : world) :
  settled text field (w_report w) →
  settled text field (w_report (read_crash_report_field text g w).2).
Proof.
  intros Hs. destruct (decide (g = field)) as [->|Hne].
  { apply read_crash_report_field_settles. }
  pose proof (read_crash_report_field_cases text g w) as Hstep.
  destruct (read_crash_report_field text g w) as [r1 w1]. cbn [snd].
  destruct Hstep as [_ [[_ Hsame]|[_ (vg & rawg & _ & _ & _ & _ & _ & Hrep)]]].
  - by rewrite Hsame.
  - unfold settled in *. rewrite Hrep, lookup_insert_ne by done. exact Hs.
Qed.

Lemma read_fields_keeps_settled (text field : string) (fields : list string)
    (acc : Z) (w : world) :
  settled text field (w_report w) →
  settled text field (w_report (read_fields text fields acc w).2).
Proof.
  revert acc w. induction fields as [|g fields IH]; intros acc w Hs; [done|].
  cbn [read_fields]. cbv [mbind state_bind].
  pose proof (read_crash_report_field_keeps_settled text field g w Hs) as H1.
  destruct (read_crash_report_field text g w) as [r1 w1]. by apply IH.
Qed.

Lemma read_fields_settles (text : string) (fields : list string) (acc : Z)
    (w : world) (field : string) :
  field ∈ fields →
  settled text field (w_report (read_fields text fields acc w).2).
Proof.
  revert acc w. induction fields as [|g fields IH]; intros acc w Hin.
  { by apply elem_of_nil in Hin. }
  cbn [read_fields]. cbv [mbind state_bind].
  pose proof (read_crash_report_field_settles text g w) as Hg.
  destruct (read_crash_report_field text g w) as [r1 w1]. cbn [snd] in Hg.
  apply elem_of_cons in Hin as [->|Hin].
  - by apply read_fields_keeps_settled.
  - by apply IH.
Qed.

End MoreReportDocumentFacts.

(** X7.  Applying a document never adds or removes a field and never changes
    the flags of one.  A field whose content it changes is a well-known
    field that is editable and not flagged SYS, and its new content is,
    trimmed, the one string that [body_of] describes: what follows the first
    marker line of the field in the text, up to the first newline followed
    by %---- (to the end of the text when there is none). *)
Theorem read_crash_report_changes {ct : crash_types}
    (text : string) (w : world) (field : string) :
  let report := w_report w in
  let report' := w_report (read_crash_report text w).2 in
  flags <$> report' !! field = flags <$> report !! field
  ∧ (report' !! field ≠ report !! field →
     field ∈ well_known_fields.*1
     ∧ ∃ value raw,
         report !! field = Some value
         ∧ Z.land (flags value) CD_FLAG_SYS = 0
         ∧ Z.land (flags value) CD_FLAG_ISEDITABLE ≠ 0
         ∧ body_of text field raw
         ∧ (∀ raw', body_of text field raw' → raw' = raw)
         ∧ report' !! field = Some (CrashItem (trim_buf raw) (flags value))).
Proof.
  cbv zeta. rewrite read_crash_report_unfold.
  destruct (read_fields_lookup text (well_known_fields.*1) 0 w field)
    as [Hsame|(Hin & value & raw & Hv & Hsys & Hed & Hraw & Hnew)].
  - split; [by rewrite Hsame | done].
  - split.
    + by rewrite Hnew, Hv.
    + intros _. split; [done|]. exists value, raw.
      apply field_text_body_of in Hraw. repeat split; try done.
      intros raw' Hraw'. by eapply body_of_unique.
Qed.

(** X8.  Applying the same document a second time changes nothing more: the
    second call returns 0 and leaves the report of the first call. *)
Theorem read_crash_report_twice {ct : crash_types} (text : string) (w : world) :
  let w1 := (read_crash_report text w).2 in
  (read_crash_report text w1).1 = 0
  ∧ w_report (read_crash_report text w1).2 = w_report w1.
Proof.
  cbv zeta. rewrite !read_crash_report_unfold.
  apply read_fields_settled. intros field Hin. by apply read_fields_settles.
Qed.

(** X9.  A text without any field marker (the empty text, for one) changes
    nothing: the result is 0 and the report and the log are as before. *)
Theorem read_crash_report_without_marker {ct : crash_types}
    (text : string) (w : world) :
  strstr text (nl +:+ FIELD_SEP) = None →
  read_crash_report text w = (0, w).
Proof.
  intros Hnone. rewrite read_crash_report_unfold. apply read_fields_no_block.
  intros field _. unfold field_text.
  rewrite <- append_assoc, (strstr_longer_needle _ _ _ Hnone). done.
Qed.

Lemma read_crash_report_without_marker_witness :
  read_crash_report (ct:=sample_crash_types) "" sample_world
  = (0, sample_world).
Proof.
  apply (read_crash_report_without_marker (ct:=sample_crash_types)).
  reflexivity.
Defined.

Lemma read_crash_report_changes_witness :
  "comment" ∈ (well_known_fields (ct:=sample_crash_types)).*1
  ∧ ∃ value raw,
      w_report sample_world !! "comment" = Some value
      ∧ Z.land (flags value) 1 = 0
      ∧ Z.land (flags value) 8 ≠ 0
      ∧ body_of adjacent_markers_text "comment" raw
      ∧ (∀ raw', body_of adjacent_markers_text "comment" raw' → raw' = raw)
      ∧ w_report (read_crash_report (ct:=sample_crash_types)
                    adjacent_markers_text sample_world).2 !! "comment"
        = Some (CrashItem (trim_buf raw) (flags value)).
Proof.
  apply (proj2 (read_crash_report_changes (ct:=sample_crash_types)
                  adjacent_markers_text sample_world "comment")).
  vm_compute. discriminate.
Defined.

(** The same text, computed: the comment field takes the marker line of the
    reproduce field and what follows it as its body, and the reproduce field
    is found as well. *)
Example read_crash_report_adjacent_markers :
  let report' := w_report (read_crash_report (ct:=sample_crash_types)
                             adjacent_markers_text sample_world).2 in
  report' !! "comment"
  = Some (CrashItem ("%----reproduce" +:+ nl +:+ "xyz") 12)
  ∧ report' !! "reproduce" = Some (CrashItem "xyz" 12).
Proof. vm_compute. done. Qed.

Lemma create_fields_for_editor_spec {ct : crash_types} (w : world) :
  create_fields_for_editor w
  = ((), World
       (let r1 := match w_report w !! FILENAME_COMMENT with
                  | None => <[FILENAME_COMMENT :=
                               CrashItem "" (CD_FLAG_TXT + CD_FLAG_ISEDITABLE)]>
                              (w_report w)
                  | Some _ => w_report w
                  end in
        match r1 !! FILENAME_REPRODUCE with
        | None => <[FILENAME_REPRODUCE :=
                     CrashItem ("1. " +:+ nl +:+ "2. " +:+ nl +:+ "3. " +:+ nl)
                               (CD_FLAG_TXT + CD_FLAG_ISEDITABLE)]> r1
        | Some _ => r1
        end)
       (w_file w) (w_log w)).
Proof.
  unfold create_fields_for_editor, get_crash_data_item_or_NULL,
    add_to_crash_data_ext, modify.
  cbv [mbind state_bind mret state_ret].
  destruct w as [report file log]. cbn [w_report w_file w_log].
  destruct (report !! FILENAME_COMMENT); cbn [w_report w_file w_log];
    match goal with |- context [?m !! FILENAME_REPRODUCE] =>
      destruct (m !! FILENAME_REPRODUCE) end; reflexivity.
Qed.

(** X10.  [create_fields_for_editor] never replaces or removes an item of
    the report; afterwards the comment and the reproduce fields exist, a
    field it had to create being editable text with the default content;
    nothing is written or logged. *)
Theorem create_fields_for_editor_adds_only {ct : crash_types} (w : world) :
  let w' := (create_fields_for_editor w).2 in
  (∀ field value,
     w_report w !! field = Some value → w_report w' !! field = Some value)
  ∧ is_Some (w_report w' !! FILENAME_COMMENT)
  ∧ is_Some (w_report w' !! FILENAME_REPRODUCE)
  ∧ (w_report w !! FILENAME_COMMENT = None →
     w_report w' !! FILENAME_COMMENT
     = Some (CrashItem "" (CD_FLAG_TXT + CD_FLAG_ISEDITABLE)))
  ∧ (w_report w !! FILENAME_REPRODUCE = None →
     FILENAME_REPRODUCE ≠ FILENAME_COMMENT →
     w_report w' !! FILENAME_REPRODUCE
     = Some (CrashItem ("1. " +:+ nl +:+ "2. " +:+ nl +:+ "3. " +:+ nl)
                       (CD_FLAG_TXT + CD_FLAG_ISEDITABLE)))
  ∧ w_file w' = w_file w ∧ w_log w' = w_log w.
Proof.
  cbv zeta. rewrite create_fields_for_editor_spec. cbn [snd w_report w_file w_log].
  destruct (w_report w !! FILENAME_COMMENT) as [vc|] eqn:Hc.
  - destruct (w_report w !! FILENAME_REPRODUCE) as [vr|] eqn:Hr.
    + repeat split; try done; by eauto.
    + repeat split; try done.
      * intros f v Hf. rewrite lookup_insert_ne; [done | congruence].
      * rewrite lookup_insert_ne; [by eauto | congruence].
      * rewrite lookup_insert_eq. by eauto.
      * intros _ _. by rewrite lookup_insert_eq.
  - destruct (decide (FILENAME_REPRODUCE = FILENAME_COMMENT)) as [E|Hne].
    + rewrite E, lookup_insert_eq. repeat split; try done.
      * intros f v Hf. rewrite lookup_insert_ne; [done | congruence].
      * rewrite lookup_insert_eq. by eauto.
      * rewrite lookup_insert_eq. by eauto.
      * intros _. by rewrite lookup_insert_eq.
    + rewrite lookup_insert_ne by done.
      destruct (w_report w !! FILENAME_REPRODUCE) as [vr|] eqn:Hr.
      * repeat split; try done.
        -- intros f v Hf. rewrite lookup_insert_ne; [done | congruence].
        -- rewrite lookup_insert_eq. by eauto.
        -- rewrite lookup_insert_ne by done. by eauto.
        -- intros _. by rewrite lookup_insert_eq.
      * repeat split; try done.
        -- intros f v Hf. rewrite !lookup_insert_ne; [done | congruence..].
        -- rewrite lookup_insert_ne, lookup_insert_eq by done. by eauto.
        -- rewrite lookup_insert_eq. by eauto.
        -- intros _. by rewrite lookup_insert_ne, lookup_insert_eq.
        -- intros _ _. by rewrite lookup_insert_eq.
Qed.

(** ** CredentialPrompt *)

Lemma same_dispatch_refl (t : session) : same_dispatch t t.
Proof. done. Qed.

Lemma same_dispatch_trans (t1 t2 t3 : session) :
  same_dispatch t1 t2 → same_dispatch t2 t3 → same_dispatch t1 t3.
Proof. unfold same_dispatch. intros (?&?&?&?) (?&?&?&?). repeat split; congruence. Qed.

Lemma fgets_from_spec (n : nat) (input : string) :
  let '(line, rest) := fgets_from n input in
  line +:+ rest = input ∧ (String.length line ≤ n)%nat.
Proof.
  revert input. induction n as [|n IH]; intros input; [by destruct input|].
  destruct input as [|c input]; [cbn; split; [done | lia]|].
  cbn [fgets_from]. destruct (Ascii.eqb c LF).
  - cbn. split; [done | lia].
  - specialize (IH input). destruct (fgets_from n input) as [line rest].
    destruct IH as [<- Hlen]. cbn. split; [done | lia].
Qed.

Lemma cut_at_newline_spec (s : string) :
  no_newline (cut_at_newline s) = true
  ∧ (String.length (cut_at_newline s) ≤ String.length s)%nat.
Proof.
  induction s as [|c s [IH1 IH2]]; [done|]. cbn [cut_at_newline].
  destruct (Ascii.eqb c LF) eqn:E; cbn [no_newline String.length].
  - split; [done | lia].
  - rewrite E, IH1. split; [done | lia].
Qed.

Section PromptFacts.
Context {ct : crash_types} {sv : services}.
Variable tcsetattr_ok : bool.

Lemma fgets_inv (size : nat) (t t' : session) (line : option string) :
  fgets size t = Some (line, t') →
  same_dispatch t t' ∧ term_echo t' = term_echo t ∧ stdout t' = stdout t
  ∧ (String.length (default "" line) ≤ size - 1)%nat
  ∧ ∃ consumed, stdin t = consumed +:+ stdin t'.
Proof.
  unfold fgets. destruct (stdin t) as [|c input] eqn:Hin.
  - intros [= <- <-]. repeat split; try done. cbn; lia. exists "". by rewrite Hin.
  - pose proof (fgets_from_spec (size - 1) (String c input)) as Hspec.
    destruct (fgets_from (size - 1) (String c input)) as [l rest].
    destruct Hspec as [Happ Hlen]. intros [= <- <-]. repeat split; try done.
    exists l. cbn [stdin]. by rewrite Happ.
Qed.

(** What [read_from_stdin] returns fits the buffer and has no newline; it
    only prints the question and consumes input from the front. *)
Lemma read_from_stdin_inv (question : string) (size : nat) (t t' : session)
    (result : string) :
  read_from_stdin question size t = Some (result, t') →
  same_dispatch t t' ∧ term_echo t' = term_echo t
  ∧ stdout t' = (stdout t ++ [question])%list
  ∧ (String.length result ≤ size - 1)%nat
  ∧ no_newline result = true
  ∧ ∃ consumed, stdin t = consumed +:+ stdin t'.
Proof.
  unfold read_from_stdin. destruct (1 <? size)%nat; cbn [negb]; [|done].
  cbv [mbind proc_bind mret proc_ret printf].
  destruct (fgets size _) as [[line t1]|] eqn:Hf; [|done].
  apply fgets_inv in Hf as (Hd & He & Ho & Hlen & Hin).
  intros [= <- <-]. cbn in *.
  destruct (cut_at_newline_spec (default "" line)) as [Hnl Hcut].
  destruct Hd as (?&?&?&?). cbn in *.
  repeat split; try done. lia.
Qed.

Lemma set_echo_inv (enabled : bool) (t t' : session) (changed : bool) :
  set_echo tcsetattr_ok enabled t = Some (changed, t') →
  same_dispatch t t' ∧ stdin t' = stdin t ∧ stdout t' = stdout t
  ∧ (if changed
     then term_echo t = Some (negb enabled) ∧ term_echo t' = Some enabled
     else term_echo t' = term_echo t ∧ term_echo t ≠ Some (negb enabled)).
Proof.
  unfold set_echo. cbv [mbind proc_bind mret proc_ret get_session set_term_echo die].
  destruct (term_echo t) as [e|] eqn:He.
  - case_bool_decide as Hee.
    + intros [= <- <-]. rewrite He. repeat split; try done.
      subst e. by destruct enabled.
    + destruct tcsetattr_ok; [|done]. intros [= <- <-]. cbn.
      repeat split; try done. by destruct e, enabled.
  - intros [= <- <-]. by rewrite He.
Qed.

(** The prompts by cases of what is missing. *)
Lemma ask_for_missing_settings_inv (plugin_name : string)
    (settings settings' : gmap string string) (t t' : session) :
  ask_for_missing_settings tcsetattr_ok plugin_name settings t
  = Some (settings', t') →
  same_dispatch t t' ∧ term_echo t' = term_echo t
  ∧ ∃ login password,
      (String.length login ≤ 63)%nat ∧ no_newline login = true
      ∧ (String.length password ≤ 63)%nat ∧ no_newline password = true
      ∧ settings'
        = (if setting_missing settings "Password"
           then <["Password" := password]> else id)
            ((if setting_missing settings "Login"
              then <["Login" := login]> else id) settings)
      ∧ (setting_missing settings "Login" = false →
         setting_missing settings "Password" = false → t' = t).
Proof.
  unfold ask_for_missing_settings.
  destruct (setting_missing settings "Login") eqn:HL;
    destruct (setting_missing settings "Password") eqn:HP; cbn [negb andb].
  - (* both *)
    cbv [mbind proc_bind mret proc_ret printf puts].
    destruct (read_from_stdin _ 64 _) as [[login t1]|] eqn:H1; [|done].
    apply read_from_stdin_inv in H1 as (Hd1 & He1 & _ & Hl1 & Hn1 & _).
    destruct (set_echo _ false t1) as [[changed t2]|] eqn:H2; [|done].
    apply set_echo_inv in H2 as (Hd2 & _ & _ & Hc2).
    destruct (read_from_stdin _ 64 t2) as [[password t3]|] eqn:H3; [|done].
    apply read_from_stdin_inv in H3 as (Hd3 & He3 & _ & Hl3 & Hn3 & _).
    destruct changed.
    + destruct (set_echo _ true t3) as [[changed' t4]|] eqn:H4; [|done].
      apply set_echo_inv in H4 as (Hd4 & _ & _ & Hc4).
      intros [= <- <-]. split; [|split].
      * unfold same_dispatch in *. cbn in *. intuition congruence.
      * cbn in *. destruct Hc2 as [Hb Ha].
        destruct changed'; destruct Hc4 as [Hc4 Hc4']; congruence.
      * exists login, password. repeat split; try done; try lia.
    + intros [= <- <-]. split; [|split].
      * unfold same_dispatch in *. cbn in *. intuition congruence.
      * cbn in *. destruct Hc2. congruence.
      * exists login, password. repeat split; try done; try lia.
  - (* login only *)
    cbv [mbind proc_bind mret proc_ret printf].
    destruct (read_from_stdin _ 64 _) as [[login t1]|] eqn:H1; [|done].
    apply read_from_stdin_inv in H1 as (Hd1 & He1 & _ & Hl1 & Hn1 & _).
    intros [= <- <-]. split; [|split].
    + unfold same_dispatch in *. cbn in *. intuition congruence.
    + cbn in *. congruence.
    + exists login, "". repeat split; try done; try lia. cbn; lia.
  - (* password only *)
    cbv [mbind proc_bind mret proc_ret printf puts].
    destruct (set_echo _ false _) as [[changed t2]|] eqn:H2; [|done].
    apply set_echo_inv in H2 as (Hd2 & _ & _ & Hc2).
    destruct (read_from_stdin _ 64 t2) as [[password t3]|] eqn:H3; [|done].
    apply read_from_stdin_inv in H3 as (Hd3 & He3 & _ & Hl3 & Hn3 & _).
    destruct changed.
    + destruct (set_echo _ true t3) as [[changed' t4]|] eqn:H4; [|done].
      apply set_echo_inv in H4 as (Hd4 & _ & _ & Hc4).
      intros [= <- <-]. split; [|split].
      * unfold same_dispatch in *. cbn in *. intuition congruence.
      * cbn in *. destruct Hc2 as [Hb Ha].
        destruct changed'; destruct Hc4 as [Hc4 Hc4']; congruence.
      * exists "", password. repeat split; try done; try lia. cbn; lia.
    + intros [= <- <-]. split; [|split].
      * unfold same_dispatch in *. cbn in *. intuition congruence.
      * cbn in *. destruct Hc2. congruence.
      * exists "", password. repeat split; try done; try lia. cbn; lia.
  - intros [= <- <-]. split; [done|]. split; [done|].
    exists "", "". repeat split; try done; cbn; lia.
Qed.

End PromptFacts.

Lemma setting_missing_true (settings : gmap string string) (key : string) :
  setting_missing settings key = true ↔ settings !! key = Some "".
Proof.
  unfold setting_missing. destruct (settings !! key) as [v|]; [|done].
  case_bool_decide; split; congruence.
Qed.

(** X11.  [ask_for_missing_settings] changes no setting other than a Login
    or a Password that is present with an empty value: no key is added or
    removed, every value that is not empty is kept, and a value it stores
    was typed by the user, has at most 63 characters and no newline. *)
Theorem ask_for_missing_settings_fills_empty_only {ct : crash_types}
    {sv : services} (tcsetattr_ok : bool) (plugin_name : string)
    (settings settings' : gmap string string) (t t' : session) :
  ask_for_missing_settings tcsetattr_ok plugin_name settings t
  = Some (settings', t') →
  dom settings' = dom settings
  ∧ (∀ key v, settings !! key = Some v → v ≠ "" → settings' !! key = Some v)
  ∧ (∀ key v, settings' !! key = Some v → settings !! key ≠ Some v →
       (key = "Login" ∨ key = "Password")
       ∧ settings !! key = Some ""
       ∧ (String.length v ≤ 63)%nat ∧ no_newline v = true).
Proof.
  intros Hrun.
  apply ask_for_missing_settings_inv in Hrun
    as (_ & _ & login & password & Hl & Hln & Hp & Hpn & -> & _).
  destruct (setting_missing settings "Login") eqn:HL;
    destruct (setting_missing settings "Password") eqn:HP; cbn [id];
    rewrite ?setting_missing_true in *.
  - split; [|split].
    + rewrite !dom_insert_lookup_L; [done | by eexists |].
      rewrite lookup_insert_ne by done. by eexists.
    + intros key v Hv Hne.
      destruct (decide (key = "Password")) as [->|?]; [congruence|].
      destruct (decide (key = "Login")) as [->|?]; [congruence|].
      by rewrite !lookup_insert_ne.
    + intros key v Hv Hne.
      destruct (decide (key = "Password")) as [->|?].
      { rewrite lookup_insert_eq in Hv. injection Hv as <-. auto. }
      rewrite lookup_insert_ne in Hv by done.
      destruct (decide (key = "Login")) as [->|?].
      { rewrite lookup_insert_eq in Hv. injection Hv as <-. auto. }
      rewrite lookup_insert_ne in Hv by done. done.
  - split; [|split].
    + by rewrite dom_insert_lookup_L by by eexists.
    + intros key v Hv Hne.
      destruct (decide (key = "Login")) as [->|?]; [congruence|].
      by rewrite lookup_insert_ne.
    + intros key v Hv Hne.
      destruct (decide (key = "Login")) as [->|?].
      { rewrite lookup_insert_eq in Hv. injection Hv as <-. auto. }
      rewrite lookup_insert_ne in Hv by done. done.
  - split; [|split].
    + by rewrite dom_insert_lookup_L by by eexists.
    + intros key v Hv Hne.
      destruct (decide (key = "Password")) as [->|?]; [congruence|].
      by rewrite lookup_insert_ne.
    + intros key v Hv Hne.
      destruct (decide (key = "Password")) as [->|?].
      { rewrite lookup_insert_eq in Hv. injection Hv as <-. auto. }
      rewrite lookup_insert_ne in Hv by done. done.
  - split; [done|]. split; [done|]. intros key v Hv Hne. done.
Qed.

Lemma ask_for_missing_settings_fills_empty_only_witness :
  let settings : gmap string string :=
    <["Login" := ""]> (<["Password" := "secret"]> ∅) in
  let settings' : gmap string string := <["Login" := "alice"]> settings in
  dom settings' = dom settings
  ∧ (∀ key v, settings !! key = Some v → v ≠ "" → settings' !! key = Some v)
  ∧ (∀ key v, settings' !! key = Some v → settings !! key ≠ Some v →
       (key = "Login" ∨ key = "Password")
       ∧ settings !! key = Some ""
       ∧ (String.length v ≤ 63)%nat ∧ no_newline v = true).
Proof.
  apply (ask_for_missing_settings_fills_empty_only
           (ct:=sample_crash_types) (sv:=sample_services)
           true "report_bugzilla" _ _
           (Session ("alice" +:+ nl) [] None ∅ [] 0 0)
           (Session "" ["Wrong settings were detected for plugin report_bugzilla"
                        +:+ nl; "Enter your login: "] None ∅ [] 0 0)).
  vm_compute. reflexivity.
Defined.

(** X12.  When [ask_for_missing_settings] returns, the ECHO flag of the
    terminal is what it was before, also after a password was read with the
    echo switched off, and the settings table, the counters and the list of
    reports sent are untouched; when neither the Login nor the Password is
    present and empty, nothing is printed or read at all. *)
Theorem ask_for_missing_settings_restores_echo {ct : crash_types}
    {sv : services} (tcsetattr_ok : bool) (plugin_name : string)
    (settings settings' : gmap string string) (t t' : session) :
  ask_for_missing_settings tcsetattr_ok plugin_name settings t
  = Some (settings', t') →
  term_echo t' = term_echo t
  ∧ same_dispatch t t'
  ∧ (settings !! "Login" ≠ Some "" → settings !! "Password" ≠ Some "" →
     settings' = settings ∧ t' = t).
Proof.
  intros Hrun.
  apply ask_for_missing_settings_inv in Hrun
    as (Hd & He & login & password & _ & _ & _ & _ & Hs & Hnop).
  split; [done|]. split; [done|]. intros HL HP.
  assert (setting_missing settings "Login" = false) as HL'.
  { apply not_true_is_false. by rewrite setting_missing_true. }
  assert (setting_missing settings "Password" = false) as HP'.
  { apply not_true_is_false. by rewrite setting_missing_true. }
  rewrite HL', HP' in Hs. split; [done | by apply Hnop].
Qed.

Lemma ask_for_missing_settings_restores_echo_witness :
  let settings : gmap string string :=
    <["Login" := "alice"]> (<["Password" := ""]> ∅) in
  let t := Session ("secret" +:+ nl) [] (Some true) ∅ [] 0 0 in
  let t' := Session "" ["Wrong settings were detected for plugin report_bugzilla"
                        +:+ nl; "Enter your password: "; nl]
                    (Some true) ∅ [] 0 0 in
  term_echo t' = term_echo t
  ∧ same_dispatch t t'
  ∧ (settings !! "Login" ≠ Some "" → settings !! "Password" ≠ Some "" →
     <["Password" := "secret"]> settings = settings ∧ t' = t).
Proof.
  apply (ask_for_missing_settings_restores_echo
           (ct:=sample_crash_types) (sv:=sample_services)
           true "report_bugzilla").
  vm_compute. reflexivity.
Defined.

(** ** ReportOrchestrator *)

Section DispatchFacts.
Context {ct : crash_types} {sv : services}.
Variable answer_uninitialized : string.
Variable tcsetattr_ok : bool.

Lemma tally_status_spec (st : string * list string) (t : session) :
  tally_status st t
  = Some ((), Session (stdin t)
                (stdout t ++ [st.1 +:+ ": "
                              +:+ status_field st.2 REPORT_STATUS_IDX_MSG +:+ nl])
                (term_echo t) (reporters_settings t) (reported t)
                (plugins t + 1)
                (if bool_decide (status_field st.2 REPORT_STATUS_IDX_FLAG = "0")
                 then errors t + 1 else errors t)).
Proof. by destruct st. Qed.

Lemma failed_statuses_cons (st : string * list string)
    (r : list (string * list string)) :
  failed_statuses (st :: r)
  = ((if bool_decide (status_field st.2 REPORT_STATUS_IDX_FLAG = "0")
      then 1 else 0) + failed_statuses r)%nat.
Proof.
  unfold failed_statuses. rewrite filter_cons.
  case_bool_decide; [rewrite decide_True by done | rewrite decide_False by done];
    reflexivity.
Qed.

Lemma tally_all_spec (r : list (string * list string)) (t : session) :
  ∃ t', tally_all r t = Some ((), t')
        ∧ stdin t' = stdin t ∧ term_echo t' = term_echo t
        ∧ reporters_settings t' = reporters_settings t
        ∧ reported t' = reported t
        ∧ plugins t' = plugins t + Z.of_nat (List.length r)
        ∧ errors t' = errors t + Z.of_nat (failed_statuses r).
Proof.
  revert t. induction r as [|st r IH]; intros t.
  { exists t. unfold failed_statuses. cbn. repeat split; lia. }
  cbn [tally_all]. cbv [mbind proc_bind]. rewrite tally_status_spec.
  destruct (IH (Session (stdin t)
                (stdout t ++ [st.1 +:+ ": "
                              +:+ status_field st.2 REPORT_STATUS_IDX_MSG +:+ nl])
                (term_echo t) (reporters_settings t) (reported t)
                (plugins t + 1)
                (if bool_decide (status_field st.2 REPORT_STATUS_IDX_FLAG = "0")
                 then errors t + 1 else errors t)))
    as (t' & -> & ? & ? & ? & ? & Hp & He).
  exists t'. rewrite failed_statuses_cons. cbn in *. repeat split; try done.
  - rewrite Hp. lia.
  - rewrite He. case_bool_decide; lia.
Qed.

Lemma report_finish_spec (t : session) :
  report_finish t
  = Some (if bool_decide (errors t ≠ 0) then 1 else 0,
          Session (stdin t)
            (stdout t ++ ["Crash reported via " +:+ pretty (plugins t)
                          +:+ " report events (" +:+ pretty (errors t)
                          +:+ " errors)" +:+ nl])
            (term_echo t) (reporters_settings t) (reported t)
            (plugins t) (errors t)).
Proof. reflexivity. Qed.

(** One turn of the interactive loop: at most one reporter is counted, an
    error is counted only with it, and at most the reporter itself is handed
    to [call_Report]. *)
Lemma report_one_inv (crash_data : gmap string crash_item) (rating : Z)
    (it : string) (t t' : session) :
  report_one answer_uninitialized tcsetattr_ok crash_data rating it t
  = Some ((), t') →
  term_echo t' = term_echo t
  ∧ ∃ (dp de : Z) (sent : list (list string)),
      plugins t' = plugins t + dp ∧ errors t' = errors t + de
      ∧ 0 ≤ de ≤ dp ∧ dp ≤ 1
      ∧ reported t' = (reported t ++ sent)%list
      ∧ (sent = [] ∨ sent = [[it]])
      ∧ (Z.of_nat (List.length sent) ≤ dp).
Proof.
  unfold report_one. cbv [mbind proc_bind].
  destruct (ask_yesno _ _ t) as [[yes t1]|] eqn:Hask; [|done].
  apply ask_yesno_frame in Hask as (He1 & Hs1 & Hr1 & Hp1 & Hz1).
  destruct yes; cbn [negb].
  2:{ intros [= <-]. cbn. split; [done|]. exists 0, 0, [].
      rewrite app_nil_r. cbn. repeat split; try done; try lia. by left. }
  cbv [get_session].
  destruct (reporters_settings t1 !! it) as [settings|].
  2:{ intros [= <-]. cbn. split; [done|]. exists 1, 1, [].
      rewrite app_nil_r. cbn. repeat split; try done; try lia. by left. }
  destruct (match settings !! "RatingRequired" with
            | Some rating_setting => string_to_bool rating_setting && (rating <? 3)
            | None => false
            end).
  { cbv [puts printf count_plugin mret proc_ret].
    destruct (get_crash_item_content_or_NULL crash_data FILENAME_PACKAGE)
      as [[|c package]|]; intros [= <-]; cbn; (split; [done|]);
      exists 1, 1, []; rewrite app_nil_r; cbn;
      repeat split; try done; try lia; by left. }
  destruct (ask_for_missing_settings _ it settings t1)
    as [[settings' t2]|] eqn:Hmiss; [|done].
  apply ask_for_missing_settings_inv in Hmiss as ((Hs2 & Hr2 & Hp2 & Hz2) & He2 & _).
  cbv [set_settings log_report].
  cbn [stdin stdout term_echo reporters_settings reported plugins errors].
  destruct (call_Report crash_data [it] _) as [|st [|? ?]]; [done| |done].
  rewrite tally_status_spec. intros [= <-]. cbn. split; [congruence|].
  exists 1, (if bool_decide (status_field st.2 REPORT_STATUS_IDX_FLAG = "0")
             then 1 else 0), [[it]].
  cbn. repeat split; try congruence; try lia.
  - case_bool_decide; lia.
  - case_bool_decide; lia.
  - case_bool_decide; lia.
  - by right.
Qed.

End DispatchFacts.

(** X13.  A reporter the user does not confirm is skipped.  The body of
    the interactive loop returns, and the session it returns is the one
    before the question with only this added: the input of the answer is
    consumed, and the question and "Skipping..." are printed.  The settings,
    the list of what was handed to [call_Report] and both counters are as
    before.  The loop over this reporter alone returns that session, and the
    loop over more reporters goes on from it with those that follow. *)
Theorem declined_reporter_is_skipped {ct : crash_types} {sv : services}
    (answer_uninitialized : string) (tcsetattr_ok : bool)
    (crash_data : gmap string crash_item) (rating : Z) (it : string)
    (rest : list string) (t t1 : session) :
  let question := strndup ("Report using " +:+ it +:+ "?") 254 in
  ask_yesno answer_uninitialized question t = Some (false, t1) →
  let skipped :=
    Session (stdin t1)
      (stdout t ++ [question +:+ " [y/N]: "; "Skipping..." +:+ nl])
      (term_echo t) (reporters_settings t) (reported t)
      (plugins t) (errors t) in
  report_one answer_uninitialized tcsetattr_ok crash_data rating it t
  = Some ((), skipped)
  ∧ report_interactive answer_uninitialized tcsetattr_ok
      crash_data rating [it] t
    = Some ((), skipped)
  ∧ report_interactive answer_uninitialized tcsetattr_ok
      crash_data rating (it :: rest) t
    = report_interactive answer_uninitialized tcsetattr_ok
        crash_data rating rest skipped.
Proof.
  intros question Hno skipped.
  destruct (ask_yesno_frame _ _ _ _ _ Hno) as (Hecho & Hs & Hr & Hp & He).
  pose proof (ask_yesno_stdout _ _ _ _ _ Hno) as Hout.
  assert (Hone : report_one answer_uninitialized tcsetattr_ok
                   crash_data rating it t = Some ((), skipped)).
  { unfold report_one. fold question. cbv [mbind proc_bind].
    rewrite Hno. cbn [negb]. cbv [puts printf]. subst skipped.
    rewrite Hecho, Hs, Hr, Hp, He, Hout. by rewrite <- app_assoc. }
  split; [exact Hone|].
  split; cbn [report_interactive]; cbv [mbind proc_bind]; by rewrite Hone.
Qed.

Lemma declined_reporter_is_skipped_witness :
  let t := Session ("n" +:+ nl) [] None
                   (reporters_settings sample_session) [] 0 0 in
  let skipped :=
    Session "" ["Report using report_rhtsupport? [y/N]: ";
                "Skipping..." +:+ nl]
            None (reporters_settings sample_session) [] 0 0 in
  report_one (ct:=sample_crash_types) (sv:=sample_services) "" true
    low_rating_report 2 "report_rhtsupport" t
  = Some ((), skipped)
  ∧ report_interactive (ct:=sample_crash_types) (sv:=sample_services) "" true
      low_rating_report 2 ["report_rhtsupport"] t
    = Some ((), skipped)
  ∧ report_interactive (ct:=sample_crash_types) (sv:=sample_services) "" true
      low_rating_report 2 ["report_rhtsupport"; "report_bugzilla"] t
    = report_interactive (ct:=sample_crash_types) (sv:=sample_services) "" true
        low_rating_report 2 ["report_bugzilla"] skipped.
Proof.
  apply (declined_reporter_is_skipped (ct:=sample_crash_types)
           (sv:=sample_services) "" true low_rating_report 2
           "report_rhtsupport" ["report_bugzilla"]
           (Session ("n" +:+ nl) [] None
                    (reporters_settings sample_session) [] 0 0)
           (Session "" ["Report using report_rhtsupport? [y/N]: "] None
                    (reporters_settings sample_session) [] 0 0)).
  reflexivity.
Defined.

(** X14.  When the interactive loop returns, it has counted at most one
    plugin per reporter and at most one error per counted plugin, every list
    handed to [call_Report] holds exactly one of the reporters, there are no
    more such calls than counted plugins, and the ECHO flag of the terminal
    is what it was. *)
Theorem report_interactive_counts {ct : crash_types} {sv : services}
    (answer_uninitialized : string) (tcsetattr_ok : bool)
    (crash_data : gmap string crash_item) (rating : Z)
    (reporters : list string) (t t' : session) :
  report_interactive answer_uninitialized tcsetattr_ok
    crash_data rating reporters t = Some ((), t') →
  term_echo t' = term_echo t
  ∧ ∃ sent : list (list string),
      reported t' = (reported t ++ sent)%list
      ∧ Forall (λ names, ∃ it, it ∈ reporters ∧ names = [it]) sent
      ∧ 0 ≤ errors t' - errors t
      ∧ errors t' - errors t ≤ plugins t' - plugins t
      ∧ plugins t' - plugins t ≤ Z.of_nat (List.length reporters)
      ∧ Z.of_nat (List.length sent) ≤ plugins t' - plugins t.
Proof.
  revert t. induction reporters as [|it reporters IH]; intros t.
  { intros [= <-]. split; [done|]. exists []. rewrite app_nil_r. cbn.
    repeat split; try done; lia. }
  cbn [report_interactive]. cbv [mbind proc_bind].
  destruct (report_one _ _ crash_data rating it t) as [[[] t1]|] eqn:Hone; [|done].
  apply report_one_inv in Hone
    as (He1 & dp & de & sent1 & Hp1 & Hz1 & Hde & Hdp & Hr1 & Hsent1 & Hlen1).
  intros Hrest. apply IH in Hrest
    as (He2 & sent2 & Hr2 & Hall2 & Hz2 & Hle2 & Hp2 & Hlen2).
  split; [congruence|]. exists (sent1 ++ sent2)%list.
  rewrite Hr2, Hr1, <- app_assoc. split; [done|]. split.
  - apply Forall_app. split.
    + destruct Hsent1 as [->| ->]; [constructor|].
      constructor; [|constructor]. exists it. split; [by left | done].
    + eapply Forall_impl; [exact Hall2|]. intros names (it' & Hin & ->).
      exists it'. split; [by right | done].
  - rewrite length_app. cbn [List.length]. repeat split; lia.
Qed.

Lemma report_interactive_counts_witness :
  let t := sample_session in
  let t' := Session "" ["Report using report_rhtsupport? [y/N]: ";
                        "Reporting disabled because the backtrace is unusable"
                        +:+ nl;
                        msg_debuginfo "foo-1.0"]
                    None (reporters_settings sample_session) [] 1 1 in
  term_echo t' = term_echo t
  ∧ ∃ sent : list (list string),
      reported t' = (reported t ++ sent)%list
      ∧ Forall (λ names, ∃ it, it ∈ ["report_rhtsupport"] ∧ names = [it]) sent
      ∧ 0 ≤ errors t' - errors t
      ∧ errors t' - errors t ≤ plugins t' - plugins t
      ∧ plugins t' - plugins t ≤ Z.of_nat (List.length ["report_rhtsupport"])
      ∧ Z.of_nat (List.length sent) ≤ plugins t' - plugins t.
Proof.
  apply (report_interactive_counts (ct:=sample_crash_types)
           (sv:=sample_services) "" true low_rating_report 2).
  reflexivity.
Defined.

Lemma failed_statuses_le {sv : services} (r : list (string * list string)) :
  (failed_statuses r ≤ List.length r)%nat.
Proof. unfold failed_statuses. apply length_filter. Qed.

(** X15.  Batch mode is one call of [call_Report] for all the reporters
    found in the report, with their resolved settings; it reads no input and
    leaves the terminal alone; every status returned is counted as a plugin,
    the statuses with flag "0" as errors, and the result is 1 exactly when
    there is such a status. *)
Theorem report_dispatch_batch {ct : crash_types} {sv : services}
    (answer_uninitialized : string) (tcsetattr_ok : bool)
    (crash_data : gmap string crash_item) (rating : Z) (t : session) :
  let reporters := report_reporters crash_data in
  let settings := get_reporter_plugin_settings reporters in
  let r := call_Report crash_data reporters settings in
  ∃ t', report_dispatch answer_uninitialized tcsetattr_ok true
          crash_data rating t
        = Some (if decide (failed_statuses r = 0%nat) then 0 else 1, t')
        ∧ stdin t' = stdin t ∧ term_echo t' = term_echo t
        ∧ reporters_settings t' = settings
        ∧ reported t' = (reported t ++ [reporters])%list
        ∧ plugins t' = Z.of_nat (List.length r)
        ∧ errors t' = Z.of_nat (failed_statuses r).
Proof.
  cbv zeta. unfold report_dispatch, report_batch.
  cbv [mbind proc_bind puts printf get_session log_report].
  cbn [stdin stdout term_echo reporters_settings reported plugins errors].
  match goal with |- context [tally_all ?r ?t0] =>
    destruct (tally_all_spec r t0) as (t1 & -> & Hin & He & Hs & Hr & Hp & Hz)
  end.
  rewrite report_finish_spec. cbn in Hin, He, Hs, Hr, Hp, Hz.
  eexists. split.
  - f_equal. f_equal. rewrite Hz.
    case_bool_decide as Hne; case_decide as Hd; try done; lia.
  - cbn. repeat split; try done; lia.
Qed.

(** X16.  Whatever the mode, when the dispatch returns, the errors counted
    are between 0 and the plugins counted, and the result is 1 when an error
    was counted and 0 otherwise. *)
Theorem report_dispatch_result {ct : crash_types} {sv : services}
    (answer_uninitialized : string) (tcsetattr_ok : bool) (batch : bool)
    (crash_data : gmap string crash_item) (rating : Z) (t t' : session)
    (rc : Z) :
  report_dispatch answer_uninitialized tcsetattr_ok batch crash_data rating t
  = Some (rc, t') →
  0 ≤ errors t' ≤ plugins t'
  ∧ plugins t' ≤ (if batch
                  then Z.of_nat (List.length
                         (call_Report crash_data (report_reporters crash_data)
                            (get_reporter_plugin_settings
                               (report_reporters crash_data))))
                  else Z.of_nat (List.length (report_reporters crash_data)))
  ∧ rc = (if decide (errors t' = 0) then 0 else 1).
Proof.
  destruct batch.
  - destruct (report_dispatch_batch answer_uninitialized tcsetattr_ok
                crash_data rating t) as (t1 & Hrun & _ & _ & _ & _ & Hp & Hz).
    rewrite Hrun. intros [= <- <-].
    pose proof (failed_statuses_le
      (call_Report crash_data (report_reporters crash_data)
         (get_reporter_plugin_settings (report_reporters crash_data)))).
    split; [lia|]. split; [lia|].
    repeat case_decide; try done; lia.
  - unfold report_dispatch. cbv [mbind proc_bind].
    destruct (report_interactive _ _ _ _ _ _) as [[[] t1]|] eqn:Hloop; [|done].
    apply report_interactive_counts in Hloop
      as (_ & sent & _ & _ & Hz & Hle & Hp & _).
    cbn [plugins errors] in Hz, Hle, Hp.
    rewrite report_finish_spec. intros [= <- <-]. cbn [plugins errors].
    split; [lia|]. split; [lia|].
    case_bool_decide; case_decide; try done; lia.
Qed.

Lemma report_dispatch_result_witness :
  let t' := Session "" ["Report using report_rhtsupport? [y/N]: ";
                        "Reporting disabled because the backtrace is unusable"
                        +:+ nl;
                        msg_debuginfo "foo-1.0";
                        "Crash reported via 1 report events (1 errors)" +:+ nl]
                    None
                    (<["report_rhtsupport" := <["RatingRequired" := "yes"]> ∅]> ∅)
                    [] 1 1 in
  0 ≤ errors t' ≤ plugins t'
  ∧ plugins t' ≤ Z.of_nat (List.length
                   (report_reporters (ct:=sample_crash_types) low_rating_report))
  ∧ 1 = (if decide (errors t' = 0) then 0 else 1).
Proof.
  apply (report_dispatch_result (ct:=sample_crash_types) (sv:=sample_services)
           "" true false low_rating_report 2
           (Session ("y" +:+ nl) [] None ∅ [] 0 0)).
  vm_compute. reflexivity.
Defined.

(** X17.  The settings table has exactly one entry for each requested
    reporter and none for any other name. *)
Theorem get_reporter_plugin_settings_dom {sv : services}
    (reporters : list string) :
  dom (get_reporter_plugin_settings reporters) = list_to_set reporters.
Proof.
  unfold get_reporter_plugin_settings.
  assert (Hdom : ∀ name,
            name ∈ dom (foldl (λ settings it,
                          <[it := call_GetPluginSettings it]> settings)
                        (∅ : gmap string (gmap string string)) reporters)
            ↔ name ∈ reporters).
  { intros name. rewrite elem_of_dom, defaults_lookup.
    case_decide; [by split; eauto|].
    rewrite lookup_empty. split; [by intros [? ?] | done]. }
  destruct pw_dir as [homedir|].
  - apply dom_imap_L. intros name. rewrite elem_of_list_to_set, <- Hdom.
    rewrite elem_of_dom. split.
    + intros [value Hv]. exists value. split; [done|].
      destruct (load_conf_file _ ∅) as [[] ?]; by eexists.
    + intros (value & Hv & _). by eexists.
  - apply set_eq. intros name. by rewrite elem_of_list_to_set, Hdom.
Qed.

(** ** The review step and [report] *)

Section ReviewFacts.
Context {ct : crash_types} {ee : editor_env}.

Lemma write_crash_report_report (w : world) :
  w_report (write_crash_report w).2 = w_report w.
Proof.
  rewrite write_crash_report_unfold. cbv [mbind state_bind fputs modify].
  by rewrite write_fields_spec.
Qed.

Lemma read_crash_report_keeps (text : string) (w : world) (field : string) :
  flags <$> w_report (read_crash_report text w).2 !! field
  = flags <$> w_report w !! field
  ∧ ∀ value, w_report w !! field = Some value →
      Z.land (flags value) CD_FLAG_SYS ≠ 0
      ∨ Z.land (flags value) CD_FLAG_ISEDITABLE = 0 →
      w_report (read_crash_report text w).2 !! field = Some value.
Proof.
  rewrite read_crash_report_unfold. split.
  - destruct (read_fields_lookup text (well_known_fields.*1) 0 w field)
      as [->|(_ & value & raw & Hv & _ & _ & _ & ->)]; [done | by rewrite Hv].
  - intros value Hv Hfrozen. apply read_fields_frozen; [done|].
    destruct Hfrozen; [by left | right; by left].
Qed.

Lemma launch_editor_inv (path : string) (e : editor_state) :
  let '(rc, e') := launch_editor path e in
  ed_report e' = ed_report e ∧ ed_stdout e' = ed_stdout e
  ∧ ((rc = 1 ∧ editor_from_env = None ∧ ed_disk e' = ed_disk e
      ∧ (getenv_TERM = None ∨ getenv_TERM = Some "dumb"))
     ∨ (rc = 0 ∧ ed_log e' = ed_log e
        ∧ ed_disk e'
          = run_command [default "vi" editor_from_env; path] (ed_disk e))).
Proof.
  unfold launch_editor.
  destruct (bool_decide (editor_from_env = None) && _) eqn:Hno.
  - apply andb_prop in Hno as [Hed Hterm]. apply bool_decide_eq_true in Hed.
    cbn. repeat split; try done. left. repeat split; try done.
    destruct getenv_TERM as [term|]; [|by left].
    apply bool_decide_eq_true in Hterm. right. by subst.
  - cbn. repeat split; try done. by right.
Qed.

End ReviewFacts.

(** The review step by cases of the calls that can fail. *)
Lemma run_report_editor_inv {ct : crash_types} {ee : editor_env}
    (e : editor_state) :
  let '(rc, e') := run_report_editor e in
  (rc = 0 ∨ rc = 2 ∨ rc = 3)
  ∧ (rc ≠ 0 → ed_report e' = ed_report e ∧ ed_stdout e' = ed_stdout e)
  ∧ (rc = 3 →
     editor_from_env = None
     ∧ (getenv_TERM = None ∨ getenv_TERM = Some "dumb"))
  ∧ (∀ field,
       flags <$> ed_report e' !! field = flags <$> ed_report e !! field)
  ∧ (∀ field value,
       ed_report e !! field = Some value →
       Z.land (flags value) CD_FLAG_SYS ≠ 0
       ∨ Z.land (flags value) CD_FLAG_ISEDITABLE = 0 →
       ed_report e' !! field = Some value)
  ∧ (rc = 0 →
     ∀ filename, mkstemp "/tmp/abrt-report.XXXXXX" = Some filename →
       unlink_ok filename = true → ed_disk e' !! filename = None).
Proof.
  unfold run_report_editor.
  destruct (mkstemp "/tmp/abrt-report.XXXXXX") as [filename|];
    [|cbn; repeat split; auto; done].
  cbv [mbind state_bind mret state_ret ed_set_disk ed_error modify].
  destruct fdopen_w; cbn [negb]; [|cbn; repeat split; auto; done].
  unfold ed_document at 1. cbn [ed_report ed_log ed_stdout ed_disk].
  pose proof (write_crash_report_report (World (ed_report e) "" (ed_log e)))
    as Hwrite.
  destruct (write_crash_report (World (ed_report e) "" (ed_log e)))
    as [[] w1]. cbn [snd w_report] in Hwrite.
  cbn [ed_report ed_log ed_stdout ed_disk].
  destruct fclose_w; cbn [negb];
    [|cbn; rewrite Hwrite; repeat split; auto; done].
  match goal with |- context [launch_editor filename ?e0] =>
    pose proof (launch_editor_inv filename e0) as Hlaunch;
    destruct (launch_editor filename e0) as [launched e2]
  end.
  cbn [ed_report ed_log ed_stdout ed_disk] in Hlaunch.
  destruct Hlaunch as (Hr2 & Ho2 & [(-> & Hnone & _ & Hterm)|(-> & _ & Hdisk2)]).
  { rewrite bool_decide_eq_true_2 by done. rewrite Hr2, Ho2, Hwrite.
    repeat split; auto; done. }
  rewrite bool_decide_eq_false_2 by (intros Hne; by apply Hne).
  destruct (ed_disk e2 !! filename) as [text|];
    [|cbn; rewrite Hr2, Ho2, Hwrite; repeat split; auto; done].
  destruct (fopen_r filename); cbn [negb];
    [|cbn; rewrite Hr2, Ho2, Hwrite; repeat split; auto; done].
  destruct fread_ok; cbn [negb];
    [|cbn; rewrite Hr2, Ho2, Hwrite; repeat split; auto; done].
  destruct fclose_r; cbn [negb];
    [|cbn; rewrite Hr2, Ho2, Hwrite; repeat split; auto; done].
  (* the file is read back and applied to the report *)
  assert (Hread : ∀ (log : list string),
    let w' := (read_crash_report (remove_comments_and_unescape text)
                 (World (ed_report e) "" log)).2 in
    (∀ field, flags <$> w_report w' !! field = flags <$> ed_report e !! field)
    ∧ (∀ field value, ed_report e !! field = Some value →
         Z.land (flags value) CD_FLAG_SYS ≠ 0
         ∨ Z.land (flags value) CD_FLAG_ISEDITABLE = 0 →
         w_report w' !! field = Some value)).
  { intros log. cbv zeta. split.
    - intros field.
      apply (read_crash_report_keeps _ (World (ed_report e) "" log) field).
    - intros field.
      apply (read_crash_report_keeps _ (World (ed_report e) "" log) field). }
  destruct (unlink_ok filename) eqn:Hunlink.
  - unfold ed_document. cbn [ed_report ed_log ed_stdout ed_disk].
    rewrite Hr2, Hwrite.
    specialize (Hread (ed_log e2)). cbv zeta in Hread.
    destruct (read_crash_report _ _) as [changed w']. cbn [snd] in Hread.
    destruct Hread as [Hflags Hkeep].
    case_bool_decide; cbv [ed_puts modify]; cbn;
      repeat split; auto; try done;
      intros _ name [= <-] _; apply lookup_delete_eq.
  - unfold ed_document. cbn [ed_report ed_log ed_stdout ed_disk].
    rewrite Hr2, Hwrite.
    specialize (Hread (ed_log e2 ++ ["can't unlink " +:+ filename])%list).
    cbv zeta in Hread.
    destruct (read_crash_report _ _) as [changed w']. cbn [snd] in Hread.
    destruct Hread as [Hflags Hkeep].
    case_bool_decide; cbv [ed_puts modify]; cbn;
      repeat split; auto; try done;
      intros _ name [= <-] Hok; congruence.
Qed.


Section ReportFacts.
Context {ct : crash_types} {sv : services} {ee : editor_env}.
Variable answer_uninitialized : string.
Variable tcsetattr_ok : bool.

Lemma report_dispatch_code (batch : bool) (crash_data : gmap string crash_item)
    (rating : Z) (t t' : session) (rc : Z) :
  report_dispatch answer_uninitialized tcsetattr_ok batch crash_data rating t
  = Some (rc, t') → rc = 0 ∨ rc = 1.
Proof.
  unfold report_dispatch. cbv [mbind proc_bind].
  destruct (if batch then _ else _) as [[[] t1]|]; [|done].
  rewrite report_finish_spec. intros [= <- _]. case_bool_decide; auto.
Qed.

Lemma report_dispatch_batch_frame (crash_data : gmap string crash_item)
    (rating : Z) (t t' : session) (rc : Z) :
  report_dispatch answer_uninitialized tcsetattr_ok true crash_data rating t
  = Some (rc, t') → stdin t' = stdin t ∧ term_echo t' = term_echo t.
Proof.
  unfold report_dispatch, report_batch.
  cbv [mbind proc_bind puts printf get_session log_report].
  cbn [stdin stdout term_echo reporters_settings reported plugins errors].
  match goal with |- context [tally_all ?r ?t0] =>
    destruct (tally_all_spec r t0) as (t1 & -> & Hin & He & _)
  end.
  rewrite report_finish_spec. intros [= _ <-]. cbn in *. done.
Qed.

Lemma report_review_inv (crash_data : gmap string crash_item) (a : app) :
  let '(result, crash_data', a') := report_review crash_data a in
  (result = 0 ∨ result = 2 ∨ result = 3)
  ∧ logmode a' = logmode a
  ∧ same_dispatch (app_session a) (app_session a')
  ∧ stdin (app_session a') = stdin (app_session a)
  ∧ term_echo (app_session a') = term_echo (app_session a)
  ∧ (result ≠ 0 → app_session a' = app_session a).
Proof.
  unfold report_review.
  destruct (create_fields_for_editor _) as [[] w].
  match goal with |- context [run_report_editor ?e0] =>
    pose proof (run_report_editor_inv e0) as Hinv;
    destruct (run_report_editor e0) as [result e]
  end.
  destruct Hinv as (Hcode & Hfail & _). cbn in *.
  repeat split; try done.
  intros Hne. destruct (Hfail Hne) as [_ ->]. by destruct (app_session a).
Qed.

End ReportFacts.

(** X19.  When [report] returns, the result is -1, 0, 1, 2 or 3 and the
    global [logmode] is what it was.  The result is -1 exactly when the
    daemon has no report for the identifier or an empty one, and then
    nothing else has happened.  With a result of 2 or 3 (the review step
    failed) nothing was sent and nothing was asked.  In batch mode the
    result is not 2 or 3, no input is read and no file or log is touched. *)
Theorem report_result {ct : crash_types} {sv : services} {ee : editor_env}
    (answer_uninitialized : string) (tcsetattr_ok : bool)
    (crash_id : string) (flags : Z) (a a' : app) (rc : Z) :
  report answer_uninitialized tcsetattr_ok crash_id flags a = Some (rc, a') →
  let mode := if bool_decide (Z.land flags CLI_REPORT_SILENT_IF_NOT_FOUND ≠ 0)
              then 0 else logmode a in
  let found := match call_CreateReport mode crash_id with
               | Some crash_data => size crash_data ≠ 0%nat
               | None => False
               end in
  (rc = -1 ∨ rc = 0 ∨ rc = 1 ∨ rc = 2 ∨ rc = 3)
  ∧ logmode a' = logmode a
  ∧ (rc = -1 ↔ ¬ found)
  ∧ (rc = -1 → a' = a)
  ∧ (rc = 2 ∨ rc = 3 → app_session a' = app_session a)
  ∧ (Z.land flags CLI_REPORT_BATCH ≠ 0 →
     rc ≠ 2 ∧ rc ≠ 3
     ∧ stdin (app_session a') = stdin (app_session a)
     ∧ term_echo (app_session a') = term_echo (app_session a)
     ∧ app_disk a' = app_disk a ∧ app_log a' = app_log a).
Proof.
  unfold report. cbv zeta.
  destruct (call_CreateReport _ crash_id) as [crash_data|].
  2:{ intros [= <- <-]. repeat split; auto; try done; lia. }
  case_bool_decide as Hsize.
  { intros [= <- <-]. repeat split; auto; try done; lia. }
  destruct (report_rating crash_data) as [rating|]; [|done].
  case_bool_decide as Hbatch.
  - pose proof (report_review_inv crash_data a) as Hrev.
    destruct (report_review crash_data a) as [[result crash_data'] a1].
    destruct Hrev as (Hcode & Hlog & _ & _ & _ & Hfail).
    case_bool_decide as Hres.
    + intros [= <- <-]. repeat split; auto; try lia;
        intuition (auto; lia).
    + unfold report_send.
      destruct (report_dispatch _ _ false _ _ _) as [[rc' t']|] eqn:Hd; [|done].
      apply report_dispatch_code in Hd. intros [= <- <-]. cbn.
      repeat split; auto; try lia; intuition (auto; lia).
  - unfold report_send.
    destruct (report_dispatch _ _ true _ _ _) as [[rc' t']|] eqn:Hd; [|done].
    pose proof Hd as Hcode. apply report_dispatch_code in Hcode.
    apply report_dispatch_batch_frame in Hd as [Hin He].
    intros [= <- <-]. cbn. repeat split; auto; try lia; intuition (auto; lia).
Qed.

Lemma report_result_witness :
  let a' :=
    App (Session ""
           [nl +:+ "No changes were detected in the report" +:+ nl;
            "Report using report_rhtsupport? [y/N]: ";
            "Reporting disabled because the backtrace is unusable" +:+ nl;
            msg_debuginfo "foo-1.0";
            "Crash reported via 1 report events (1 errors)" +:+ nl]
           None
           (<["report_rhtsupport" := <["RatingRequired" := "yes"]> ∅]> ∅)
           [] 1 1)
        [] ∅ 1 in
  (1 = -1 ∨ 1 = 0 ∨ 1 = 1 ∨ 1 = 2 ∨ 1 = 3)
  ∧ logmode a' = logmode sample_app.
Proof.
  intros a'.
  refine (let H := report_result (ct:=sample_crash_types)
                     (sv:=sample_services) (ee:=sample_editor_env)
                     "" true "ccpp-1" 0 sample_app a' 1 _ in
          conj (proj1 H) (proj1 (proj2 H))).
  vm_compute. reflexivity.
Defined.

(** ** user_settings.c *)

Lemma char_at_append_r (a b : string) (n : nat) :
  char_at (String.length a + n) (a +:+ b) = char_at n b.
Proof.
  unfold char_at. by rewrite (Nat.add_comm _ n), <- String.append_correct2.
Qed.

Lemma no_slash_char_at (s : string) (n : nat) :
  no_slash s = true → Ascii.eqb (char_at n s) "/" = false.
Proof.
  revert n. induction s as [|c s IH]; intros n Hs; [by destruct n|].
  cbn [no_slash] in Hs. apply andb_prop in Hs as [Hc Hs].
  apply negb_true_iff in Hc. destruct n as [|n]; [exact Hc | by apply IH].
Qed.

Section MoreUserSettingsFacts.
Context {sv : services}.

Lemma parentdir_end_no_slash (path : string) (c : nat) :
  no_slash path = true → parentdir_end path c = 0%nat.
Proof.
  intros Hs. induction c as [|c IH]; [done|]. cbn [parentdir_end].
  by rewrite no_slash_char_at.
Qed.

Lemma parentdir_end_file (dir file : string) (k : nat) :
  no_slash file = true →
  parentdir_end (dir +:+ "/" +:+ file) (String.length dir + k)
  = String.length dir.
Proof.
  intros Hfile. induction k as [|k IH].
  - rewrite Nat.add_0_r. destruct (String.length dir) as [|n] eqn:Hlen; [done|].
    cbn [parentdir_end]. rewrite <- Hlen, <- (Nat.add_0_r (String.length dir)).
    by rewrite char_at_append_r.
  - rewrite Nat.add_succ_r. cbn [parentdir_end].
    rewrite <- Nat.add_succ_r, char_at_append_r.
    change (char_at (S k) ("/" +:+ file)) with (char_at k file).
    rewrite no_slash_char_at by done. exact IH.
Qed.



End MoreUserSettingsFacts.

(** X20.  For a path made of a directory, a '/' and a file name without
    '/', [create_parentdir] asks [make_dir_recursive] for that directory
    (mode 0755) and returns its answer; for a path without any '/' it
    returns false and calls nothing. *)
Theorem create_parentdir_dirname {sv : services} (p : process) :
  (∀ dir file, no_slash file = true →
     create_parentdir (dir +:+ "/" +:+ file) p
     = (make_dir_recursive dir,
        Process (user_settings p) (conf_path p)
                (calls p ++ [sys_make_dir_recursive dir 493])))
  ∧ (∀ path, no_slash path = true → create_parentdir path p = (false, p)).
Proof.
  split.
  - intros dir file Hfile.
    assert (Hend : parentdir_end (dir +:+ "/" +:+ file)
                     (String.length (dir +:+ "/" +:+ file))
                   = String.length dir).
    { rewrite length_append. by apply parentdir_end_file. }
    assert (Hchar : char_at (String.length dir) (dir +:+ "/" +:+ file) = "/"%char).
    { rewrite <- (Nat.add_0_r (String.length dir)).
      by rewrite char_at_append_r. }
    cbv [create_parentdir mbind state_bind mret state_ret syscall_do modify].
    rewrite Hend, Hchar. change (Ascii.eqb "/" "/") with true. cbn [negb].
    by rewrite substring_0_append.
  - intros path Hpath.
    cbv [create_parentdir mbind state_bind mret state_ret syscall_do modify].
    rewrite parentdir_end_no_slash by done.
    by rewrite no_slash_char_at.
Qed.

Lemma create_parentdir_dirname_witness :
  create_parentdir (sv:=sample_services)
    ("/home/user/.abrt/settings" +:+ "/" +:+ "abrt-cli.conf.tmp") process_start
  = (true, Process None None
             [sys_make_dir_recursive "/home/user/.abrt/settings" 493])
  ∧ create_parentdir (sv:=sample_services) "abrt-cli.conf.tmp" process_start
    = (false, process_start).
Proof.
  destruct (create_parentdir_dirname (sv:=sample_services) process_start)
    as [Hdir Hnone].
  split.
  - apply (Hdir "/home/user/.abrt/settings" "abrt-cli.conf.tmp"). reflexivity.
  - apply (Hnone "abrt-cli.conf.tmp"). reflexivity.
Defined.


(** X22.  After [load_user_settings], whatever was loaded or set before,
    the settings are those that [load_conf_file] read for the application's
    file.  From then on a setting that is set is the one that is got, a
    setting set to NULL is gone, the other settings are not affected, and
    neither operation touches the file system. *)
Theorem user_settings_after_load {sv : services}
    (application_name : string) (p : process) :
  let loaded := (load_conf_file (get_conf_path application_name) ∅).2 in
  let p1 := (load_user_settings application_name p).2 in
  (load_user_settings application_name p).1
  = (load_conf_file (get_conf_path application_name) ∅).1
  ∧ conf_path p1 = Some (get_conf_path application_name)
  ∧ (∀ name, (get_user_setting name p1).1 = loaded !! name)
  ∧ (∀ name value other,
       let p2 := (set_user_setting name value p1).2 in
       (get_user_setting name p2).1 = value
       ∧ (other ≠ name → (get_user_setting other p2).1 = loaded !! other)
       ∧ conf_path p2 = conf_path p1
       ∧ calls (get_user_setting other p2).2 = calls p).
Proof.
  cbv zeta. unfold load_user_settings, get_user_setting, set_user_setting, modify.
  destruct (load_conf_file (get_conf_path application_name) ∅) as [ret table].
  cbn. repeat split; try done.
  - destruct value as [v|]; [apply lookup_insert_eq | apply lookup_delete_eq].
  - intros Hne. destruct value as [v|];
      [by apply lookup_insert_ne | by apply lookup_delete_ne].
Qed.

(** ** Discovery of the reporters *)

Lemma report_events_cons (c : ascii) (rest : string) :
  Ascii.eqb c NUL = false →
  report_events (String c rest)
  = ((if is_report_event (String c rest)
      then [strndup (String c rest) (strchrnul_LF (String c rest))] else [])
     ++ report_events (after_line (String c rest)))%list.
Proof.
  intros Hc. cbn [report_events after_line]. rewrite Hc. f_equal.
  destruct (Ascii.eqb c LF); [done|].
  induction rest as [|d rest IH]; [done|]. cbn [after_line].
  destruct (Ascii.eqb d NUL); [done|]. destruct (Ascii.eqb d LF); [done|].
  exact IH.
Qed.

Lemma strndup_line_no_newline (s : string) :
  no_newline (strndup s (strchrnul_LF s)) = true.
Proof.
  unfold strndup. induction s as [|c s IH]; [done|]. cbn [strchrnul_LF].
  destruct (Ascii.eqb c NUL) eqn:Hn; cbn [orb]; [done|].
  destruct (Ascii.eqb c LF) eqn:Hl; [done|].
  cbn [String.substring no_newline]. by rewrite Hl, IH.
Qed.

Lemma prefix_cons_inv (c : ascii) (p s : string) :
  String.prefix (String c p) s = true →
  ∃ s', s = String c s' ∧ String.prefix p s' = true.
Proof.
  destruct s as [|d s']; cbn [String.prefix]; [done|].
  destruct (ascii_dec c d) as [->|]; [|done]. by eexists.
Qed.

Lemma report_event_line (events : string) :
  is_report_event events = true →
  let name := strndup events (strchrnul_LF events) in
  name = "report" ∨ ∃ rest, name = "report_" +:+ rest.
Proof.
  unfold is_report_event. intros Hev. apply andb_prop in Hev as [Hpre Hnext].
  apply prefix_cons_inv in Hpre as (s1 & -> & Hpre).
  apply prefix_cons_inv in Hpre as (s2 & -> & Hpre).
  apply prefix_cons_inv in Hpre as (s3 & -> & Hpre).
  apply prefix_cons_inv in Hpre as (s4 & -> & Hpre).
  apply prefix_cons_inv in Hpre as (s5 & -> & Hpre).
  apply prefix_cons_inv in Hpre as (s6 & -> & _).
  change (char_at 6 (String "r" (String "e" (String "p" (String "o"
            (String "r" (String "t" s6)))))))
    with (char_at 0 s6) in Hnext.
  cbv zeta. unfold strndup.
  change (strchrnul_LF (String "r" (String "e" (String "p" (String "o"
            (String "r" (String "t" s6)))))))
    with (S (S (S (S (S (S (strchrnul_LF s6))))))).
  cbn [String.substring].
  destruct s6 as [|c s6]; [by left|].
  change (char_at 0 (String c s6)) with c in Hnext.
  apply orb_prop in Hnext as [Hnul|Hus].
  - left. cbn [strchrnul_LF]. rewrite Hnul. done.
  - right. apply Ascii.eqb_eq in Hus as ->. cbn [strchrnul_LF].
    change (Ascii.eqb "_" NUL || Ascii.eqb "_" LF) with false.
    cbn [String.substring]. by eexists.
Qed.

Lemma report_events_sound_n (n : nat) :
  ∀ events name,
    (String.length events ≤ n)%nat → name ∈ report_events events →
    (name = "report" ∨ ∃ rest, name = "report_" +:+ rest)
    ∧ no_newline name = true.
Proof.
  induction n as [|n IH]; intros events name Hn Hin.
  { destruct events; [by apply elem_of_nil in Hin | cbn in Hn; lia]. }
  destruct events as [|c rest]; [by apply elem_of_nil in Hin|].
  destruct (Ascii.eqb c NUL) eqn:Hc.
  { cbn [report_events] in Hin. rewrite Hc in Hin. by apply elem_of_nil in Hin. }
  rewrite report_events_cons in Hin by done.
  apply elem_of_app in Hin as [Hhead|Hrest].
  - destruct (is_report_event (String c rest)) eqn:Hev;
      [|by apply elem_of_nil in Hhead].
    apply list_elem_of_singleton in Hhead as ->. split.
    + by apply report_event_line.
    + apply strndup_line_no_newline.
  - apply (IH (after_line (String c rest))); [|done].
    cbn [after_line]. rewrite Hc. cbn [String.length] in Hn.
    pose proof (after_line_length rest).
    destruct (Ascii.eqb c LF); lia.
Qed.

(** X23.  Every reporter found in an event list is the name "report" or a
    name that starts with "report_", and it holds no newline: names such as
    reportXYZ or foo are never taken. *)
Theorem report_events_sound (events name : string) :
  name ∈ report_events events →
  (name = "report" ∨ ∃ rest, name = "report_" +:+ rest)
  ∧ no_newline name = true.
Proof. by apply (report_events_sound_n (String.length events)). Qed.

Lemma report_events_sound_witness :
  ("report_bugzilla" = "report"
   ∨ ∃ rest, "report_bugzilla" = "report_" +:+ rest)
  ∧ no_newline "report_bugzilla" = true.
Proof.
  apply (report_events_sound
           ("report_bugzilla" +:+ nl +:+ "reportXYZ" +:+ nl +:+ "foo" +:+ nl
            +:+ "report" +:+ nl)).
  vm_compute. left.
Defined.

(** ** The unedited document *)

Lemma unescape_from_line (s rest : string) :
  one_line s = true →
  unescape_from false (s +:+ String LF rest)
  = s +:+ String LF (unescape_from true rest).
Proof.
  induction s as [|c s IH]; intros Hs.
  - reflexivity.
  - cbn [one_line] in Hs. apply andb_prop in Hs as [Hc Hs].
    apply andb_prop in Hc as [Hn Hl]. apply negb_true_iff in Hn, Hl.
    change (String c s +:+ String LF rest) with (String c (s +:+ String LF rest)).
    cbn [unescape_from]. rewrite Hn, Hl. cbn [andb].
    change (String c s +:+ String LF (unescape_from true rest))
      with (String c (s +:+ String LF (unescape_from true rest))).
    by rewrite IH.
Qed.

Lemma lookahead_append_LF (a rest : string) :
  Ascii.eqb (char_at 0 (a +:+ String LF rest)) "#"
  || Ascii.eqb (char_at 0 (a +:+ String LF rest)) "\"
     && Ascii.eqb (char_at 1 (a +:+ String LF rest)) "#"
  = Ascii.eqb (char_at 0 a) "#"
    || Ascii.eqb (char_at 0 a) "\" && Ascii.eqb (char_at 1 a) "#".
Proof.
  by destruct a as [|d [|e a]].
Qed.

(** A text without NUL and without comment line, followed by a newline:
    the scanner handles the text, copies the newline and starts a line. *)
Lemma unescape_from_append_LF (newline : bool) (a rest : string) :
  no_nul a = true → hash_line newline a = false →
  unescape_from newline (a +:+ String LF rest)
  = unescape_from newline a +:+ String LF (unescape_from true rest).
Proof.
  revert newline. induction a as [|c a IH]; intros newline Hnul Hhash.
  - change ("" +:+ String LF rest) with (String LF rest).
    cbn [unescape_from]. change (Ascii.eqb LF NUL) with false.
    change (Ascii.eqb LF "#") with false. change (Ascii.eqb LF "\") with false.
    rewrite !andb_false_r. cbn [andb]. change (Ascii.eqb LF LF) with true. done.
  - cbn [no_nul] in Hnul. apply andb_prop in Hnul as [Hc Hnul].
    apply negb_true_iff in Hc.
    cbn [hash_line] in Hhash. apply orb_false_elim in Hhash as [Hhere Hhash].
    pose proof (IH false Hnul) as IHf.
    specialize (IH (Ascii.eqb c LF) Hnul Hhash).
    change (String c a +:+ String LF rest) with (String c (a +:+ String LF rest)).
    cbn [unescape_from]. rewrite Hc, Hhere, lookahead_append_LF.
    destruct (newline && Ascii.eqb c "\"
              && (Ascii.eqb (char_at 0 a) "#"
                  || Ascii.eqb (char_at 0 a) "\" && Ascii.eqb (char_at 1 a) "#"))
      eqn:Hesc.
    + (* the escape is removed; [a] is not empty *)
      apply andb_prop in Hesc as [Hnl Hlook].
      apply andb_prop in Hnl as [_ Hcb]. apply Ascii.eqb_eq in Hcb. subst c.
      change (Ascii.eqb "\" LF) with false in Hhash.
      destruct a as [|d a']; [by cbn in Hlook|].
      specialize (IHf Hhash).
      cbn [no_nul] in Hnul. apply andb_prop in Hnul as [Hd _].
      apply negb_true_iff in Hd.
      change (String d a' +:+ String LF rest)
        with (String d (a' +:+ String LF rest)) in IHf |- *.
      cbn [unescape_from] in IHf. rewrite Hd in IHf. cbn [andb] in IHf.
      exact IHf.
    + rewrite IH. done.
Qed.

Lemma no_nul_escape_from (newline : bool) (c : string) :
  no_nul (escape_from newline c) = true.
Proof.
  revert newline. induction c as [|x c IH]; intros newline; [done|].
  cbn [escape_from]. destruct (Ascii.eqb x NUL) eqn:Hx; [done|].
  destruct (newline && _); cbn [no_nul]; rewrite ?Hx, IH; done.
Qed.

(** The escaped content of a field, followed by its newline. *)
Lemma unescape_escaped_content (c rest : string) :
  no_nul c = true → backslash2_hash_line true c = false →
  unescape_from true (escape c +:+ String LF rest)
  = c +:+ String LF (unescape_from true rest).
Proof.
  intros Hnul Hclean. unfold escape.
  rewrite unescape_from_append_LF.
  - by rewrite unescape_escape_from.
  - apply no_nul_escape_from.
  - apply hash_line_escape_from.
Qed.

(** The marker line of a field. *)
Lemma unescape_marker_line (field rest : string) :
  one_line field = true →
  unescape_from true (FIELD_SEP +:+ field +:+ String LF rest)
  = FIELD_SEP +:+ field +:+ String LF (unescape_from true rest).
Proof.
  intros Hf.
  change (FIELD_SEP +:+ field +:+ String LF rest)
    with (String "%" ("----" +:+ field +:+ String LF rest)).
  cbn [unescape_from]. change (Ascii.eqb "%" NUL) with false.
  change (Ascii.eqb "%" "#") with false. change (Ascii.eqb "%" "\") with false.
  rewrite !andb_false_r. change (Ascii.eqb "%" LF) with false.
  assert (Hline : one_line ("----" +:+ field) = true) by exact Hf.
  rewrite <- (append_assoc "----" field).
  rewrite (unescape_from_line _ _ Hline). by rewrite append_assoc.
Qed.

Lemma nl_append (x : string) : nl +:+ x = String LF x.
Proof. reflexivity. Qed.

(** One block of the document, once the comments are dropped: the marker
    line and the content. *)
Lemma unescape_field_block {ct : crash_types}
    (field description : string) (value : crash_item) (rest : string) :
  one_line field = true → comment_text description →
  no_nul (content value) = true →
  backslash2_hash_line true (content value) = false →
  unescape_from true (field_block field description value +:+ rest)
  = FIELD_SEP +:+ field
    +:+ String LF (content value +:+ String LF (unescape_from true rest)).
Proof.
  intros Hf (comments & Hcom & Hdesc) Hnul Hclean. unfold field_block.
  rewrite !append_assoc, nl_append, unescape_marker_line by exact Hf.
  rewrite Hdesc, unescape_inject_comments by exact Hcom.
  case_bool_decide.
  - rewrite !append_assoc.
    change ("# This field is read only" +:+ nl +:+ ?x)
      with (inject_comments ["# This field is read only"] x).
    rewrite unescape_inject_comments by reflexivity.
    rewrite nl_append. by rewrite unescape_escaped_content.
  - change ("" +:+ ?x) with x. rewrite nl_append.
    by rewrite unescape_escaped_content.
Qed.

Lemma comment_text_line (description : string) :
  comment_line description = true → comment_text description.
Proof.
  intros Hd. exists [description]. split; [|done].
  cbn [forallb]. by rewrite Hd.
Qed.

Lemma well_known_descriptions {ct : crash_types} (field description : string) :
  (field, description) ∈ well_known_fields → comment_text description.
Proof.
  unfold well_known_fields. intros Hin.
  repeat (apply elem_of_cons in Hin as [Heq|Hin];
          [injection Heq as _ ->|]);
    try (by apply elem_of_nil in Hin);
    try (by apply comment_text_line).
  exists ["# Backtrace";
          "# Check that it does not contain any sensitive data (passwords, etc.)"].
  split; [reflexivity|]. intros body. cbn [inject_comments].
  by rewrite !append_assoc.
Qed.

Lemma rendered_fields_cons {ct : crash_types}
    (report : gmap string crash_item) (field description : string)
    (table : list (string * string)) :
  rendered_fields report ((field, description) :: table)
  = match report !! field with
    | Some value =>
        if bool_decide (Z.land (flags value) CD_FLAG_SYS ≠ 0)
        then rendered_fields report table
        else (field, content value) :: rendered_fields report table
    | None => rendered_fields report table
    end.
Proof.
  unfold rendered_fields. cbn [omap list_omap].
  destruct (report !! field) as [value|]; cbn [mbind option_bind]; [|done].
  by case_bool_decide.
Qed.

(** The whole document, once the comments are dropped. *)
Lemma unescape_blocks {ct : crash_types} (report : gmap string crash_item)
    (table : list (string * string)) :
  (∀ field description, (field, description) ∈ table →
     one_line field = true ∧ comment_text description) →
  (∀ field content, (field, content) ∈ rendered_fields report table →
     plain_content content) →
  String LF (unescape_from true (concat_blocks
    (omap (λ '(field, description),
             value ← report !! field;
             if bool_decide (Z.land (flags value) CD_FLAG_SYS ≠ 0) then None
             else Some (field_block field description value)) table)))
  = segs (rendered_fields report table) +:+ nl.
Proof.
  induction table as [|[field description] table IH]; intros Htable Hplain;
    [done|].
  destruct (Htable field description) as [Hf Hd]; [by left|].
  assert (IH' := IH (λ f d Hin, Htable f d
                       (proj2 (elem_of_cons _ _ _) (or_intror Hin)))).
  clear IH. rewrite rendered_fields_cons in Hplain |- *.
  cbn [omap list_omap].
  destruct (report !! field) as [value|]; cbn [mbind option_bind];
    [|by apply IH'].
  case_bool_decide; [by apply IH'|].
  destruct (Hplain field (content value)) as (Hnul & Hclean & _); [by left|].
  cbn [concat_blocks foldr segs].
  change (foldr String.append "" ?l) with (concat_blocks l).
  rewrite unescape_field_block by done.
  assert (Hrest : ∀ f c, (f, c) ∈ rendered_fields report table →
                         plain_content c).
  { intros f c Hin. apply (Hplain f c). by right. }
  specialize (IH' Hrest).
  unfold seg. rewrite !append_assoc, <- IH'. by rewrite !nl_append.
Qed.

(** ** Finding the blocks in the text *)

(** A needle that has a single line after its first character cannot reach
    over a newline. *)
Lemma prefix_line_cut (m x rest : string) :
  one_line m = true →
  String.prefix m (x +:+ String LF rest) = true → String.prefix m x = true.
Proof.
  revert x. induction m as [|c m IH]; intros x Hm Hp; [by destruct x|].
  cbn [one_line] in Hm. apply andb_prop in Hm as [Hc Hm].
  apply andb_prop in Hc as [_ Hl]. apply negb_true_iff in Hl.
  destruct x as [|d x].
  - change ("" +:+ String LF rest) with (String LF rest) in Hp.
    rewrite prefix_cons in Hp. destruct (ascii_dec c LF) as [->|]; [|done].
    by rewrite Ascii.eqb_refl in Hl.
  - change (String d x +:+ String LF rest)
      with (String d (x +:+ String LF rest)) in Hp.
    rewrite prefix_cons in *. destruct (ascii_dec c d); [by apply IH | done].
Qed.

(** A needle that starts with a newline is not found inside a line. *)
Lemma strstr_skip_line (s rest m : string) :
  one_line s = true →
  strstr (s +:+ rest) (String LF m) = strstr rest (String LF m).
Proof.
  induction s as [|c s IH]; intros Hs; [done|].
  cbn [one_line] in Hs. apply andb_prop in Hs as [Hc Hs].
  apply andb_prop in Hc as [_ Hl]. apply negb_true_iff in Hl.
  change (String c s +:+ rest) with (String c (s +:+ rest)).
  cbn [strstr]. rewrite prefix_cons.
  destruct (ascii_dec LF c) as [<-|]; [by rewrite Ascii.eqb_refl in Hl|].
  by apply IH.
Qed.

(** A text without the marker, followed by a newline: no longer needle that
    starts with the marker is found before that newline. *)
Lemma strstr_skip_content (c rest m tail : string) :
  one_line m = true → strstr c (String LF m) = None →
  strstr (c +:+ String LF rest) (String LF (m +:+ tail))
  = strstr (String LF rest) (String LF (m +:+ tail)).
Proof.
  intros Hm. induction c as [|d c IH]; intros Hnone; [done|].
  cbn [strstr] in Hnone.
  destruct (String.prefix (String LF m) (String d c)) eqn:Hhere; [done|].
  change (String d c +:+ String LF rest)
    with (String d (c +:+ String LF rest)).
  cbn [strstr].
  destruct (String.prefix (String LF (m +:+ tail))
              (String d (c +:+ String LF rest))) eqn:Hp; [|by apply IH].
  exfalso. change (String LF (m +:+ tail)) with (String LF m +:+ tail) in Hp.
  apply prefix_append_l in Hp. rewrite prefix_cons in Hp, Hhere.
  destruct (ascii_dec LF d); [|done].
  apply prefix_line_cut in Hp; [congruence | exact Hm].
Qed.

Lemma lines_differ (f g x y : string) :
  one_line f = true → one_line g = true →
  String.prefix (f +:+ String LF x) (g +:+ String LF y) = true → f = g.
Proof.
  revert g. induction f as [|c f IH]; intros g Hf Hg Hp.
  - destruct g as [|d g]; [done|].
    cbn [one_line] in Hg. apply andb_prop in Hg as [Hd _].
    apply andb_prop in Hd as [_ Hl]. apply negb_true_iff in Hl.
    change (String.prefix (String LF x) (String d (g +:+ String LF y)) = true)
      in Hp.
    rewrite prefix_cons in Hp. destruct (ascii_dec LF d) as [<-|]; [|done].
    by rewrite Ascii.eqb_refl in Hl.
  - cbn [one_line] in Hf. apply andb_prop in Hf as [Hc Hf].
    apply andb_prop in Hc as [_ Hl]. apply negb_true_iff in Hl.
    destruct g as [|d g].
    + change (String.prefix (String c (f +:+ String LF x)) (String LF y) = true)
        in Hp.
      rewrite prefix_cons in Hp. destruct (ascii_dec c LF) as [->|]; [|done].
      by rewrite Ascii.eqb_refl in Hl.
    + cbn [one_line] in Hg. apply andb_prop in Hg as [_ Hg].
      change (String.prefix (String c (f +:+ String LF x))
                (String d (g +:+ String LF y)) = true) in Hp.
      rewrite prefix_cons in Hp. destruct (ascii_dec c d) as [->|]; [|done].
      f_equal. by apply IH.
Qed.

Lemma one_line_append (a b : string) :
  one_line (a +:+ b) = one_line a && one_line b.
Proof.
  induction a as [|c a IH]; [done|].
  change (String c a +:+ b) with (String c (a +:+ b)). cbn [one_line].
  rewrite IH. by rewrite andb_assoc.
Qed.

Lemma segs_head (fields : list (string * string)) :
  ∃ rest, segs fields +:+ nl = String LF rest.
Proof.
  destruct fields as [|[g c] fields]; [by exists ""|].
  cbn [segs]. unfold seg. rewrite !append_assoc, nl_append. by eexists.
Qed.

Lemma skip_whitespace_append (s post : string) :
  all_isspace s = false →
  skip_whitespace (s +:+ post) = skip_whitespace s +:+ post.
Proof.
  induction s as [|c s IH]; [done|]. cbn [all_isspace]. intros Hs.
  change (String c s +:+ post) with (String c (s +:+ post)).
  cbn [skip_whitespace]. destruct (isspace c); [by apply IH | done].
Qed.

Lemma substring_0_append_le (a b : string) (n : nat) :
  (n ≤ String.length a)%nat →
  String.substring 0 n (a +:+ b) = String.substring 0 n a.
Proof.
  revert n. induction a as [|c a IH]; intros n Hn.
  - cbn in Hn. assert (n = 0%nat) as -> by lia. by destruct b.
  - change (String c a +:+ b) with (String c (a +:+ b)).
    destruct n as [|n]; [done|]. cbn [String.substring String.length] in *.
    rewrite IH by lia. done.
Qed.

(** Whitespace after the text is trimmed away. *)
Lemma trim_buf_append_space (s post : string) :
  all_isspace post = true → trim_buf (s +:+ post) = trim_buf s.
Proof.
  intros Hpost. unfold trim_buf, strndup.
  destruct (all_isspace s) eqn:Hs.
  - rewrite skip_whitespace_all_isspace by exact Hs.
    by rewrite !skip_whitespace_only_space.
  - rewrite skip_whitespace_append by exact Hs.
    set (a := skip_whitespace s).
    rewrite length_append, trim_end_spaces by (exact Hpost || lia).
    rewrite (trim_end_ext (a +:+ post) a).
    + apply substring_0_append_le, trim_end_le.
    + intros k Hk. symmetry. by apply String.append_correct1.
Qed.

Lemma strstr_marker_content (c : string) :
  plain_content c → strstr c (String LF FIELD_SEP) = None.
Proof.
  intros (_ & _ & Hnone).
  change (nl +:+ c) with (String LF c) in Hnone.
  change (nl +:+ FIELD_SEP) with (String LF FIELD_SEP) in Hnone.
  cbn [strstr] in Hnone.
  by destruct (String.prefix (String LF FIELD_SEP) (String LF c)).
Qed.

(** The body that [read_crash_report_field] finds for a field in the text
    made of marker lines and contents is, up to trimming, a content that
    was rendered under this name. *)
Lemma field_text_segs (fields : list (string * string)) (f : string) :
  (∀ g c, (g, c) ∈ fields → one_line g = true ∧ plain_content c) →
  one_line f = true →
  match field_text (segs fields +:+ nl) f with
  | None => True
  | Some raw => ∃ c, (f, c) ∈ fields ∧ trim_buf raw = trim_buf c
  end.
Proof.
  intros Hfields Hf. induction fields as [|[g c] fields IH].
  { assert (Hnone : strstr (segs [] +:+ nl) (nl +:+ FIELD_SEP +:+ f +:+ nl)
                     = None).
    { change (strstr (String LF "")
                (String LF (String "%" ("----" +:+ f +:+ nl))) = None).
      cbn [strstr]. rewrite !prefix_cons. by destruct (ascii_dec LF LF). }
    unfold field_text. by rewrite Hnone. }
  destruct (Hfields g c) as [Hg Hc]; [by left|].
  assert (Hrest : ∀ g c, (g, c) ∈ fields → one_line g = true ∧ plain_content c).
  { intros g' c' Hin. apply Hfields. by right. }
  specialize (IH Hrest).
  destruct (segs_head fields) as [rest Hhead].
  assert (Htext : segs ((g, c) :: fields) +:+ nl
                  = String LF (FIELD_SEP +:+ g
                      +:+ String LF (c +:+ String LF rest))).
  { cbn [segs]. unfold seg. by rewrite !append_assoc, Hhead, !nl_append. }
  destruct (decide (g = f)) as [->|Hne].
  - (* the block of [f] comes first *)
    assert (Hsep : segs ((f, c) :: fields) +:+ nl
                   = (nl +:+ FIELD_SEP +:+ f +:+ nl) +:+ c +:+ String LF rest).
    { rewrite Htext. by rewrite !append_assoc, !nl_append. }
    unfold field_text. rewrite Hsep.
    rewrite strstr_prefix by apply prefix_append_refl.
    rewrite advance_append.
    pose proof (strstr_skip_content c rest FIELD_SEP "" eq_refl
                  (strstr_marker_content c Hc)) as Hskip.
    change (String LF (FIELD_SEP +:+ "")) with (nl +:+ FIELD_SEP) in Hskip.
    rewrite Hskip. exists c. split; [by left|].
    destruct (strstr (String LF rest) (nl +:+ FIELD_SEP)) as [e|] eqn:He.
    + (* another block follows *)
      assert (e = String LF rest) as ->.
      { destruct fields as [|[g' c'] fields].
        - change ("" +:+ nl) with (String LF "") in Hhead.
          injection Hhead as <-. by vm_compute in He.
        - assert (Hp : String.prefix (nl +:+ FIELD_SEP) (String LF rest) = true).
          { rewrite <- Hhead. cbn [segs]. unfold seg.
            rewrite !append_assoc, <- (append_assoc nl FIELD_SEP).
            apply prefix_append_refl. }
          rewrite (strstr_prefix _ _ Hp) in He. congruence. }
      rewrite length_append.
      replace (String.length c + String.length (String LF rest)
               - String.length (String LF rest))%nat
        with (String.length c) by lia.
      unfold strndup. by rewrite substring_0_append.
    + (* the last block: the body runs to the end of the text *)
      destruct fields as [|[g' c'] fields].
      * change ("" +:+ nl) with (String LF "") in Hhead.
        injection Hhead as <-. unfold strndup. rewrite substring_0_all.
        by apply trim_buf_append_space.
      * exfalso.
        assert (Hp : String.prefix (nl +:+ FIELD_SEP) (String LF rest) = true).
        { rewrite <- Hhead. cbn [segs]. unfold seg.
          rewrite !append_assoc, <- (append_assoc nl FIELD_SEP).
          apply prefix_append_refl. }
        rewrite (strstr_prefix _ _ Hp) in He. congruence.
  - (* another block comes first: the search goes past it *)
    assert (Hskip : strstr (segs ((g, c) :: fields) +:+ nl)
                      (nl +:+ FIELD_SEP +:+ f +:+ nl)
                    = strstr (segs fields +:+ nl)
                        (nl +:+ FIELD_SEP +:+ f +:+ nl)).
    { rewrite Htext, Hhead, !nl_append. cbn [strstr].
      destruct (String.prefix (String LF (FIELD_SEP +:+ f +:+ nl))
                  (String LF (FIELD_SEP +:+ g
                     +:+ String LF (c +:+ String LF rest)))) eqn:Hp.
      { exfalso. apply Hne. rewrite prefix_cons in Hp.
        destruct (ascii_dec LF LF); [|done].
        rewrite prefix_append_same in Hp. symmetry.
        exact (lines_differ f g "" (c +:+ String LF rest) Hf Hg Hp). }
      rewrite <- (append_assoc FIELD_SEP g).
      rewrite strstr_skip_line by (by rewrite one_line_append, Hg).
      change (String LF (c +:+ String LF rest))
        with (String LF c +:+ String LF rest).
      apply (strstr_skip_content (String LF c) rest FIELD_SEP (f +:+ nl)
               eq_refl).
      by destruct Hc as (_ & _ & Hnone). }
    unfold field_text in IH |- *. rewrite Hskip.
    destruct (strstr (segs fields +:+ nl) (nl +:+ FIELD_SEP +:+ f +:+ nl));
      [|done].
    destruct IH as (c' & Hin & Htrim). exists c'. split; [by right | done].
Qed.

Lemma read_fields_quiet {ct : crash_types} (text : string)
    (fields : list string) (acc : Z) (w : world) :
  (∀ field, field ∈ fields → read_crash_report_field text field w = (0, w)) →
  read_fields text fields acc w = (acc, w).
Proof.
  revert acc. induction fields as [|g fields IH]; intros acc Hall; [done|].
  cbn [read_fields]. cbv [mbind state_bind]. rewrite Hall by by left.
  rewrite Z.lor_0_r. apply IH. intros f Hf. apply Hall. by right.
Qed.

Lemma rendered_fields_elem {ct : crash_types}
    (report : gmap string crash_item) (table : list (string * string))
    (field c : string) :
  (field, c) ∈ rendered_fields report table →
  field ∈ table.*1
  ∧ ∃ value, report !! field = Some value
      ∧ Z.land (flags value) CD_FLAG_SYS = 0 ∧ c = content value.
Proof.
  unfold rendered_fields. rewrite list_elem_of_omap.
  intros ([g d] & Hin & Hsome).
  destruct (report !! g) as [value|] eqn:Hv; cbn [mbind option_bind] in Hsome;
    [|done].
  case_bool_decide as Hsys; [done|]. injection Hsome as <- <-.
  split.
  - apply list_elem_of_fmap. by exists (g, d).
  - exists value. repeat split; [done|].
    destruct (decide (Z.land (flags value) CD_FLAG_SYS = 0)); [done|].
    by destruct Hsys.
Qed.

(** The document that [write_crash_report] writes from [w], read back
    into a world that holds the same report. *)
Lemma unedited_document_quiet {ct : crash_types} (w w' : world) :
  w_file w = "" → w_report w' = w_report w →
  (∀ field, field ∈ well_known_fields.*1 → one_line field = true) →
  (∀ field value,
     field ∈ well_known_fields.*1 → w_report w !! field = Some value →
     Z.land (flags value) CD_FLAG_SYS = 0 → plain_content (content value)) →
  read_crash_report
    (remove_comments_and_unescape (w_file (write_crash_report w).2)) w'
  = (0, w').
Proof.
  intros Hfile Hreport Hnames Hcontent.
  rewrite write_crash_report_unfold. cbv [mbind state_bind fputs modify].
  rewrite write_fields_spec. cbn [snd w_report w_file w_log]. rewrite Hfile.
  set (blocks := omap _ well_known_fields).
  assert (Hplain : ∀ field c,
            (field, c) ∈ rendered_fields (w_report w) well_known_fields →
            one_line field = true ∧ plain_content c).
  { intros field c Hin.
    apply rendered_fields_elem in Hin as (Hin & value & Hv & Hsys & ->).
    split; [by apply Hnames | by eapply Hcontent]. }
  assert (Htext : remove_comments_and_unescape
                    (("" +:+ preamble) +:+ concat_blocks blocks)
                  = segs (rendered_fields (w_report w) well_known_fields)
                    +:+ nl).
  { unfold remove_comments_and_unescape.
    change (("" +:+ preamble) +:+ concat_blocks blocks)
      with (inject_comments
              ["# Please check this report. Lines starting with '#' will be ignored.";
               "# Lines starting with '%----' separate fields, please do not delete them."]
              (nl +:+ concat_blocks blocks)).
    rewrite unescape_inject_comments by reflexivity.
    change (unescape_from true (nl +:+ concat_blocks blocks))
      with (String LF (unescape_from true (concat_blocks blocks))).
    apply unescape_blocks.
    - intros field description Hin. split.
      + apply Hnames, list_elem_of_fmap. by exists (field, description).
      + by eapply well_known_descriptions.
    - intros field c Hin. by apply (Hplain field c). }
  rewrite Htext, read_crash_report_unfold. apply read_fields_quiet.
  intros field Hin. rewrite read_crash_report_field_spec.
  pose proof (field_text_segs _ field Hplain (Hnames field Hin)) as Hraw.
  destruct (field_text _ field) as [raw|]; [|done].
  destruct Hraw as (c & Hc & Htrim).
  apply rendered_fields_elem in Hc as (_ & value & Hv & Hsys & ->).
  rewrite Hreport, Hv.
  rewrite bool_decide_eq_false_2 by (intros Hne; by apply Hne).
  case_bool_decide; [done|]. by rewrite bool_decide_eq_true_2.
Qed.

(** X24.  Detection of an unedited document.  When the names of the
    well-known fields are single lines and the content of every rendered
    field is a C string without a line that starts with two backslashes and
    '#' or with the field marker %----, reading back the document that
    [write_crash_report] has just written, after
    [remove_comments_and_unescape], returns 0 and changes neither the report
    nor the log. *)
Theorem unedited_document_changes_nothing {ct : crash_types} (w : world) :
  w_file w = "" →
  (∀ field, field ∈ well_known_fields.*1 → one_line field = true) →
  (∀ field value,
     field ∈ well_known_fields.*1 → w_report w !! field = Some value →
     Z.land (flags value) CD_FLAG_SYS = 0 → plain_content (content value)) →
  let w1 := (write_crash_report w).2 in
  read_crash_report (remove_comments_and_unescape (w_file w1)) w1 = (0, w1).
Proof.
  intros Hfile Hnames Hcontent. cbv zeta.
  apply unedited_document_quiet; try done. apply write_crash_report_report.
Qed.

Lemma unedited_document_changes_nothing_witness :
  let w1 := (write_crash_report (ct:=sample_crash_types) sample_world).2 in
  read_crash_report (ct:=sample_crash_types)
    (remove_comments_and_unescape (w_file w1)) w1 = (0, w1).
Proof.
  apply (unedited_document_changes_nothing (ct:=sample_crash_types) sample_world).
  - reflexivity.
  - intros field Hin. vm_compute in Hin.
    repeat (apply elem_of_cons in Hin as [->|Hin]; [reflexivity|]).
    by apply elem_of_nil in Hin.
  - intros field value Hin Hv Hsys. vm_compute in Hin.
    repeat (apply elem_of_cons in Hin as [->|Hin];
            [vm_compute in Hv; try discriminate Hv;
             injection Hv as <-; try discriminate Hsys;
             repeat split; vm_compute; reflexivity|]).
    by apply elem_of_nil in Hin.
Defined.

(** X25.  A review in which the editor saves the file as it found it.  When
    the temporary file can be created, written, read and closed, an editor
    can be started and the command leaves the temporary file as it is, then
    (for field names and contents as in the previous property)
    [run_report_editor] returns 0, the report is unchanged, and the only
    output is the line that no changes were detected. *)
Theorem run_report_editor_without_edit {ct : crash_types} {ee : editor_env}
    (e : editor_state) (filename : string) :
  mkstemp "/tmp/abrt-report.XXXXXX" = Some filename →
  fdopen_w = true → fclose_w = true →
  (editor_from_env ≠ None
   ∨ ∃ term, getenv_TERM = Some term ∧ term ≠ "dumb") →
  (∀ disk, run_command [default "vi" editor_from_env; filename] disk !! filename
           = disk !! filename) →
  fopen_r filename = true → fread_ok = true → fclose_r = true →
  (∀ field, field ∈ well_known_fields.*1 → one_line field = true) →
  (∀ field value,
     field ∈ well_known_fields.*1 → ed_report e !! field = Some value →
     Z.land (flags value) CD_FLAG_SYS = 0 → plain_content (content value)) →
  let '(rc, e') := run_report_editor e in
  rc = 0
  ∧ ed_report e' = ed_report e
  ∧ ed_stdout e'
    = (ed_stdout e
       ++ [nl +:+ "No changes were detected in the report" +:+ nl])%list.
Proof.
  intros Hmk Hfd Hfc Heditor Hrun Hfo Hfr Hfcl Hnames Hcontent.
  unfold run_report_editor. rewrite Hmk.
  cbv [mbind state_bind mret state_ret ed_set_disk modify]. rewrite Hfd, Hfc.
  cbn [negb]. unfold ed_document at 1. cbn [ed_report ed_log ed_stdout ed_disk].
  set (w := World (ed_report e) "" (ed_log e)).
  pose proof (write_crash_report_report w) as Hrep.
  pose proof (λ w', unedited_document_quiet w w' eq_refl) as Hquiet.
  destruct (write_crash_report w) as [[] w1]. cbn [snd] in Hrep, Hquiet.
  unfold launch_editor.
  assert (Hcan : bool_decide (editor_from_env = None)
                 && match getenv_TERM with
                    | None => true
                    | Some term => bool_decide (term = "dumb")
                    end = false).
  { destruct Heditor as [Hed|(term & -> & Hterm)].
    - by rewrite bool_decide_eq_false_2.
    - rewrite (bool_decide_eq_false_2 (term = "dumb")) by done.
      apply andb_false_r. }
  rewrite Hcan. cbv [mbind state_bind mret state_ret ed_set_disk modify].
  cbn [ed_report ed_log ed_stdout ed_disk].
  rewrite bool_decide_eq_false_2 by (intros Hne; by apply Hne).
  cbn [ed_report ed_log ed_stdout ed_disk].
  rewrite Hrun, lookup_insert_eq, Hfo, Hfr, Hfcl. cbn [negb].
  destruct (unlink_ok filename);
    cbv [mbind state_bind mret state_ret ed_set_disk ed_error ed_puts modify
         ed_document];
    cbn [ed_report ed_log ed_stdout ed_disk];
    rewrite Hquiet by (done || by rewrite Hrep);
    rewrite bool_decide_eq_false_2 by (intros Hne; by apply Hne);
    cbn [ed_report ed_log ed_stdout ed_disk w_report]; by rewrite Hrep.
Qed.

Lemma run_report_editor_without_edit_witness :
  let '(rc, e') :=
    run_report_editor (ct:=sample_crash_types) (ee:=sample_editor_env)
      (EditorState sample_report [] [] ∅) in
  rc = 0
  ∧ ed_report e' = sample_report
  ∧ ed_stdout e' = [nl +:+ "No changes were detected in the report" +:+ nl].
Proof.
  apply (run_report_editor_without_edit (ct:=sample_crash_types)
           (ee:=sample_editor_env) (EditorState sample_report [] [] ∅)
           "/tmp/abrt-report.AbCdEf"); try reflexivity.
  - left. discriminate.
  - intros field Hin. vm_compute in Hin.
    repeat (apply elem_of_cons in Hin as [->|Hin]; [reflexivity|]).
    by apply elem_of_nil in Hin.
  - intros field value Hin Hv Hsys. vm_compute in Hin.
    repeat (apply elem_of_cons in Hin as [->|Hin];
            [vm_compute in Hv; try discriminate Hv;
             injection Hv as <-; try discriminate Hsys;
             repeat split; vm_compute; reflexivity|]).
    by apply elem_of_nil in Hin.
Defined.
